(** * Smaug free mode: the deterministic bookmark pipeline

    A shallow embedding of [src/free-mode/pipeline.js] (class
    [FreeModePipeline]) and of [src/free-mode/openrouter-client.js]
    (class [OpenRouterClient]), followed by the properties of the
    category resolver, the output validator, the slug generator and the
    archive updater.

    JavaScript strings are sequences of 16-bit code units.  They are
    modelled by [string], one [ascii] per code unit, which covers the
    code units U+0000 to U+00FF; [toLowerCase], [trim] and the regular
    expression classes are written out for that range. *)

From Stdlib Require Import ZArith Lia Ascii String List Bool DecimalString.
From stdpp Require Import gmap strings list.

Local Open Scope Z_scope.

(** ** JavaScript string primitives *)

Module Js.

Definition code (c : ascii) : Z := Z.of_N (N_of_ascii c).
Definition unit_of (z : Z) : ascii := ascii_of_N (Z.to_N z).

(** [WhiteSpace] and [LineTerminator] below U+0100: what [trim] strips
    and what [\s] matches. *)
Definition isWhiteSpace (c : ascii) : bool :=
  let n := code c in
  ((9 <=? n) && (n <=? 13)) || (n =? 32) || (n =? 160).

Definition isDigit (c : ascii) : bool :=
  let n := code c in (48 <=? n) && (n <=? 57).

Definition isLower (c : ascii) : bool :=
  let n := code c in (97 <=? n) && (n <=? 122).

Definition isUpper (c : ascii) : bool :=
  let n := code c in (65 <=? n) && (n <=? 90).

(** [\w] is [[A-Za-z0-9_]]. *)
Definition isWord (c : ascii) : bool :=
  isLower c || isUpper c || isDigit c || (code c =? 95).

Definition toLowerUnit (c : ascii) : ascii :=
  let n := code c in
  if isUpper c || ((192 <=? n) && (n <=? 222) && negb (n =? 215))
  then unit_of (n + 32) else c.

Fixpoint toLowerCase (s : string) : string :=
  match s with
  | EmptyString => EmptyString
  | String c s' => String (toLowerUnit c) (toLowerCase s')
  end.

Fixpoint trimStart (s : string) : string :=
  match s with
  | EmptyString => EmptyString
  | String c s' => if isWhiteSpace c then trimStart s' else s
  end.

Fixpoint trimEnd (s : string) : string :=
  match s with
  | EmptyString => EmptyString
  | String c s' =>
      match trimEnd s' with
      | EmptyString => if isWhiteSpace c then EmptyString else String c EmptyString
      | t => String c t
      end
  end.

Definition trim (s : string) : string := trimEnd (trimStart s).

Fixpoint startsWith (s p : string) {struct p} : bool :=
  match p, s with
  | EmptyString, _ => true
  | String _ _, EmptyString => false
  | String a p', String b s' => if Ascii.eqb a b then startsWith s' p' else false
  end.

(** [s.includes(p)] *)
Fixpoint includes (s p : string) : bool :=
  startsWith s p ||
  match s with
  | EmptyString => false
  | String _ s' => includes s' p
  end.

(** [s.indexOf(p)]; [None] stands for [-1]. *)
Fixpoint indexOf (s p : string) : option nat :=
  if startsWith s p then Some 0%nat
  else match s with
       | EmptyString => None
       | String _ s' => S <$> indexOf s' p
       end.

Fixpoint take (n : nat) (s : string) : string :=
  match n, s with
  | O, _ => EmptyString
  | S _, EmptyString => EmptyString
  | S n', String c s' => String c (take n' s')
  end.

Fixpoint drop (n : nat) (s : string) : string :=
  match n, s with
  | O, _ => s
  | S _, EmptyString => EmptyString
  | S n', String _ s' => drop n' s'
  end.

(** [s.indexOf(p, from)] *)
Definition indexOfFrom (s p : string) (from : nat) : option nat :=
  (fun j => (from + j)%nat) <$> indexOf (drop from s) p.

(** [s.lastIndexOf(p)] *)
Fixpoint lastIndexOf (s p : string) : option nat :=
  match s with
  | EmptyString => if startsWith s p then Some 0%nat else None
  | String _ s' =>
      match lastIndexOf s' p with
      | Some j => Some (S j)
      | None => if startsWith s p then Some 0%nat else None
      end
  end.

(** [s.slice(0, n)] and [s.substring(0, n)] for [0 <= n]. *)
Definition slice0 (s : string) (n : nat) : string := take n s.

(** [s.substring(i, j)] for [0 <= i <= j]. *)
Definition substring (s : string) (i j : nat) : string := take (j - i) (drop i s).

Fixpoint filter (keep : ascii -> bool) (s : string) : string :=
  match s with
  | EmptyString => EmptyString
  | String c s' => if keep c then String c (filter keep s') else filter keep s'
  end.

(** [s.replace(/\s+/g, r)]: every maximal run of white space becomes one [r]. *)
Fixpoint replaceSpaceRuns (r : string) (s : string) : string :=
  match s with
  | EmptyString => EmptyString
  | String c s' =>
      if isWhiteSpace c then
        match s' with
        | String d _ => if isWhiteSpace d then replaceSpaceRuns r s'
                        else r +:+ replaceSpaceRuns r s'
        | EmptyString => r
        end
      else String c (replaceSpaceRuns r s')
  end.

(** [s.replace(/c/g, r)] for a single character [c]. *)
Fixpoint replaceChar (c : ascii) (r : string) (s : string) : string :=
  match s with
  | EmptyString => EmptyString
  | String d s' =>
      (if Ascii.eqb c d then r else String d EmptyString) +:+ replaceChar c r s'
  end.

(** [s.split(/\s+/)]: the pieces between maximal runs of white space; a run
    at either end leaves an empty piece there, and the empty string splits
    into one empty piece. *)
Fixpoint splitSpaces_aux (inRun : bool) (s : string) : string * list string :=
  match s with
  | EmptyString => (EmptyString, [])
  | String c s' =>
      if isWhiteSpace c then
        let '(w, ws) := splitSpaces_aux true s' in
        if inRun then (w, ws) else (EmptyString, w :: ws)
      else
        let '(w, ws) := splitSpaces_aux false s' in
        (String c w, ws)
  end.

Definition splitSpaces (s : string) : list string :=
  let '(w, ws) := splitSpaces_aux false s in w :: ws.

Fixpoint join (sep : string) (l : list string) : string :=
  match l with
  | [] => EmptyString
  | [x] => x
  | x :: l' => x +:+ sep +:+ join sep l'
  end.

(** [x || d] on strings: the empty string is falsy. *)
Definition orElse (x d : string) : string :=
  match x with EmptyString => d | _ => x end.

Definition truthy (s : string) : bool :=
  match s with EmptyString => false | _ => true end.

(** [[...s].every(p)] *)
Fixpoint every (p : ascii -> bool) (s : string) : bool :=
  match s with
  | EmptyString => true
  | String c s' => p c && every p s'
  end.

Definition concat (pieces : list string) : string :=
  fold_right String.append EmptyString pieces.

(** The line feed, U+000A. *)
Definition nl : string := String (unit_of 10) EmptyString.

(** [s.replace(p, r)] for a string [p]: the first occurrence only. *)
Definition replaceFirst (p r s : string) : string :=
  match indexOf s p with
  | Some i => take i s +:+ r +:+ drop (i + String.length p) s
  | None => s
  end.

(** [o || d] where [o] may be absent. *)
Definition orOpt (o : option string) (d : string) : string :=
  match o with
  | Some (String c s) => String c s
  | _ => d
  end.

(** The double quote, U+0022, and a name between two of them. *)
Definition dquote : ascii := unit_of 34.
Definition quoted (s : string) : string :=
  String dquote (s +:+ String dquote EmptyString).

End Js.

(** ** MD5, as [crypto.createHash('md5').update(s).digest('hex')] computes it

    32-bit words are [Z] with the wrap-around written out. *)

Module Md5.

Definition w32 (x : Z) : Z := x mod 4294967296.
Definition add32 (a b : Z) : Z := w32 (a + b).
Definition not32 (x : Z) : Z := Z.lxor x 4294967295.
Definition rotl32 (x c : Z) : Z := Z.lor (w32 (Z.shiftl x c)) (Z.shiftr x (32 - c)).

Definition K : list Z :=
  [ 0xd76aa478; 0xe8c7b756; 0x242070db; 0xc1bdceee;
    0xf57c0faf; 0x4787c62a; 0xa8304613; 0xfd469501;
    0x698098d8; 0x8b44f7af; 0xffff5bb1; 0x895cd7be;
    0x6b901122; 0xfd987193; 0xa679438e; 0x49b40821;
    0xf61e2562; 0xc040b340; 0x265e5a51; 0xe9b6c7aa;
    0xd62f105d; 0x02441453; 0xd8a1e681; 0xe7d3fbc8;
    0x21e1cde6; 0xc33707d6; 0xf4d50d87; 0x455a14ed;
    0xa9e3e905; 0xfcefa3f8; 0x676f02d9; 0x8d2a4c8a;
    0xfffa3942; 0x8771f681; 0x6d9d6122; 0xfde5380c;
    0xa4beea44; 0x4bdecfa9; 0xf6bb4b60; 0xbebfbc70;
    0x289b7ec6; 0xeaa127fa; 0xd4ef3085; 0x04881d05;
    0xd9d4d039; 0xe6db99e5; 0x1fa27cf8; 0xc4ac5665;
    0xf4292244; 0x432aff97; 0xab9423a7; 0xfc93a039;
    0x655b59c3; 0x8f0ccc92; 0xffeff47d; 0x85845dd1;
    0x6fa87e4f; 0xfe2ce6e0; 0xa3014314; 0x4e0811a1;
    0xf7537e82; 0xbd3af235; 0x2ad7d2bb; 0xeb86d391 ].

Definition shifts : list Z :=
  [ 7; 12; 17; 22; 7; 12; 17; 22; 7; 12; 17; 22; 7; 12; 17; 22;
    5; 9; 14; 20; 5; 9; 14; 20; 5; 9; 14; 20; 5; 9; 14; 20;
    4; 11; 16; 23; 4; 11; 16; 23; 4; 11; 16; 23; 4; 11; 16; 23;
    6; 10; 15; 21; 6; 10; 15; 21; 6; 10; 15; 21; 6; 10; 15; 21 ].

Record state := mkState { sa : Z; sb : Z; sc : Z; sd : Z }.

Definition init : state :=
  mkState 0x67452301 0xefcdab89 0x98badcfe 0x10325476.

(** The UTF-8 bytes of a string of code units below U+0100. *)
Fixpoint utf8 (s : string) : list Z :=
  match s with
  | EmptyString => []
  | String c s' =>
      let n := Js.code c in
      if n <? 128 then n :: utf8 s'
      else Z.lor 192 (Z.shiftr n 6) :: Z.lor 128 (Z.land n 63) :: utf8 s'
  end.

Definition le_bytes (count : nat) (x : Z) : list Z :=
  map (fun i => Z.shiftr x (8 * Z.of_nat i) mod 256) (seq 0 count).

Definition pad (msg : list Z) : list Z :=
  let n := Z.of_nat (length msg) in
  msg ++ 128 :: repeat 0 (Z.to_nat ((55 - n) mod 64)) ++ le_bytes 8 (8 * n).

Fixpoint chunks (fuel : nat) (l : list Z) : list (list Z) :=
  match fuel, l with
  | O, _ | _, [] => []
  | S f, _ => firstn 64 l :: chunks f (skipn 64 l)
  end.

Definition word_at (block : list Z) (g : Z) : Z :=
  let b k := nth (Z.to_nat (4 * g + k)) block 0 in
  b 0 + Z.shiftl (b 1) 8 + Z.shiftl (b 2) 16 + Z.shiftl (b 3) 24.

Definition round (block : list Z) (st : state) (i : nat) : state :=
  let '(mkState a b c d) := st in
  let iz := Z.of_nat i in
  let '(f, g) :=
    if iz <? 16 then (Z.lor (Z.land b c) (Z.land (not32 b) d), iz)
    else if iz <? 32 then (Z.lor (Z.land d b) (Z.land (not32 d) c), (5 * iz + 1) mod 16)
    else if iz <? 48 then (Z.lxor (Z.lxor b c) d, (3 * iz + 5) mod 16)
    else (Z.lxor c (Z.lor b (not32 d)), (7 * iz) mod 16) in
  let f' := add32 (add32 (add32 f a) (nth i K 0)) (word_at block g) in
  mkState d (add32 b (rotl32 f' (nth i shifts 0))) b c.

Definition compress (st : state) (block : list Z) : state :=
  let '(mkState a b c d) := fold_left (round block) (seq 0 64) st in
  mkState (add32 (sa st) a) (add32 (sb st) b) (add32 (sc st) c) (add32 (sd st) d).

Definition digest (msg : list Z) : list Z :=
  let padded := pad msg in
  let '(mkState a b c d) := fold_left compress (chunks (length padded) padded) init in
  le_bytes 4 a ++ le_bytes 4 b ++ le_bytes 4 c ++ le_bytes 4 d.

Definition hexDigit (n : Z) : ascii :=
  let m := n mod 16 in
  if m <? 10 then Js.unit_of (48 + m) else Js.unit_of (87 + m).

Definition isHexDigit (c : ascii) : bool :=
  let n := Js.code c in
  ((48 <=? n) && (n <=? 57)) || ((97 <=? n) && (n <=? 102)).

Fixpoint hex (bytes : list Z) : string :=
  match bytes with
  | [] => EmptyString
  | b :: rest => String (hexDigit (b / 16)) (String (hexDigit b) (hex rest))
  end.

(** [crypto.createHash('md5').update(s).digest('hex')] *)
Definition md5hex (s : string) : string := hex (digest (utf8 s)).

End Md5.

(** ** [path.join] of Node's POSIX [path] module *)

Module Path.

Fixpoint splitSlash_aux (s : string) : string * list string :=
  match s with
  | EmptyString => (EmptyString, [])
  | String c s' =>
      let '(w, ws) := splitSlash_aux s' in
      if Ascii.eqb c "/" then (EmptyString, w :: ws) else (String c w, ws)
  end.

Definition segments (s : string) : list string :=
  let '(w, ws) := splitSlash_aux s in w :: ws.

Fixpoint endsWithSlash (s : string) : bool :=
  match s with
  | EmptyString => false
  | String c EmptyString => Ascii.eqb c "/"
  | String _ s' => endsWithSlash s'
  end.

(** One segment of [normalizeString]; [res] holds the kept segments, last first. *)
Definition normalizeStep (allowAboveRoot : bool) (res : list string) (seg : string)
  : list string :=
  if String.eqb seg "" || String.eqb seg "." then res
  else if String.eqb seg ".." then
    match res with
    | last :: rest =>
        if String.eqb last ".." then (if allowAboveRoot then seg :: res else res)
        else rest
    | [] => if allowAboveRoot then [seg] else []
    end
  else seg :: res.

Definition normalize (p : string) : string :=
  match p with
  | EmptyString => "."
  | _ =>
      let isAbsolute := Js.startsWith p "/" in
      let trailingSeparator := endsWithSlash p in
      let body :=
        Js.join "/" (rev (fold_left (normalizeStep (negb isAbsolute)) (segments p) [])) in
      match body with
      | EmptyString => if isAbsolute then "/" else if trailingSeparator then "./" else "."
      | _ => (if isAbsolute then "/" else "") +:+ body
             +:+ (if trailingSeparator then "/" else "")
      end
  end.

(** [path.join(a, b)] *)
Definition join (a b : string) : string :=
  match a, b with
  | EmptyString, EmptyString => "."
  | EmptyString, _ => normalize b
  | _, EmptyString => normalize a
  | _, _ => normalize (a +:+ "/" +:+ b)
  end.

End Path.

(** ** Exceptions and results *)

Inductive JsError :=
| Error (message : string)
| TypeError (message : string)
| SyntaxError (message : string).

Inductive result (A : Type) :=
| Ok (value : A)
| Throw (error : JsError).
Arguments Ok {A} value.
Arguments Throw {A} error.

Definition bind {A B} (r : result A) (k : A -> result B) : result B :=
  match r with
  | Ok a => k a
  | Throw e => Throw e
  end.

Notation "x <- r ;; k" := (bind r (fun x => k))
  (at level 100, r at next level, right associativity).

(** ** The data model *)

Record LinkContent := {
  content_title : option string;
  content_name : option string;
  content_description : option string
}.

Record Link := {
  expanded : string;
  content : option LinkContent
}.

Record Context := {
  context_author : string;
  context_text : string
}.

(** A bookmark.  An absent [links] or [tags] is the empty list: the code
    reads them through [?.] and [|| []] only, where the two agree. *)
Record Bookmark := {
  id : string;
  author : string;
  text : string;
  date : string;
  tweetUrl : string;
  links : list Link;
  tags : list string;
  replyContext : option Context;
  quoteContext : option Context
}.

Record ReasoningResult := {
  title : string;
  summary : string;
  rtags : list string;
  category : string
}.

(** A registry entry.  [key] is optional: the registry of the test suite
    leaves it out, the synthesized default carries it.  An absent [match]
    list is the empty list ([category.match?.some(...)]). *)
Record CategoryRule := {
  key : option string;
  action : string;
  folder : option string;
  matches : list string;
  template : option string;
  description : string
}.

Record ProcessingResult := {
  res_id : string;
  res_title : string;
  res_slug : string;
  res_category : option string;
  res_filePath : option string
}.

(** ** [OpenRouterClient] *)

#[warnings="-register-all"]
Inductive json :=
| JNull
| JBool (b : bool)
| JNumber (literal : string)
| JString (s : string)
| JArray (items : list json)
| JObject (members : list (string * json)).

Module OpenRouterClient.

(** [value.name]: [None] is [undefined].  Reading a property of [null]
    throws; the four names read here are no built-in property of a
    boolean, number, string or array.  An object holds each name once. *)
Fixpoint member (name : string) (members : list (string * json)) : option json :=
  match members with
  | [] => None
  | (k, v) :: rest => if String.eqb k name then Some v else member name rest
  end.

Definition prop (value : json) (name : string) : result (option json) :=
  match value with
  | JNull => Throw (TypeError ("Cannot read properties of null (reading '" +:+ name +:+ "')"))
  | JObject members => Ok (member name members)
  | _ => Ok None
  end.

(** [!v || typeof v !== 'string'] fails exactly on a non-empty string. *)
Definition nonEmptyString (v : option json) : option string :=
  match v with
  | Some (JString (String c s)) => Some (String c s)
  | _ => None
  end.

Definition required (parsed : json) (name : string) : result string :=
  v <- prop parsed name ;;
  match nonEmptyString v with
  | Some s => Ok s
  | None => Throw (Error ("Missing or invalid " +:+ Js.quoted name +:+ " field"))
  end.

(** [t.trim()] on an element of [tags]: only a string has the method. *)
Definition trimTag (t : json) : result string :=
  match t with
  | JString s => Ok (Js.trim s)
  | JNull => Throw (TypeError "Cannot read properties of null (reading 'trim')")
  | _ => Throw (TypeError "t.trim is not a function")
  end.

Fixpoint trimTags (items : list json) : result (list string) :=
  match items with
  | [] => Ok []
  | t :: rest =>
      s <- trimTag t ;;
      ss <- trimTags rest ;;
      Ok (s :: ss)
  end.

(** Lines 120 to 138: the checks on the parsed value, in source order, and
    the normalised record. *)
Definition validate (parsed : json) : result ReasoningResult :=
  t <- required parsed "title" ;;
  s <- required parsed "summary" ;;
  c <- required parsed "category" ;;
  tagsv <- prop parsed "tags" ;;
  match tagsv with
  | Some (JArray items) =>
      ts <- trimTags items ;;
      Ok {| title := Js.trim t;
            summary := Js.trim s;
            rtags := List.filter Js.truthy ts;
            category := Js.trim c |}
  | _ => Throw (Error ("Invalid " +:+ Js.quoted "tags" +:+ " field: must be array"))
  end.

(** Lines 107 to 110, [cleaned.match(/```(?:json)?\s*([\s\S]*?)\s*```/)]
    followed by [jsonMatch[1].trim()].  The match starts at the first fence;
    [json] is skipped when it follows; the lazy group stops at the next fence,
    and the white space the two [\s*] take is what [trim] would strip. *)
Definition fence : string := "```".

Definition unfence (cleaned : string) : string :=
  match Js.indexOf cleaned fence with
  | None => cleaned
  | Some i =>
      let after := Js.drop (i + 3) cleaned in
      let body := if Js.startsWith after "json" then Js.drop 4 after else after in
      match Js.indexOf body fence with
      | None => cleaned
      | Some j => Js.trim (Js.take j body)
      end
  end.

(** Lines 112 to 116. *)
Definition braces (cleaned : string) : string :=
  match Js.indexOf cleaned "{", Js.lastIndexOf cleaned "}" with
  | Some firstBrace, Some lastBrace =>
      if (firstBrace <=? lastBrace)%nat
      then Js.substring cleaned firstBrace (lastBrace + 1)
      else Js.substring cleaned (lastBrace + 1) firstBrace
  | _, _ => cleaned
  end.

Section ParseOutput.

(** [JSON.parse]: the parsed value, or [None] where it throws a [SyntaxError]. *)
Variable JSON_parse : string -> option json.

Definition _parseOutput (rawOutput : string) : result ReasoningResult :=
  let cleaned := braces (unfence (Js.trim rawOutput)) in
  match JSON_parse cleaned with
  | None => Throw (SyntaxError "Unexpected token in JSON")
  | Some parsed => validate parsed
  end.

End ParseOutput.

(** What the request of [getReasoning] comes to. *)
Inductive Reply :=
| Answer (content : string)
| NotOk (message : string)
| Aborted
| Rejected (error : JsError).

(** The client: the key it was built with, and the network it talks to.
    [fetch] receives the prompts sent before and the prompt at hand. *)
Record Client := {
  apiKey : option string;
  JSON_parse : string -> option json;
  fetch : list string -> string -> Reply
}.

(** Lines 46 to 102: the result, and the prompts sent once the call is over.
    Without a key the call throws before anything is sent. *)
Definition getReasoning (client : Client) (sent : list string) (prompt : string)
    (timeout : N) : result ReasoningResult * list string :=
  match apiKey client with
  | Some (String _ _) =>
      let timeout := if (timeout =? 0)%N then 30000%N else timeout in
      (match fetch client sent prompt with
       | Answer content => _parseOutput (JSON_parse client) content
       | NotOk message => Throw (Error ("OpenRouter API error: " +:+ message))
       | Aborted =>
           Throw (Error ("OpenRouter timeout after "
                         +:+ NilZero.string_of_uint (N.to_uint timeout) +:+ "ms"))
       | Rejected error => Throw error
       end,
       sent ++ [prompt])
  | _ => (Throw (Error "OPENROUTER_API_KEY not configured"), sent)
  end.

End OpenRouterClient.

(** ** [FreeModePipeline]: the pure components *)

Module FreeModePipeline.

(** [keywords.some(k => s.includes(k))]: the chains of [||] over [includes]. *)
Definition includesAny (s : string) (keywords : list string) : bool :=
  existsb (Js.includes s) keywords.

(** The object literal [categoryMap], one pair per property in source
    order.  A name written twice keeps the later value. *)
Definition categoryMap_entries : list (string * string) :=
  [ ("github", "github"); ("repo", "github"); ("repository", "github"); ("code", "github");
    ("source", "github"); ("article", "article"); ("blog", "article"); ("post", "article");
    ("guide", "article"); ("tutorial", "article"); ("docs", "article"); ("documentation", "article");
    ("video", "youtube"); ("youtube", "youtube"); ("screencast", "youtube"); ("talk", "youtube");
    ("presentation", "youtube"); ("podcast", "podcast"); ("audio", "podcast"); ("episode", "podcast");
    ("interview", "podcast"); ("tool", "github"); ("utility", "github"); ("library", "github");
    ("framework", "github"); ("app", "github"); ("service", "github"); ("api", "github");
    ("package", "github"); ("module", "github"); ("general", "tweet"); ("misc", "tweet");
    ("note", "tweet"); ("announcement", "tweet"); ("news", "tweet"); ("thought", "tweet");
    ("idea", "tweet"); ("resource", "article"); ("resources", "article"); ("list", "article");
    ("collection", "article"); ("deal", "article"); ("deals", "article"); ("offer", "article");
    ("offers", "article"); ("discount", "article"); ("free", "article"); ("stack", "github");
    ("techstack", "github"); ("tech", "github"); ("toolset", "github"); ("setup", "github");
    ("course", "article"); ("courses", "article"); ("learning", "article"); ("learn", "article");
    ("education", "article"); ("student", "article"); ("students", "article"); ("developer", "article");
    ("dev", "article"); ("programming", "article"); ("comprehensive", "article"); ("complete", "article");
    ("ultimate", "article"); ("guide", "article"); ("ai", "article"); ("ml", "article");
    ("llm", "article"); ("model", "article"); ("claude", "article"); ("gemini", "article");
    ("mcp", "github"); ("automation", "github"); ("blender", "github"); ("concept", "article");
    ("os", "github"); ("operating", "github"); ("system", "github"); ("tip", "article");
    ("tips", "article"); ("millionaires", "article"); ("shipping", "github"); ("products", "github");
    ("scene", "github"); ("generation", "article"); ("benefits", "article"); ("benefits", "article");
    ("storage", "github"); ("backend", "github"); ("guided", "article"); ("feature", "article");
    ("hacking", "article"); ("beginners", "article"); ("layer", "github"); ("version", "github");
    ("v3", "github"); ("intelligence", "article"); ("fundamental", "article"); ("advanced", "article");
    ("concepts", "article"); ("automation", "github"); ("unlimited", "github"); ("cloud", "github");
    ("telegram", "github"); ("backend", "github"); ("message", "github"); ("commit", "github");
    ("message", "github"); ("vibe", "article"); ("chat", "article"); ("history", "article");
    ("conversations", "article"); ("ragging", "article"); ("rag", "article"); ("vision", "article");
    ("personal", "article"); ("3d", "article"); ("y combinator", "article"); ("yc", "article");
    ("combinator", "article"); ("student deals", "article"); ("credits", "article"); ("startup", "article");
    ("funding", "article"); ("accelerator", "article") ].

Definition categoryMap : gmap string string :=
  fold_left (fun m kv => <[kv.1 := kv.2]> m) categoryMap_entries ∅.

(** What [categoryMap[name]] evaluates to when it is truthy: a canonical key
    of the table, or an object inherited from [Object.prototype], kept as the
    string it turns into when used as a property name.  Of the inherited
    names only [constructor] and [__proto__] are all lower case, and every
    name looked up has been lower-cased. *)
Inductive matched :=
| Canonical (key : string)
| Inherited (asPropertyName : string).

Definition categoryMap_get (name : string) : option matched :=
  match categoryMap !! name with
  | Some k => Some (Canonical k)
  | None =>
      if String.eqb name "constructor"
      then Some (Inherited "function Object() { [native code] }")
      else if String.eqb name "__proto__"
      then Some (Inherited "[object Object]")
      else None
  end.

(** [matchedKey === 'tweet'] *)
Definition isTweet (matchedKey : option matched) : bool :=
  match matchedKey with
  | Some (Canonical k) => String.eqb k "tweet"
  | _ => false
  end.

(** [!matchedKey || matchedKey === 'tweet'] *)
Definition unresolved (matchedKey : option matched) : bool :=
  match matchedKey with
  | None => true
  | _ => isTweet matchedKey
  end.

(** The name [this.categories[matchedKey]] looks up. *)
Definition propertyName (matchedKey : option matched) : string :=
  match matchedKey with
  | None => "undefined"
  | Some (Canonical k) => k
  | Some (Inherited s) => s
  end.

Definition githubKeywords : list string :=
  [ "github"; " repo"; "npm"; "mcp"; "automation"; "/commit"; "backend"; "storage";
    "cloud"; "layer"; "version"; "blender" ].
Definition videoKeywords : list string := [ "video"; "youtube"; "watch"; "talk" ].
Definition podcastKeywords : list string := [ "podcast"; "audio"; "episode" ].
Definition articleKeywords : list string :=
  [ "article"; "blog"; "post"; "guide"; "tutorial"; "course"; "resource"; "learning";
    "student"; "developer"; "free"; "comprehensive"; "ultimate"; "deal"; "tip"; "feature";
    "hacking"; "beginners"; "generation"; "fundamental"; "advanced"; "concept"; "benefits";
    "intelligence"; "vibe"; "guided"; "chat"; "history"; "conversations"; "ragging";
    "vision"; "personal"; "3d"; "millionaire" ].
Definition toolKeywords : list string :=
  [ "library"; "framework"; "tool"; " app"; "stack"; "tech"; "products"; "shipping";
    "operating"; "system"; "millionaires"; "scene" ].
Definition topicalKeywords : list string :=
  [ "ai"; "student"; "deal"; "credit"; "combinator"; "y combinator"; "yc"; "startup";
    "funding"; "accelerator" ].

(** Lines 207 to 210. *)
Definition combinedTextOf (bookmark : Bookmark) (reasoning : option ReasoningResult)
  : string :=
  let titleLower := Js.toLowerCase (from_option title EmptyString reasoning) in
  let summaryLower := Js.toLowerCase (from_option summary EmptyString reasoning) in
  let textLower := Js.toLowerCase (text bookmark) in
  titleLower +:+ " " +:+ summaryLower +:+ " " +:+ textLower.

(** Lines 243 to 272: the keyword groups, first hit wins. *)
Definition keywordScan (combinedText : string) : option matched :=
  if includesAny combinedText githubKeywords then Some (Canonical "github")
  else if includesAny combinedText videoKeywords then Some (Canonical "youtube")
  else if includesAny combinedText podcastKeywords then Some (Canonical "podcast")
  else if includesAny combinedText articleKeywords then Some (Canonical "article")
  else if includesAny combinedText toolKeywords then Some (Canonical "github")
  else None.

(** Lines 275 to 281: the first word the table knows. *)
Fixpoint firstKnownWord (words : list string) : option matched :=
  match words with
  | [] => None
  | word :: rest =>
      match categoryMap_get word with
      | Some m => Some m
      | None => firstKnownWord rest
      end
  end.

(** [matchedKey] as it stands at line 292, after the label lookup, the
    keyword scan, the word scan and the topical scan. *)
Definition resolveKey (bookmark : Bookmark) (reasoning : option ReasoningResult)
  : option matched :=
  let aiCategory :=
    Js.trim (Js.toLowerCase (from_option category EmptyString reasoning)) in
  let combinedText := combinedTextOf bookmark reasoning in
  let k1 := categoryMap_get aiCategory in
  let k2 := match k1 with None => keywordScan combinedText | Some _ => k1 end in
  let k3 :=
    if unresolved k2 then
      match firstKnownWord (Js.splitSpaces combinedText) with
      | Some m => Some m
      | None => k2
      end
    else k2 in
  if unresolved k3 && includesAny combinedText topicalKeywords
  then Some (Canonical "article")
  else k3.

(** The rule returned at line 307. *)
Definition fallbackRule : CategoryRule :=
  {| key := Some "tweet";
     action := "capture";
     folder := None;
     matches := [];
     template := None;
     description := "Plain tweets" |}.

Section Registry.

(** [this.categories], one pair per own property in the order
    [Object.entries] lists them; an object holds each name once. *)
Variable categories : list (string * CategoryRule).

(** [this.categories[name]]; [None] is [undefined]. *)
Fixpoint lookupIn (entries : list (string * CategoryRule)) (name : string)
  : option CategoryRule :=
  match entries with
  | [] => None
  | (k, rule) :: rest => if String.eqb k name then Some rule else lookupIn rest name
  end.

Definition categories_get (name : string) : option CategoryRule :=
  lookupIn categories name.

(** Lines 317 to 324. *)
Fixpoint findIn (entries : list (string * CategoryRule)) (url : string)
  : option string :=
  match entries with
  | [] => None
  | (k, rule) :: rest =>
      if includesAny url (matches rule) then Some k else findIn rest url
  end.

Definition _findCategoryByUrl (url : string) : option string :=
  findIn categories url.

(** Lines 294 to 299: the first link whose category name is truthy decides;
    [None] when the loop ends without returning. *)
Fixpoint firstLinkCategory (ls : list Link) : option (option CategoryRule) :=
  match ls with
  | [] => None
  | link :: rest =>
      match _findCategoryByUrl (expanded link) with
      | Some (String c k) => Some (categories_get (String c k))
      | _ => firstLinkCategory rest
      end
  end.

(** Lines 203 to 315.  [None] is [undefined]. *)
Definition _matchCategory (bookmark : Bookmark) (reasoning : option ReasoningResult)
  : option CategoryRule :=
  let matchedKey := resolveKey bookmark reasoning in
  let atLine302 :=
    match categories_get (propertyName matchedKey) with
    | Some result => Some result
    | None => Some fallbackRule
    end in
  if isTweet matchedKey then
    match firstLinkCategory (links bookmark) with
    | Some returned => returned
    | None => atLine302
    end
  else atLine302.

End Registry.

(** Lines 134 to 201. *)
Definition githubHosts : list string :=
  [ "github.com"; "npmjs.com"; "pypi.org"; "gitlab.com"; "bitbucket.org" ].
Definition articleHosts : list string :=
  [ "medium.com"; "substack.com"; "dev.to"; "blog."; "hackernoon.com"; "freecodecamp.org" ].
Definition videoHosts : list string := [ "youtube.com"; "youtu.be" ].
Definition podcastHosts : list string :=
  [ "podcasts.apple.com"; "spotify.com/episode"; "overcast.fm"; "pocketcasts.com" ].
Definition otherVideoHosts : list string := [ "loom.com"; "vimeo.com"; "twitch.tv" ].

Definition githubWords : list string := [ "github"; "repo"; "npm " ].
Definition videoWords : list string := [ "video"; "youtube"; "watch" ].
Definition articleWords : list string :=
  [ "article"; "blog"; "post"; "guide"; "tutorial"; "course"; "resource"; "learning" ].
Definition podcastWords : list string := [ "podcast"; "episode" ].
Definition toolWords : list string :=
  [ "library"; "framework"; "tool"; "app"; "stack"; "tech" ].
Definition dealWords : list string :=
  [ "deal"; "offer"; "discount"; "student"; "developer" ].

Definition linkTitle (l : Link) : option string := content l ≫= content_title.
Definition linkName (l : Link) : option string := content l ≫= content_name.
Definition linkDescription (l : Link) : option string := content l ≫= content_description.

(** The title and the category before the marker is appended (lines 135 to 193). *)
Definition defaultTitleAndCategory (bookmark : Bookmark) : string * string :=
  let title := Js.slice0 (text bookmark) 50 in
  let textLower := Js.toLowerCase (text bookmark) in
  match head (links bookmark) with
  | Some firstLink =>
      let expandedUrl := expanded firstLink in
      if includesAny expandedUrl githubHosts then
        (Js.orOpt (linkName firstLink) (Js.orOpt (linkTitle firstLink) title), "GitHub")
      else if includesAny expandedUrl articleHosts then
        (Js.orOpt (linkTitle firstLink) title, "Article")
      else if includesAny expandedUrl videoHosts then
        (Js.orOpt (linkTitle firstLink) title, "Video")
      else if includesAny expandedUrl podcastHosts then
        (Js.orOpt (linkTitle firstLink) title, "Podcast")
      else if includesAny expandedUrl otherVideoHosts then
        (Js.orOpt (linkTitle firstLink) title, "Video")
      else if includesAny textLower githubWords then (title, "GitHub")
      else if includesAny textLower videoWords then (title, "Video")
      else if includesAny textLower articleWords then (title, "Article")
      else if includesAny textLower podcastWords then (title, "Podcast")
      else if includesAny textLower toolWords then (title, "Tool")
      else (title, "General")
  | None =>
      if includesAny textLower githubWords then (title, "GitHub")
      else if includesAny textLower videoWords then (title, "Video")
      else if includesAny textLower (articleWords ++ ["free"]) then (title, "Article")
      else if includesAny textLower podcastWords then (title, "Podcast")
      else if includesAny textLower toolWords then (title, "Tool")
      else if includesAny textLower dealWords then (title, "Article")
      else (title, "General")
  end.

Definition _generateDefaultMetadata (bookmark : Bookmark) : ReasoningResult :=
  let '(title, category) := defaultTitleAndCategory bookmark in
  {| title := title +:+ (if (50 <? String.length (text bookmark))%nat then "..." else "");
     summary := Js.slice0 (text bookmark) 150;
     rtags := tags bookmark;
     category := category |}.

(** Lines 109 to 132. *)
Definition contextInfo (verb : string) (c : option Context) : string :=
  match c with
  | Some ctx =>
      Js.concat [ Js.nl; Js.nl; verb; " @"; context_author ctx; ": ";
                  Js.quoted (Js.slice0 (context_text ctx) 120) ]
  | None => EmptyString
  end.

Definition _buildPrompt (bookmark : Bookmark) : string :=
  let linkInfo :=
    match links bookmark with
    | [] => EmptyString
    | ls => Js.concat [ Js.nl; Js.nl; "Links: "; Js.join Js.nl (map expanded ls) ]
    end in
  let replyInfo := contextInfo "Replying to" (replyContext bookmark) in
  let quoteInfo := contextInfo "Quoting" (quoteContext bookmark) in
  Js.concat
    [ "Analyze this tweet and extract metadata for bookmark organization."; Js.nl;
      Js.nl;
      "Tweet by: @"; author bookmark; Js.nl;
      "Tweet text: "; text bookmark; linkInfo; replyInfo; quoteInfo; Js.nl;
      Js.nl;
      "Return JSON object with:"; Js.nl;
      "- title: Clean, concise title (max 60 chars, no hashtags)"; Js.nl;
      "- summary: 1-2 sentence summary of the content"; Js.nl;
      "- tags: Array of 2-4 relevant tags (lowercase, hyphenated)"; Js.nl;
      "- category: One of: GitHub, Article, Video, Podcast, Tool, General" ].

(** Lines 326 to 340. *)
Definition slugChar (c : ascii) : bool :=
  Js.isLower c || Js.isDigit c || Js.isWhiteSpace c || Ascii.eqb c "-".

Definition slugPrefix (title : string) : string :=
  Js.slice0 (Js.replaceSpaceRuns "-" (Js.trim (Js.filter slugChar (Js.toLowerCase title)))) 60.

Definition slugHash (title author : string) : string :=
  Js.slice0 (Md5.md5hex (title +:+ "-" +:+ author)) 8.

Definition _generateSlug (title author : string) : string :=
  slugPrefix title +:+ "-" +:+ slugHash title author.

(** [JSON.stringify] of an array of strings (line 378). *)
Definition hex4 (n : Z) : string :=
  String "0" (String "0" (String (Md5.hexDigit (n / 16)) (String (Md5.hexDigit n) EmptyString))).

Definition jsonEscape (c : ascii) : string :=
  let n := Js.code c in
  if n =? 34 then String "\" (String Js.dquote EmptyString)
  else if n =? 92 then "\\"
  else if n =? 8 then "\b"
  else if n =? 9 then "\t"
  else if n =? 10 then "\n"
  else if n =? 12 then "\f"
  else if n =? 13 then "\r"
  else if n <? 32 then "\u" +:+ hex4 n
  else String c EmptyString.

Fixpoint jsonEscapeAll (s : string) : string :=
  match s with
  | EmptyString => EmptyString
  | String c s' => jsonEscape c +:+ jsonEscapeAll s'
  end.

Definition JSON_stringify (items : list string) : string :=
  "[" +:+ Js.join "," (map (fun s => Js.quoted (jsonEscapeAll s)) items) +:+ "]".

Section Content.

(** [new Date().toISOString().split('T')[0]] *)
Variable today : string.

(** Lines 368 to 394. *)
Definition _generateFileContent (bookmark : Bookmark) (reasoning : ReasoningResult)
    (category : CategoryRule) : string :=
  let template := Js.orOpt (template category) "tool" in
  let firstLink := head (links bookmark) in
  let link := Js.orOpt (expanded <$> firstLink) (tweetUrl bookmark) in
  Js.concat
    [ "---"; Js.nl;
      "title: ";
      Js.quoted (Js.replaceChar Js.dquote (String "\" (String Js.dquote EmptyString))
                   (title reasoning)); Js.nl;
      "type: "; template; Js.nl;
      "date_added: "; today; Js.nl;
      "source: "; Js.quoted link; Js.nl;
      "tags: "; JSON_stringify (rtags reasoning ++ tags bookmark); Js.nl;
      "via: "; Js.quoted ("Twitter bookmark from @" +:+ author bookmark); Js.nl;
      "---"; Js.nl;
      Js.nl;
      summary reasoning; Js.nl;
      Js.nl;
      "## Key Features"; Js.nl;
      Js.nl;
      Js.orOpt (firstLink ≫= linkDescription) "See link for details"; Js.nl;
      Js.nl;
      "## Links"; Js.nl;
      Js.nl;
      "- [Original Tweet]("; tweetUrl bookmark; ")"; Js.nl;
      match firstLink with
      | Some l => "- [Link](" +:+ expanded l +:+ ")"
      | None => EmptyString
      end ].

End Content.

(** Lines 397 to 416: the entry block [_appendToArchive] builds. *)
Definition archiveEntry (bookmark : Bookmark) (reasoning : ReasoningResult)
    (category : CategoryRule) (slug : string) : string :=
  let link := Js.orOpt (expanded <$> head (links bookmark)) EmptyString in
  Js.concat
    [ "## @"; author bookmark; " - "; title reasoning; Js.nl;
      "> "; text bookmark; Js.nl; Js.nl;
      "- **Tweet:** "; tweetUrl bookmark; Js.nl;
      if Js.truthy link then Js.concat [ "- **Link:** "; link; Js.nl ] else EmptyString;
      match tags bookmark with
      | [] => EmptyString
      | ts => Js.concat [ "- **Tags:** ";
                          Js.join " " (map (fun t => "[[" +:+ t +:+ "]]") ts); Js.nl ]
      end;
      if String.eqb (action category) "file" && Js.truthy slug then
        let folder :=
          Js.orOpt (Js.replaceFirst "./" EmptyString <$> folder category) "knowledge/tools" in
        Js.concat [ "- **Filed:** ["; slug; ".md](./"; folder; "/"; slug; ".md)"; Js.nl ]
      else EmptyString;
      "- **What:** "; summary reasoning; Js.nl ].

Definition archiveDate (bookmark : Bookmark) : string :=
  Js.orElse (date bookmark) "Unknown Date".

(** Lines 428 to 436: the document [_insertIntoArchive] writes back. *)
Definition insertEntry (content date entry : string) : string :=
  let dateHeader := "# " +:+ date in
  match Js.indexOf content dateHeader with
  | Some dateIndex =>
      let insertPos :=
        match Js.indexOfFrom content Js.nl dateIndex with
        | Some j => (j + 1)%nat
        | None => 0%nat
        end in
      Js.concat [ Js.take insertPos content; entry; Js.nl; Js.drop insertPos content ]
  | None => Js.concat [ dateHeader; Js.nl; Js.nl; entry; Js.nl; Js.nl; content ]
  end.

(** Lines 449 to 453, [content.matchAll(/x\.com\/\w+\/status\/(\d+)/g)]. *)
Fixpoint span (p : ascii -> bool) (s : string) : string * string :=
  match s with
  | EmptyString => (EmptyString, EmptyString)
  | String c s' =>
      if p c then let '(a, b) := span p s' in (String c a, b)
      else (EmptyString, s)
  end.

Definition stripPrefix (p s : string) : option string :=
  if Js.startsWith s p then Some (Js.drop (String.length p) s) else None.

(** A match that starts at the head of [s]: the digits captured and the
    length of the whole match.  Both [+] take the longest run: the
    character after [\w+] has to be a slash, and nothing follows [\d+]. *)
Definition permalinkAt (s : string) : option (string * nat) :=
  rest ← stripPrefix "x.com/" s;
  let '(user, rest) := span Js.isWord rest in
  rest ← stripPrefix "/status/" rest;
  let '(digits, _) := span Js.isDigit rest in
  match user, digits with
  | String _ _, String _ _ =>
      Some (digits, (14 + String.length user + String.length digits)%nat)
  | _, _ => None
  end.

(** The captures of all matches; [skip] characters belong to the last match. *)
Fixpoint permalinkIds (skip : nat) (s : string) : list string :=
  match s with
  | EmptyString => []
  | String _ s' =>
      match skip with
      | S k => permalinkIds k s'
      | O =>
          match permalinkAt s with
          | Some (digits, len) => digits :: permalinkIds (len - 1) s'
          | None => permalinkIds 0 s'
          end
      end
  end.

End FreeModePipeline.

(** ** [FreeModePipeline]: the methods that touch the disk and the network *)

(** The files under the output directory, by path, and the prompts sent to
    the reasoning provider so far.  Directories are not tracked: [_ensureDir]
    creates them when absent and changes no file. *)
Record World := {
  files : gmap string string;
  sent : list string
}.

Definition M (A : Type) : Type := World -> result A * World.

Definition ret {A} (a : A) : M A := fun w => (Ok a, w).
Definition throw {A} (e : JsError) : M A := fun w => (Throw e, w).
Definition bindM {A B} (m : M A) (k : A -> M B) : M B :=
  fun w =>
    match m w with
    | (Ok a, w') => k a w'
    | (Throw e, w') => (Throw e, w')
    end.

Notation "x <~ m ;; k" := (bindM m (fun x => k))
  (at level 100, m at next level, right associativity).
Notation "m ;;; k" := (bindM m (fun _ => k))
  (at level 100, right associativity).

(** The object built by the constructor (lines 15 to 32). *)
Record Pipeline := {
  config_outputDir : option string;
  categories : list (string * CategoryRule);
  reasoner : OpenRouterClient.Client
}.

(** What the pipeline asks of its host: the current day, and whether
    [fs.writeFileSync] throws for a path. *)
Record Host := {
  today : string;
  writeError : string -> option JsError
}.

Record Summary := {
  processed : nat;
  total : nat;
  results : list ProcessingResult
}.

Module Run.
Import FreeModePipeline.

Section Methods.

Variable host : Host.
Variable this : Pipeline.

Definition outputDir : string := Js.orOpt (config_outputDir this) "./bookmarks".
Definition archiveFile : string := Path.join outputDir "bookmarks.md".
Definition toolsDir : string := Path.join outputDir "knowledge/tools".

(** [fs.writeFileSync(path, data)] *)
Definition writeFileSync (path data : string) : M unit :=
  fun w =>
    match writeError host path with
    | Some e => (Throw e, w)
    | None => (Ok tt, {| files := <[path := data]> (files w); sent := sent w |})
    end.

(** Lines 421 to 439. *)
Definition _insertIntoArchive (date entry : string) : M unit :=
  fun w =>
    let content := default EmptyString (files w !! archiveFile) in
    writeFileSync archiveFile (insertEntry content date entry) w.

(** Lines 396 to 419. *)
Definition _appendToArchive (bookmark : Bookmark) (reasoning : ReasoningResult)
    (category : CategoryRule) (slug : string) : M unit :=
  _insertIntoArchive (archiveDate bookmark) (archiveEntry bookmark reasoning category slug).

(** Line 349, [!slug || typeof slug !== 'string' || slug.trim() === '']. *)
Definition invalidSlug (slug : string) : bool :=
  negb (Js.truthy slug) || negb (Js.truthy (Js.trim slug)).

(** Lines 342 to 366; [None] is [null]. *)
Definition _writeBookmark (bookmark : Bookmark) (reasoning : ReasoningResult)
    (category : CategoryRule) (slug : string) : M (option string) :=
  let action := Js.orElse (action category) "capture" in
  if negb (String.eqb action "file") then ret None
  else if invalidSlug slug then throw (Error ("Invalid slug computed: " +:+ slug))
  else
    let folder := Js.orOpt (folder category) toolsDir in
    let filePath := Path.join folder (slug +:+ ".md") in
    if negb (Js.truthy filePath)
    then throw (Error ("Invalid filePath computed: " +:+ filePath))
    else
      let content := _generateFileContent (today host) bookmark reasoning category in
      writeFileSync filePath (content +:+ Js.nl) ;;;
      ret (Some filePath).

(** Lines 92 to 107. *)
Definition _getReasoning (bookmark : Bookmark) : M ReasoningResult :=
  fun w =>
    let prompt := _buildPrompt bookmark in
    let contextLength := Z.of_nat (String.length prompt) in
    if contextLength >? 3000 then (Ok (_generateDefaultMetadata bookmark), w)
    else
      let '(outcome, sent') :=
        OpenRouterClient.getReasoning (reasoner this) (sent w) prompt 20000 in
      let w' := {| files := files w; sent := sent' |} in
      match outcome with
      | Ok reasoning => (Ok reasoning, w')
      | Throw _ => (Ok (_generateDefaultMetadata bookmark), w')
      end.

(** Lines 66 to 90. *)
Definition _processBookmark (bookmark : Bookmark) : M ProcessingResult :=
  reasoning <~ _getReasoning bookmark ;;
  match _matchCategory (categories this) bookmark (Some reasoning) with
  | None => throw (TypeError "Cannot read properties of undefined (reading 'action')")
  | Some category =>
      let slug := _generateSlug (title reasoning) (author bookmark) in
      filePath <~ _writeBookmark bookmark reasoning category slug ;;
      match filePath with
      | Some (String _ _) => _appendToArchive bookmark reasoning category slug
      | _ => ret tt
      end ;;;
      ret {| res_id := id bookmark;
             res_title := title reasoning;
             res_slug := slug;
             res_category := key category;
             res_filePath := filePath |}
  end.

(** Lines 441 to 456. *)
Definition _loadExistingIds (w : World) : gset string :=
  match files w !! archiveFile with
  | None => ∅
  | Some content => list_to_set (permalinkIds 0 content)
  end.

(** Lines 44 to 57: the loop over the batch. *)
Fixpoint processLoop (bookmarks : list Bookmark) (existingIds : gset string)
    (results : list ProcessingResult) (w : World)
  : list ProcessingResult * gset string * World :=
  match bookmarks with
  | [] => (results, existingIds, w)
  | bookmark :: rest =>
      if bool_decide (id bookmark ∈ existingIds)
      then processLoop rest existingIds results w
      else
        match _processBookmark bookmark w with
        | (Ok result, w') =>
            processLoop rest ({[id bookmark]} ∪ existingIds) (results ++ [result]) w'
        | (Throw _, w') => processLoop rest existingIds results w'
        end
  end.

(** Lines 38 to 64. *)
Definition process (bookmarks : list Bookmark) (w : World) : Summary * World :=
  let '(results, _, w') := processLoop bookmarks (_loadExistingIds w) [] w in
  ({| processed := length results; total := length bookmarks; results := results |}, w').

End Methods.

End Run.

(** ** The registry and the inputs of the test suite ([test/free-mode.test.js]) *)

Module Fixtures.

Definition rule (action : string) (folder : option string) (matches : list string)
    (template : option string) (description : string) : CategoryRule :=
  {| key := None; action := action; folder := folder; matches := matches;
     template := template; description := description |}.

Definition githubRule : CategoryRule :=
  rule "file" (Some "./knowledge/tools") ["github.com"] (Some "tool") "GitHub repositories".
Definition articleRule : CategoryRule :=
  rule "file" (Some "./knowledge/articles") ["medium.com"; "substack.com"] (Some "article")
       "Articles".
Definition youtubeRule : CategoryRule :=
  rule "transcribe" (Some "./knowledge/videos") ["youtube.com"; "youtu.be"] (Some "video")
       "Videos".
Definition podcastRule : CategoryRule :=
  rule "transcribe" (Some "./knowledge/podcasts") ["podcasts.apple.com"] (Some "podcast")
       "Podcasts".
Definition tweetRule : CategoryRule := rule "capture" None [] None "Tweets".

Definition DEFAULT_CATEGORIES : list (string * CategoryRule) :=
  [ ("github", githubRule); ("article", articleRule); ("youtube", youtubeRule);
    ("podcast", podcastRule); ("tweet", tweetRule) ].

(** The bookmark [{}] of the resolver tests, and bookmarks with a text and links. *)
Definition bookmarkOf (id text : string) (urls : list string) : Bookmark :=
  {| id := id; author := "alice"; text := text; date := "2024-01-15";
     tweetUrl := "https://x.com/alice/status/" +:+ id;
     links := map (fun u => {| expanded := u; content := None |}) urls;
     tags := []; replyContext := None; quoteContext := None |}.

Definition emptyBookmark : Bookmark :=
  {| id := EmptyString; author := EmptyString; text := EmptyString; date := EmptyString;
     tweetUrl := EmptyString; links := []; tags := []; replyContext := None;
     quoteContext := None |}.

Definition reasoningOf (category title summary : string) : ReasoningResult :=
  {| title := title; summary := summary; rtags := []; category := category |}.

Definition DEFAULT_CONFIG : Pipeline :=
  {| config_outputDir := Some "./test-bookmarks";
     categories := DEFAULT_CATEGORIES;
     reasoner := {| OpenRouterClient.apiKey := Some "test-key";
                    OpenRouterClient.JSON_parse := fun _ => None;
                    OpenRouterClient.fetch := fun _ _ => OpenRouterClient.Aborted |} |}.

Definition quietHost : Host :=
  {| today := "2024-01-15"; writeError := fun _ => None |}.

Definition emptyWorld : World := {| files := ∅; sent := [] |}.

(** [c.repeat(n)] *)
Fixpoint copies (n : nat) (c : ascii) : string :=
  match n with
  | O => EmptyString
  | S n' => String c (copies n' c)
  end.

(** A text of 3000 characters: its prompt is longer than the threshold. *)
Definition longBookmark : Bookmark := bookmarkOf "7" (copies 3000 "a") [].

End Fixtures.

(** ** The vocabulary of the properties *)

Module Validation.
Import OpenRouterClient.

(** The value of a field of the parsed value, [None] when it has none. *)
Definition fieldOf (parsed : json) (name : string) : option json :=
  match parsed with
  | JObject members => member name members
  | _ => None
  end.

(** The field is a string and is not the empty string (nothing is trimmed). *)
Definition present (parsed : json) (name : string) : bool :=
  match nonEmptyString (fieldOf parsed name) with
  | Some _ => true
  | None => false
  end.

Definition isArray (v : option json) : bool :=
  match v with
  | Some (JArray _) => true
  | _ => false
  end.

Definition missingField (name : string) : result ReasoningResult :=
  Throw (Error ("Missing or invalid " +:+ Js.quoted name +:+ " field")).

Definition invalidTags : result ReasoningResult :=
  Throw (Error ("Invalid " +:+ Js.quoted "tags" +:+ " field: must be array")).

(** The text handed to [JSON.parse]. *)
Definition cleaned (rawOutput : string) : string :=
  braces (unfence (Js.trim rawOutput)).

(** A [JSON.parse] known at one text. *)
Definition parseOnly (source : string) (value : json) : string -> option json :=
  fun s => if String.eqb s source then Some value else None.

(** An object whose title is one space. *)
Definition blankTitle : json :=
  JObject [ ("title", JString " "); ("summary", JString "S");
            ("tags", JArray []); ("category", JString "C") ].

Definition blankTitleText : string :=
  Js.concat [ "{"; Js.quoted "title"; ":"; Js.quoted " "; ",";
              Js.quoted "summary"; ":"; Js.quoted "S"; ",";
              Js.quoted "tags"; ":[],";
              Js.quoted "category"; ":"; Js.quoted "C"; "}" ].

(** An object with a summary only. *)
Definition summaryOnly : json := JObject [ ("summary", JString "Test") ].

Definition summaryOnlyText : string :=
  Js.concat [ "{"; Js.quoted "summary"; ": "; Js.quoted "Test"; "}" ].

End Validation.

(** The GitHub, video and podcast keyword groups, which are tried before the
    article group, find nothing in the combined text. *)
Definition earlierGroupsSilent (combinedText : string) : bool :=
  negb (FreeModePipeline.includesAny combinedText FreeModePipeline.githubKeywords)
  && negb (FreeModePipeline.includesAny combinedText FreeModePipeline.videoKeywords)
  && negb (FreeModePipeline.includesAny combinedText FreeModePipeline.podcastKeywords).

(** No occurrence of [p] starts in the first [n] positions of [s]. *)
Definition noneBefore (n : nat) (s p : string) : Prop :=
  forall i, (i < n)%nat -> Js.startsWith (Js.drop i s) p = false.

(** The text of a permalink: [x.com/], a user, [/status/] and the digits. *)
Definition permalink (user digits : string) : string :=
  "x.com/" +:+ user +:+ "/status/" +:+ digits.

(** A character other than the full stop. *)
Definition notDot (c : ascii) : bool := negb (Ascii.eqb "." c).

(** The text does not go on with a digit. *)
Definition endsDigits (rest : string) : Prop :=
  match rest with
  | String c _ => Js.isDigit c = false
  | EmptyString => True
  end.

Section Effects.

Import FreeModePipeline.
Variable host : Host.
Variable this : Pipeline.

(** Where the file of a bookmark goes, and what the result record says. *)
Definition filePathOf (category : CategoryRule) (slug : string) : string :=
  Path.join (Js.orOpt (folder category) (Run.toolsDir this)) (slug +:+ ".md").

Definition resultOf (bookmark : Bookmark) (reasoning : ReasoningResult)
    (category : CategoryRule) (filePath : option string) : ProcessingResult :=
  {| res_id := id bookmark;
     res_title := title reasoning;
     res_slug := _generateSlug (title reasoning) (author bookmark);
     res_category := key category;
     res_filePath := filePath |}.

(** The world once the file of the bookmark is written. *)
Definition withFile (bookmark : Bookmark) (reasoning : ReasoningResult)
    (category : CategoryRule) (w : World) : World :=
  let slug := _generateSlug (title reasoning) (author bookmark) in
  {| files := <[filePathOf category slug :=
                  _generateFileContent (today host) bookmark reasoning category +:+ Js.nl]>
                (files w);
     sent := sent w |}.

(** The world once the entry of the bookmark is in the archive. *)
Definition withEntry (bookmark : Bookmark) (reasoning : ReasoningResult)
    (category : CategoryRule) (w : World) : World :=
  let slug := _generateSlug (title reasoning) (author bookmark) in
  {| files := <[Run.archiveFile this :=
                  insertEntry (default EmptyString (files w !! Run.archiveFile this))
                    (archiveDate bookmark)
                    (archiveEntry bookmark reasoning category slug)]>
                (files w);
     sent := sent w |}.

(** What [process] returns when the last bookmark of the batch is skipped:
    one more in [total], and nothing else. *)
Definition skipsLast (batch : list Bookmark) (b : Bookmark) (w : World) : Prop :=
  Run.process host this (batch ++ [b]) w =
    let '(s, w') := Run.process host this batch w in
    ({| processed := processed s; total := S (total s); results := results s |}, w').

End Effects.

(** Archive documents. *)
Module Archives.

Definition lines (ls : list string) : string :=
  Js.concat (map (fun l => l +:+ Js.nl) ls).

(** Two sections; the older one is the second. *)
Definition twoDays : string :=
  lines [ "# 2024-01-16"; ""; "## @bob - note"; "> a quiet day"; "";
          "# 2024-01-15"; ""; "## @eve - old"; "> first" ].

Definition beforeHeading : string :=
  lines [ "# 2024-01-16"; ""; "## @bob - note"; "> a quiet day"; "" ].

Definition afterHeading : string :=
  lines [ ""; "## @eve - old"; "> first" ].

(** The same, but the newer entry quotes the older date. *)
Definition quoting : string :=
  lines [ "# 2024-01-16"; ""; "## @bob - note"; "> see # 2024-01-15"; "";
          "# 2024-01-15"; ""; "## @eve - old"; "> first" ].

Definition quotingBeforeHeading : string :=
  lines [ "# 2024-01-16"; ""; "## @bob - note"; "> see # 2024-01-15"; "" ].

End Archives.

(** Bookmarks, reasoners that answer with a fixed record, and archives. *)
Module Scenarios.

Definition repoUrl : string := "https://github.com/rnzor/smaug".
Definition videoUrl : string := "https://youtube.com/watch?v=1".

Definition withRepo : Bookmark := Fixtures.bookmarkOf "2" "hello" [repoUrl].
Definition withVideoAndRepo : Bookmark := Fixtures.bookmarkOf "3" "news" [videoUrl; repoUrl].

Definition answerText (category : string) : string :=
  Js.concat [ "{"; Js.quoted "title"; ":"; Js.quoted "Test"; ",";
              Js.quoted "summary"; ":"; Js.quoted "Test"; ",";
              Js.quoted "tags"; ":[],";
              Js.quoted "category"; ":"; Js.quoted category; "}" ].

Definition answerValue (category : string) : json :=
  JObject [ ("title", JString "Test"); ("summary", JString "Test");
            ("tags", JArray []); ("category", JString category) ].

(** The pipeline of the test suite, with a provider that answers every
    prompt with the given category. *)
Definition answering (category : string) : Pipeline :=
  {| config_outputDir := Some "./test-bookmarks";
     categories := Fixtures.DEFAULT_CATEGORIES;
     reasoner :=
       {| OpenRouterClient.apiKey := Some "test-key";
          OpenRouterClient.JSON_parse :=
            Validation.parseOnly (answerText category) (answerValue category);
          OpenRouterClient.fetch :=
            fun _ _ => OpenRouterClient.Answer (answerText category) |} |}.

Definition answered (category : string) : ReasoningResult :=
  Fixtures.reasoningOf category "Test" "Test".

Definition asked (bookmark : Bookmark) : World :=
  {| files := ∅; sent := [FreeModePipeline._buildPrompt bookmark] |}.

(** A plain thought without links, and a bookmark with a video link. *)
Definition plainThought : Bookmark :=
  Fixtures.bookmarkOf "42" "just thinking about stuff" [].

Definition withVideo : Bookmark :=
  Fixtures.bookmarkOf "43" "hello" ["https://youtube.com/watch?v=1"].

(** A text of sixty characters and a GitHub link whose name is known. *)
Definition namedRepo : Bookmark :=
  {| id := "5"; author := "alice"; text := Fixtures.copies 60 "a"; date := "2024-01-15";
     tweetUrl := "https://x.com/alice/status/5";
     links := [ {| expanded := "https://github.com/rnzor/smaug";
                   content := Some {| content_title := None;
                                      content_name := Some "smaug";
                                      content_description := None |} |} ];
     tags := []; replyContext := None; quoteContext := None |}.

(** An archive that already holds the permalink of bookmark 42. *)
Definition archived : World :=
  {| files := {[ Run.archiveFile Fixtures.DEFAULT_CONFIG :=
                 Archives.lines [ "# 2024-01-15"; ""; "## @alice - note"; "> hi"; "";
                                  "- **Tweet:** https://x.com/alice/status/42";
                                  "- **What:** hi" ] ]};
     sent := [] |}.

End Scenarios.

(** Archives that hold the address of bookmark 2 in another form than
    [x.com/<user>/status/<digits>], and the run over that bookmark. *)
Module OtherPermalinks.

Definition twitterUrl : string := "https://twitter.com/alice/status/2".
Definition webUrl : string := "https://x.com/i/web/status/2".

Definition archivedAs (url : string) : World :=
  {| files := {[ Run.archiveFile Fixtures.DEFAULT_CONFIG :=
                 Archives.lines [ "# 2024-01-15"; ""; "## @alice - note"; "> hello"; "";
                                  "- **Tweet:** " +:+ url;
                                  "- **What:** hi" ] ]};
     sent := [] |}.

Definition rerun (url : string) : Summary * World :=
  Run.process Fixtures.quietHost Fixtures.DEFAULT_CONFIG [Scenarios.withRepo]
    (archivedAs url).

End OtherPermalinks.

(** ** The vocabulary of the further properties *)

(** A character other than [h]. *)
Definition isNot (h : ascii) (c : ascii) : bool := negb (Ascii.eqb h c).

(** The characters a slug is made of: [a-z], [0-9] and the hyphen. *)
Definition slugSafe (c : ascii) : bool :=
  Js.isLower c || Js.isDigit c || Ascii.eqb c "-".

(** A code unit from U+0020 on: no control character. *)
Definition printable (c : ascii) : bool := 32 <=? Js.code c.

(** The six labels of the system prompt. *)
Definition defaultLabels : list string :=
  [ "GitHub"; "Article"; "Video"; "Podcast"; "Tool"; "General" ].

(** The registry key that the host of a URL stands for in lines 143 to 160. *)
Definition hostKey (url : string) : option string :=
  if FreeModePipeline.includesAny url FreeModePipeline.githubHosts then Some "github"
  else if FreeModePipeline.includesAny url FreeModePipeline.articleHosts then Some "article"
  else if FreeModePipeline.includesAny url FreeModePipeline.videoHosts then Some "youtube"
  else if FreeModePipeline.includesAny url FreeModePipeline.podcastHosts then Some "podcast"
  else if FreeModePipeline.includesAny url FreeModePipeline.otherVideoHosts then Some "youtube"
  else None.

(** [s] is empty or ends with [c]. *)
Definition emptyOrEndsWith (c : string) (s : string) : Prop :=
  s = EmptyString \/ exists s', s = s' +:+ c.

(** The text of a JSON object with the given inside. *)
Definition objectText (inner : string) : string :=
  String "{" (inner +:+ String "}" EmptyString).

(** A plain file name: not empty, without a slash, and neither [.] nor [..]. *)
Definition plainName (name : string) : Prop :=
  name <> EmptyString /\ Js.every (isNot "/") name = true
  /\ name <> "." /\ name <> "..".

(** A disk that refuses every write. *)
Definition readOnlyHost : Host :=
  {| today := "2024-01-15";
     writeError := fun _ => Some (Error "EACCES: permission denied") |}.

(** What a run may do to the disk: no file goes away, and a file whose
    name does not end in [.md] stays as it was. *)
Definition keepsFiles (w w' : World) : Prop :=
  forall path,
    (is_Some (files w !! path) -> is_Some (files w' !! path))
    /\ ((forall x, path <> x +:+ ".md") -> files w' !! path = files w !! path).

(** The pipeline of the test suite without an API key. *)
Definition offline : Pipeline :=
  {| config_outputDir := Some "./test-bookmarks";
     categories := Fixtures.DEFAULT_CATEGORIES;
     reasoner :=
       {| OpenRouterClient.apiKey := None;
          OpenRouterClient.JSON_parse := fun _ => None;
          OpenRouterClient.fetch := fun _ _ => OpenRouterClient.Aborted |} |}.

(** A folder written as [./a/b]: the names, joined by slashes, after [./]. *)
Definition relativeFolder (names : list string) : string :=
  "./" +:+ Js.join "/" names.

(** The line of an archive entry that links to the file of the bookmark. *)
Definition filedLine (slug target : string) : string :=
  Js.concat [ "- **Filed:** ["; slug; ".md]("; target; ")"; Js.nl ].

(** * Properties *)

(** A closed statement that both sides evaluate to. *)
Ltac by_evaluation := vm_compute; reflexivity.

(** ** Strings *)

Section StringFacts.

Lemma append_cons (c : ascii) (s t : string) : String c s +:+ t = String c (s +:+ t).
Proof. reflexivity. Qed.

Lemma append_nil_l (s : string) : EmptyString +:+ s = s.
Proof. reflexivity. Qed.

Lemma append_nil_r (s : string) : s +:+ EmptyString = s.
Proof.
  induction s as [|c s IH]; [reflexivity |].
  now rewrite append_cons, IH.
Qed.

Lemma append_assoc (a b c : string) : (a +:+ b) +:+ c = a +:+ (b +:+ c).
Proof.
  induction a as [|x a IH]; [reflexivity |].
  now rewrite !append_cons, IH.
Qed.

Lemma length_append (a b : string) :
  String.length (a +:+ b) = (String.length a + String.length b)%nat.
Proof.
  induction a as [|x a IH]; [reflexivity |].
  rewrite append_cons. simpl. now rewrite IH.
Qed.

Lemma startsWith_refl_app (p s : string) : Js.startsWith (p +:+ s) p = true.
Proof.
  induction p as [|c p IH]; [reflexivity |].
  rewrite append_cons. simpl. now rewrite Ascii.eqb_refl.
Qed.

Lemma startsWith_app_l (s t p : string) :
  Js.startsWith s p = true -> Js.startsWith (s +:+ t) p = true.
Proof.
  revert s; induction p as [|c p IH]; intros s H; [reflexivity |].
  destruct s as [|d s]; [discriminate |].
  rewrite append_cons. simpl in *.
  destruct (Ascii.eqb c d); [now apply IH | discriminate].
Qed.

Lemma includes_unfold (s p : string) :
  Js.includes s p =
  Js.startsWith s p || match s with EmptyString => false | String _ s' => Js.includes s' p end.
Proof. destruct s; reflexivity. Qed.

Lemma includes_app_l (s t p : string) :
  Js.includes s p = true -> Js.includes (s +:+ t) p = true.
Proof.
  induction s as [|c s IH]; intros H.
  - simpl in H. rewrite orb_false_r in H.
    destruct p; [| discriminate]. destruct t; reflexivity.
  - rewrite includes_unfold in H. apply orb_true_iff in H.
    rewrite append_cons, includes_unfold. apply orb_true_iff.
    destruct H as [H | H]; [left | right].
    + rewrite <- append_cons. now apply startsWith_app_l.
    + now apply IH.
Qed.

Lemma includes_app_r (s t p : string) :
  Js.includes t p = true -> Js.includes (s +:+ t) p = true.
Proof.
  intros H. induction s as [|c s IH]; [exact H |].
  rewrite append_cons, includes_unfold, IH. apply orb_true_r.
Qed.

Lemma includesAny_app_l (s t : string) (keywords : list string) :
  FreeModePipeline.includesAny s keywords = true ->
  FreeModePipeline.includesAny (s +:+ t) keywords = true.
Proof.
  unfold FreeModePipeline.includesAny. rewrite !existsb_exists.
  intros (k & Hin & Hk). exists k. split; [exact Hin | now apply includes_app_l].
Qed.

Lemma take_length_le (n : nat) (s : string) :
  (n <= String.length s)%nat -> String.length (Js.take n s) = n.
Proof.
  revert s; induction n as [|n IH]; intros s H; [reflexivity |].
  destruct s as [|c s]; simpl in *; [lia |]. rewrite IH; lia.
Qed.

Lemma take_drop (n : nat) (s : string) : Js.take n s +:+ Js.drop n s = s.
Proof.
  revert s; induction n as [|n IH]; intros s; [reflexivity |].
  destruct s as [|c s]; [reflexivity |].
  simpl. now rewrite append_cons, IH.
Qed.

Lemma take_app_length (a b : string) : Js.take (String.length a) (a +:+ b) = a.
Proof.
  induction a as [|c a IH]; [reflexivity |].
  rewrite append_cons. simpl. now rewrite IH.
Qed.

Lemma drop_app_length (a b : string) : Js.drop (String.length a) (a +:+ b) = b.
Proof.
  induction a as [|c a IH]; [reflexivity |].
  rewrite append_cons. simpl. exact IH.
Qed.

End StringFacts.

(** ** The slug generator *)

Section SlugFacts.

Import FreeModePipeline.

Lemma code_unit_of (z : Z) : 0 <= z < 256 -> Js.code (Js.unit_of z) = z.
Proof.
  intros H. unfold Js.code, Js.unit_of.
  rewrite N_ascii_embedding by lia. lia.
Qed.

Lemma hexDigit_isHexDigit (n : Z) : Md5.isHexDigit (Md5.hexDigit n) = true.
Proof.
  unfold Md5.hexDigit, Md5.isHexDigit.
  assert (Hm : 0 <= n mod 16 < 16) by (apply Z.mod_pos_bound; lia).
  destruct (n mod 16 <? 10) eqn:E.
  - apply Z.ltb_lt in E. rewrite code_unit_of by lia.
    apply orb_true_iff; left. apply andb_true_iff; split; apply Z.leb_le; lia.
  - apply Z.ltb_ge in E. rewrite code_unit_of by lia.
    apply orb_true_iff; right. apply andb_true_iff; split; apply Z.leb_le; lia.
Qed.

Lemma hex_length (bytes : list Z) :
  String.length (Md5.hex bytes) = (2 * length bytes)%nat.
Proof. induction bytes as [|b bytes IH]; simpl; [reflexivity | rewrite IH; lia]. Qed.

Lemma hex_every (bytes : list Z) : Js.every Md5.isHexDigit (Md5.hex bytes) = true.
Proof.
  induction bytes as [|b bytes IH]; simpl; [reflexivity |].
  now rewrite !hexDigit_isHexDigit, IH.
Qed.

Lemma le_bytes_length (count : nat) (x : Z) : length (Md5.le_bytes count x) = count.
Proof. unfold Md5.le_bytes. now rewrite length_map, length_seq. Qed.

Lemma digest_length (msg : list Z) : length (Md5.digest msg) = 16%nat.
Proof.
  unfold Md5.digest.
  destruct (fold_left Md5.compress _ Md5.init) as [a b c d].
  now rewrite !length_app, !le_bytes_length.
Qed.

Lemma md5hex_length (s : string) : String.length (Md5.md5hex s) = 32%nat.
Proof. unfold Md5.md5hex. now rewrite hex_length, digest_length. Qed.

Lemma md5hex_every (s : string) : Js.every Md5.isHexDigit (Md5.md5hex s) = true.
Proof. apply hex_every. Qed.

Lemma every_take (p : ascii -> bool) (n : nat) (s : string) :
  Js.every p s = true -> Js.every p (Js.take n s) = true.
Proof.
  revert s; induction n as [|n IH]; intros s H; [reflexivity |].
  destruct s as [|c s]; [reflexivity |].
  simpl in *. apply andb_true_iff in H as [Hc Hs].
  now rewrite Hc, IH.
Qed.

Lemma every_append (p : ascii -> bool) (a b : string) :
  Js.every p (a +:+ b) = Js.every p a && Js.every p b.
Proof.
  induction a as [|c a IH]; [reflexivity |].
  rewrite append_cons. simpl. now rewrite IH, andb_assoc.
Qed.

Lemma slugHash_length (title author : string) :
  String.length (slugHash title author) = 8%nat.
Proof.
  unfold slugHash, Js.slice0. apply take_length_le. rewrite md5hex_length. lia.
Qed.

Lemma slugHash_hex (title author : string) :
  Js.every Md5.isHexDigit (slugHash title author) = true.
Proof. unfold slugHash, Js.slice0. apply every_take, md5hex_every. Qed.

Lemma trimStart_visible (s : string) :
  Js.every Js.isWhiteSpace s = false ->
  exists c t, Js.trimStart s = String c t /\ Js.isWhiteSpace c = false.
Proof.
  induction s as [|c s IH]; intros H; [discriminate |].
  simpl in *. destruct (Js.isWhiteSpace c) eqn:E.
  - now apply IH.
  - now exists c, s.
Qed.

Lemma trimEnd_visible (c : ascii) (s : string) :
  Js.isWhiteSpace c = false -> exists t, Js.trimEnd (String c s) = String c t.
Proof.
  intros H. simpl. destruct (Js.trimEnd s); rewrite ?H; eauto.
Qed.

Lemma trim_truthy (s : string) :
  Js.every Js.isWhiteSpace s = false -> Js.truthy (Js.trim s) = true.
Proof.
  intros H. destruct (trimStart_visible s H) as (c & t & Ht & Hc).
  unfold Js.trim. rewrite Ht.
  destruct (trimEnd_visible c t Hc) as [u Hu]. now rewrite Hu.
Qed.

Lemma generateSlug_visible (title author : string) :
  Js.every Js.isWhiteSpace (_generateSlug title author) = false.
Proof.
  unfold _generateSlug. rewrite every_append, every_append.
  change (Js.every Js.isWhiteSpace "-") with false.
  now rewrite andb_false_r.
Qed.

Lemma generateSlug_valid (title author : string) :
  Run.invalidSlug (_generateSlug title author) = false.
Proof.
  unfold Run.invalidSlug.
  rewrite (trim_truthy _ (generateSlug_visible title author)).
  destruct (_generateSlug title author) eqn:E; [| reflexivity].
  pose proof (generateSlug_visible title author) as H. rewrite E in H. discriminate.
Qed.

Lemma generateSlug_truthy (title author : string) :
  Js.truthy (_generateSlug title author) = true.
Proof.
  pose proof (generateSlug_visible title author) as H.
  destruct (_generateSlug title author); [discriminate | reflexivity].
Qed.

End SlugFacts.

(** C10: for every title and author the generated slug is the sanitized
    title prefix, a hyphen and a digest of eight hexadecimal characters; it is
    never empty, and the condition of the file writer's invalid-slug branch
    (line 349) is false on it, whatever the prefix is. *)
Theorem generateSlug_never_invalid (title author : string) :
  exists digest : string,
    FreeModePipeline._generateSlug title author
      = FreeModePipeline.slugPrefix title +:+ "-" +:+ digest
    /\ String.length digest = 8%nat
    /\ Js.every Md5.isHexDigit digest = true
    /\ FreeModePipeline._generateSlug title author <> EmptyString
    /\ Run.invalidSlug (FreeModePipeline._generateSlug title author) = false.
Proof.
  exists (FreeModePipeline.slugHash title author).
  split; [reflexivity |].
  split; [apply slugHash_length |].
  split; [apply slugHash_hex |].
  split; [| apply generateSlug_valid].
  intros E. pose proof (generateSlug_truthy title author) as H.
  rewrite E in H. discriminate.
Qed.

(** The empty title: the prefix is empty and the slug is the hyphen and the digest. *)
Example generateSlug_empty_title :
  FreeModePipeline._generateSlug EmptyString EmptyString = "-336d5ebc".
Proof. by_evaluation. Qed.

(** ** The output validator *)

Module ParseFacts.
Import OpenRouterClient Validation.

Lemma prop_not_null (parsed : json) (name : string) :
  parsed <> JNull -> prop parsed name = Ok (fieldOf parsed name).
Proof. destruct parsed; intros H; try reflexivity. now contradiction H. Qed.

Lemma required_not_null (parsed : json) (name : string) :
  parsed <> JNull ->
  required parsed name =
    match nonEmptyString (fieldOf parsed name) with
    | Some s => Ok s
    | None => Throw (Error ("Missing or invalid " +:+ Js.quoted name +:+ " field"))
    end.
Proof. intros H. unfold required. now rewrite prop_not_null. Qed.

Lemma nonEmptyString_Some (v : option json) (s : string) :
  nonEmptyString v = Some s -> v = Some (JString s) /\ s <> EmptyString.
Proof.
  destruct v as [[| | |[|c t]| |]|]; simpl; intros H; try discriminate.
  injection H as <-. split; [reflexivity | discriminate].
Qed.

Lemma trimTags_Ok (items : list json) (ss : list string) :
  trimTags items = Ok ss ->
  exists ts, items = map JString ts /\ ss = map Js.trim ts.
Proof.
  revert ss; induction items as [|t items IH]; intros ss H; simpl in H.
  - injection H as <-. now exists [].
  - destruct t; simpl in H; try discriminate.
    destruct (trimTags items) as [ss' |]; simpl in H; [| discriminate].
    injection H as <-. destruct (IH ss' eq_refl) as (ts & -> & ->).
    now exists (s :: ts).
Qed.

Lemma parseOutput_parsed (JSON_parse : string -> option json) (raw : string) (parsed : json) :
  JSON_parse (cleaned raw) = Some parsed ->
  _parseOutput JSON_parse raw = validate parsed.
Proof. intros H. unfold _parseOutput. fold (cleaned raw). now rewrite H. Qed.

Lemma validate_null : exists message, validate JNull = Throw (TypeError message).
Proof. eexists. reflexivity. Qed.

End ParseFacts.

(** C3, as the code has it: for every raw text that parses to a value other
    than [null], the checks run in the order title, summary, category, tags and
    the first one that fails names its field.  title, summary and category fail
    when absent, not a string, or the empty string; nothing is trimmed before
    the check.  tags fails when it is not an array.  A result is returned only
    when the three are non-empty strings and tags is an array of strings, and it
    is then the trimmed record with the empty tags dropped. *)
Theorem parseOutput_checks_in_order
    (JSON_parse : string -> option json) (raw : string) (parsed : json) :
  JSON_parse (Validation.cleaned raw) = Some parsed ->
  parsed <> JNull ->
  let present := Validation.present parsed in
  let out := OpenRouterClient._parseOutput JSON_parse raw in
  (present "title" = false -> out = Validation.missingField "title")
  /\ (present "title" = true -> present "summary" = false ->
      out = Validation.missingField "summary")
  /\ (present "title" = true -> present "summary" = true -> present "category" = false ->
      out = Validation.missingField "category")
  /\ (present "title" = true -> present "summary" = true -> present "category" = true ->
      Validation.isArray (Validation.fieldOf parsed "tags") = false ->
      out = Validation.invalidTags)
  /\ (forall r, out = Ok r ->
      exists t s c ts,
        Validation.fieldOf parsed "title" = Some (JString t) /\ t <> EmptyString
        /\ Validation.fieldOf parsed "summary" = Some (JString s) /\ s <> EmptyString
        /\ Validation.fieldOf parsed "category" = Some (JString c) /\ c <> EmptyString
        /\ Validation.fieldOf parsed "tags" = Some (JArray (map JString ts))
        /\ r = {| title := Js.trim t; summary := Js.trim s;
                  rtags := List.filter Js.truthy (map Js.trim ts);
                  category := Js.trim c |}).
Proof.
  intros Hparse Hnn present out.
  subst out. rewrite (ParseFacts.parseOutput_parsed _ _ _ Hparse).
  unfold OpenRouterClient.validate, present, Validation.present.
  rewrite !ParseFacts.required_not_null, ParseFacts.prop_not_null by exact Hnn.
  destruct (OpenRouterClient.nonEmptyString (Validation.fieldOf parsed "title"))
    as [t|] eqn:Et;
  [destruct (OpenRouterClient.nonEmptyString (Validation.fieldOf parsed "summary"))
     as [s|] eqn:Es;
   [destruct (OpenRouterClient.nonEmptyString (Validation.fieldOf parsed "category"))
      as [c|] eqn:Ec |] |];
  cbn [bind]; repeat split; try (intros; discriminate); try reflexivity.
  - intros _ _ _ Harr.
    destruct (Validation.fieldOf parsed "tags") as [[]|]; try reflexivity; discriminate.
  - intros r Hr.
    destruct (Validation.fieldOf parsed "tags") as [[| | | |items|]|] eqn:Etags;
      try discriminate.
    destruct (OpenRouterClient.trimTags items) as [ss|] eqn:Ess; cbn [bind] in Hr;
      [| discriminate].
    injection Hr as <-.
    destruct (ParseFacts.trimTags_Ok _ _ Ess) as (ts & -> & ->).
    destruct (ParseFacts.nonEmptyString_Some _ _ Et) as [-> ?].
    destruct (ParseFacts.nonEmptyString_Some _ _ Es) as [-> ?].
    destruct (ParseFacts.nonEmptyString_Some _ _ Ec) as [-> ?].
    exists t, s, c, ts. auto 10.
Qed.

(** C3, witness: the object of the test suite that has a summary only. *)
Lemma parseOutput_checks_in_order_witness :
  OpenRouterClient._parseOutput
    (Validation.parseOnly Validation.summaryOnlyText Validation.summaryOnly)
    Validation.summaryOnlyText
  = Validation.missingField "title".
Proof.
  refine (proj1 (parseOutput_checks_in_order
                   (Validation.parseOnly Validation.summaryOnlyText Validation.summaryOnly)
                   Validation.summaryOnlyText Validation.summaryOnly _ _) _).
  - by_evaluation.
  - discriminate.
  - reflexivity.
Defined.

(** C3, counterexample: a title of one space is empty after trimming, and
    the text is accepted with the empty title. *)
Lemma parseOutput_accepts_blank_title :
  Js.trim " " = EmptyString
  /\ OpenRouterClient._parseOutput
       (Validation.parseOnly Validation.blankTitleText Validation.blankTitle)
       Validation.blankTitleText
     = Ok {| title := EmptyString; summary := "S"; rtags := []; category := "C" |}.
Proof. split; by_evaluation. Qed.

(** ** Reasoning with a fallback *)

Section ReasoningFacts.

Import FreeModePipeline.
Variable this : Pipeline.

Lemma getReasoning_long_prompt (bookmark : Bookmark) (w : World) :
  3000 < Z.of_nat (String.length (_buildPrompt bookmark)) ->
  Run._getReasoning this bookmark w = (Ok (_generateDefaultMetadata bookmark), w).
Proof.
  intros H. unfold Run._getReasoning.
  destruct (Z.gtb_spec (Z.of_nat (String.length (_buildPrompt bookmark))) 3000);
    [reflexivity | lia].
Qed.

Lemma getReasoning_returns (bookmark : Bookmark) (w : World) :
  exists reasoning w',
    Run._getReasoning this bookmark w = (Ok reasoning, w') /\ files w' = files w.
Proof.
  unfold Run._getReasoning.
  destruct (_ >? 3000); [now eauto |].
  destruct (OpenRouterClient.getReasoning _ _ _ _) as [[r | e] sent']; now eauto.
Qed.

Lemma getReasoning_failure (bookmark : Bookmark) (w : World) (e : JsError)
    (sent' : list string) :
  OpenRouterClient.getReasoning (reasoner this) (sent w) (_buildPrompt bookmark) 20000
    = (Throw e, sent') ->
  fst (Run._getReasoning this bookmark w) = Ok (_generateDefaultMetadata bookmark).
Proof.
  intros H. unfold Run._getReasoning.
  destruct (_ >? 3000); [reflexivity |]. now rewrite H.
Qed.

End ReasoningFacts.

(** What makes the client fail: no key, a request that timed out, was
    refused or rejected, and an answer that does not parse or does not
    validate. *)
Lemma client_failures (client : OpenRouterClient.Client) (sent : list string)
    (prompt : string) (timeout : N) :
  let out := fst (OpenRouterClient.getReasoning client sent prompt timeout) in
  (Js.orOpt (OpenRouterClient.apiKey client) EmptyString = EmptyString ->
   exists e, out = Throw e)
  /\ (OpenRouterClient.fetch client sent prompt = OpenRouterClient.Aborted ->
      exists e, out = Throw e)
  /\ (forall m, OpenRouterClient.fetch client sent prompt = OpenRouterClient.NotOk m ->
      exists e, out = Throw e)
  /\ (forall e', OpenRouterClient.fetch client sent prompt = OpenRouterClient.Rejected e' ->
      exists e, out = Throw e)
  /\ (forall answer,
        OpenRouterClient.fetch client sent prompt = OpenRouterClient.Answer answer ->
        OpenRouterClient.JSON_parse client (Validation.cleaned answer) = None ->
        exists e, out = Throw e).
Proof.
  unfold OpenRouterClient.getReasoning.
  destruct (OpenRouterClient.apiKey client) as [[|c k]|]; cbn [Js.orOpt fst];
    repeat split; try (intros; eexists; reflexivity); try (intros; discriminate).
  - intros ->. eexists; reflexivity.
  - intros m ->. eexists; reflexivity.
  - intros e' ->. eexists; reflexivity.
  - intros answer -> Hparse. unfold OpenRouterClient._parseOutput.
    fold (Validation.cleaned answer). rewrite Hparse. eexists; reflexivity.
Qed.

(** C9: a prompt of more than 3000 characters is never sent, the default
    metadata is the result and nothing else changes; and whenever the client
    throws, whatever the error, the default metadata is the result as well, so
    that reasoning always returns. *)
Theorem getReasoning_falls_back (this : Pipeline) (bookmark : Bookmark) (w : World) :
  let prompt := FreeModePipeline._buildPrompt bookmark in
  let defaults := FreeModePipeline._generateDefaultMetadata bookmark in
  (3000 < Z.of_nat (String.length prompt) ->
   Run._getReasoning this bookmark w = (Ok defaults, w))
  /\ (forall e sent',
        OpenRouterClient.getReasoning (reasoner this) (sent w) prompt 20000
          = (Throw e, sent') ->
        fst (Run._getReasoning this bookmark w) = Ok defaults)
  /\ (exists reasoning w',
        Run._getReasoning this bookmark w = (Ok reasoning, w') /\ files w' = files w).
Proof.
  intros prompt defaults. split; [| split].
  - apply getReasoning_long_prompt.
  - apply getReasoning_failure.
  - apply getReasoning_returns.
Qed.

(** C9, witness: the long text is not sent, and a request that times out
    gives the defaults. *)
Lemma getReasoning_falls_back_witness :
  Run._getReasoning Fixtures.DEFAULT_CONFIG Fixtures.longBookmark Fixtures.emptyWorld
    = (Ok (FreeModePipeline._generateDefaultMetadata Fixtures.longBookmark),
       Fixtures.emptyWorld)
  /\ fst (Run._getReasoning Fixtures.DEFAULT_CONFIG (Fixtures.bookmarkOf "1" "hello" [])
            Fixtures.emptyWorld)
     = Ok (FreeModePipeline._generateDefaultMetadata (Fixtures.bookmarkOf "1" "hello" [])).
Proof.
  split.
  - apply (proj1 (getReasoning_falls_back Fixtures.DEFAULT_CONFIG Fixtures.longBookmark
                    Fixtures.emptyWorld)).
    by_evaluation.
  - eapply (proj1 (proj2 (getReasoning_falls_back Fixtures.DEFAULT_CONFIG
                            (Fixtures.bookmarkOf "1" "hello" []) Fixtures.emptyWorld))).
    by_evaluation.
Defined.

(** ** The category resolver *)

Section ResolverFacts.

Import FreeModePipeline.
Variable categories : list (string * CategoryRule).

Lemma findIn_lookupIn (entries : list (string * CategoryRule)) (url k : string) :
  findIn entries url = Some k -> exists rule, lookupIn entries k = Some rule.
Proof.
  induction entries as [|[k' rule'] entries IH]; simpl; intros H; [discriminate |].
  destruct (String.eqb k' k) eqn:E; [now eauto |].
  destruct (includesAny url (matches rule')).
  - injection H as ->. now rewrite String.eqb_refl in E.
  - now apply IH.
Qed.

Lemma firstLinkCategory_defined (ls : list Link) (returned : option CategoryRule) :
  firstLinkCategory categories ls = Some returned -> exists rule, returned = Some rule.
Proof.
  induction ls as [|l ls IH]; simpl; intros H; [discriminate |].
  destruct (_findCategoryByUrl categories (expanded l)) as [[|c k]|] eqn:E;
    [now apply IH | | now apply IH].
  injection H as <-. destruct (findIn_lookupIn _ _ _ E) as [rule Hrule].
  exists rule. exact Hrule.
Qed.

Lemma matchCategory_defined (bookmark : Bookmark) (reasoning : option ReasoningResult) :
  exists rule, _matchCategory categories bookmark reasoning = Some rule.
Proof.
  unfold _matchCategory.
  destruct (isTweet (resolveKey bookmark reasoning)).
  - destruct (firstLinkCategory categories (links bookmark)) as [returned|] eqn:E.
    + destruct (firstLinkCategory_defined _ _ E) as [rule ->]. now eauto.
    + destruct (categories_get _ _); now eauto.
  - destruct (categories_get _ _); now eauto.
Qed.

Lemma matchCategory_fallback (bookmark : Bookmark) (reasoning : option ReasoningResult) :
  isTweet (resolveKey bookmark reasoning) = false
    \/ firstLinkCategory categories (links bookmark) = None ->
  categories_get categories (propertyName (resolveKey bookmark reasoning)) = None ->
  _matchCategory categories bookmark reasoning = Some fallbackRule.
Proof.
  intros Hurl Hget. unfold _matchCategory. rewrite Hget.
  destruct Hurl as [-> | ->]; [reflexivity |].
  now destruct (isTweet _).
Qed.

Lemma matchCategory_registered (bookmark : Bookmark) (reasoning : option ReasoningResult)
    (rule : CategoryRule) :
  isTweet (resolveKey bookmark reasoning) = false ->
  categories_get categories (propertyName (resolveKey bookmark reasoning)) = Some rule ->
  _matchCategory categories bookmark reasoning = Some rule.
Proof.
  intros Htweet Hget. unfold _matchCategory. now rewrite Htweet, Hget.
Qed.

(** The label decides when the table maps it to a key other than [tweet]. *)
Lemma resolveKey_label (bookmark : Bookmark) (r : ReasoningResult) (k : string) :
  categoryMap_get (Js.trim (Js.toLowerCase (category r))) = Some (Canonical k) ->
  String.eqb k "tweet" = false ->
  resolveKey bookmark (Some r) = Some (Canonical k).
Proof.
  intros Hget Hk. unfold resolveKey. cbn [from_option]. rewrite Hget.
  cbv beta iota zeta delta [unresolved isTweet]. rewrite Hk.
  cbv beta iota. rewrite Hk. reflexivity.
Qed.

(** A label the table does not know, no GitHub, video or podcast keyword in
    the combined text, and an article keyword in the title. *)
Lemma resolveKey_article_keyword (bookmark : Bookmark) (r : ReasoningResult) :
  categoryMap_get (Js.trim (Js.toLowerCase (category r))) = None ->
  includesAny (combinedTextOf bookmark (Some r)) githubKeywords = false ->
  includesAny (combinedTextOf bookmark (Some r)) videoKeywords = false ->
  includesAny (combinedTextOf bookmark (Some r)) podcastKeywords = false ->
  includesAny (Js.toLowerCase (title r)) articleKeywords = true ->
  resolveKey bookmark (Some r) = Some (Canonical "article").
Proof.
  intros Hget Hg Hv Hp Ha. unfold resolveKey. cbn [from_option]. rewrite Hget.
  unfold keywordScan. rewrite Hg, Hv, Hp.
  assert (Hart : includesAny (combinedTextOf bookmark (Some r)) articleKeywords = true).
  { unfold combinedTextOf. cbn [from_option]. now apply includesAny_app_l. }
  rewrite Hart. reflexivity.
Qed.

End ResolverFacts.

(** C5: the resolver returns a rule for every bookmark and every reasoning
    result, absent or not; the rule is the synthesized one, with key [tweet],
    action [capture] and no folder, when nothing resolved and the registry has
    no entry under the name looked up, and more generally whenever the link
    scan returns nothing and the registry has no entry under that name. *)
Theorem matchCategory_never_null (categories : list (string * CategoryRule))
    (bookmark : Bookmark) (reasoning : option ReasoningResult) :
  let matchedKey := FreeModePipeline.resolveKey bookmark reasoning in
  let lookedUp := FreeModePipeline.propertyName matchedKey in
  (exists rule, FreeModePipeline._matchCategory categories bookmark reasoning = Some rule)
  /\ (matchedKey = None ->
      FreeModePipeline.categories_get categories "undefined" = None ->
      FreeModePipeline._matchCategory categories bookmark reasoning
        = Some FreeModePipeline.fallbackRule)
  /\ (FreeModePipeline.isTweet matchedKey = false
        \/ FreeModePipeline.firstLinkCategory categories (links bookmark) = None ->
      FreeModePipeline.categories_get categories lookedUp = None ->
      FreeModePipeline._matchCategory categories bookmark reasoning
        = Some FreeModePipeline.fallbackRule)
  /\ key FreeModePipeline.fallbackRule = Some "tweet"
  /\ action FreeModePipeline.fallbackRule = "capture"
  /\ folder FreeModePipeline.fallbackRule = None.
Proof.
  intros matchedKey lookedUp. split; [apply matchCategory_defined |].
  split; [| split; [apply matchCategory_fallback | now repeat split]].
  intros Hnone Hget. apply matchCategory_fallback.
  - left. fold matchedKey. now rewrite Hnone.
  - fold matchedKey. now rewrite Hnone.
Qed.

(** C5, witness: the unrecognized content of the test suite, and an absent
    reasoning result. *)
Lemma matchCategory_never_null_witness :
  FreeModePipeline._matchCategory Fixtures.DEFAULT_CATEGORIES Fixtures.emptyBookmark
    (Some (Fixtures.reasoningOf "Unknown" "Random thoughts" "Just thinking"))
  = Some FreeModePipeline.fallbackRule
  /\ FreeModePipeline._matchCategory Fixtures.DEFAULT_CATEGORIES Fixtures.emptyBookmark None
     = Some FreeModePipeline.fallbackRule.
Proof.
  split.
  - apply (proj1 (proj2 (matchCategory_never_null Fixtures.DEFAULT_CATEGORIES
                           Fixtures.emptyBookmark
                           (Some (Fixtures.reasoningOf "Unknown" "Random thoughts"
                                    "Just thinking"))))).
    + by_evaluation.
    + reflexivity.
  - apply (proj1 (proj2 (matchCategory_never_null Fixtures.DEFAULT_CATEGORIES
                           Fixtures.emptyBookmark None))).
    + by_evaluation.
    + reflexivity.
Defined.

Lemma matchCategory_article_keyword (categories : list (string * CategoryRule))
    (bookmark : Bookmark) (r : ReasoningResult) (articleRule : CategoryRule) :
  FreeModePipeline.categories_get categories "article" = Some articleRule ->
  FreeModePipeline.categoryMap_get (Js.trim (Js.toLowerCase (category r))) = None ->
  FreeModePipeline.includesAny (Js.toLowerCase (title r)) FreeModePipeline.articleKeywords
    = true ->
  earlierGroupsSilent (FreeModePipeline.combinedTextOf bookmark (Some r)) = true ->
  FreeModePipeline._matchCategory categories bookmark (Some r) = Some articleRule.
Proof.
  intros Hart Hget Htitle Hsilent.
  unfold earlierGroupsSilent in Hsilent.
  apply andb_true_iff in Hsilent as [Hsilent Hp].
  apply andb_true_iff in Hsilent as [Hg Hv].
  apply negb_true_iff in Hg, Hv, Hp.
  assert (Hkey : FreeModePipeline.resolveKey bookmark (Some r)
                 = Some (FreeModePipeline.Canonical "article"))
    by now apply resolveKey_article_keyword.
  apply matchCategory_registered; rewrite Hkey; [reflexivity | exact Hart].
Qed.

Lemma matchCategory_label (categories : list (string * CategoryRule))
    (bookmark : Bookmark) (r : ReasoningResult) (k : string) (rule : CategoryRule) :
  FreeModePipeline.categories_get categories k = Some rule ->
  FreeModePipeline.categoryMap_get (Js.trim (Js.toLowerCase (category r)))
    = Some (FreeModePipeline.Canonical k) ->
  String.eqb k "tweet" = false ->
  FreeModePipeline._matchCategory categories bookmark (Some r) = Some rule.
Proof.
  intros Hrule Hget Hk.
  assert (Hkey : FreeModePipeline.resolveKey bookmark (Some r)
                 = Some (FreeModePipeline.Canonical k))
    by now apply resolveKey_label.
  apply matchCategory_registered; rewrite Hkey; [| exact Hrule].
  cbn [FreeModePipeline.isTweet]. exact Hk.
Qed.

(** C1, as the code has it: in a registry with an entry [article], the
    labels Vision and Y Combinator resolve to that entry for every bookmark,
    title and summary; the labels 3D Generation, Chat History and Personal AI
    OS, with the titles of the test suite, resolve to it for every bookmark and
    summary in which the GitHub, video and podcast keyword groups find nothing.
    Nothing is said of the label Millionaire. *)
Theorem hard_cases_resolve_to_article (categories : list (string * CategoryRule))
    (articleRule : CategoryRule) (bookmark : Bookmark) (title summary : string) :
  FreeModePipeline.categories_get categories "article" = Some articleRule ->
  let resolve label title :=
    FreeModePipeline._matchCategory categories bookmark
      (Some (Fixtures.reasoningOf label title summary)) in
  let silent label title :=
    earlierGroupsSilent
      (FreeModePipeline.combinedTextOf bookmark
         (Some (Fixtures.reasoningOf label title summary))) in
  resolve "Vision" title = Some articleRule
  /\ resolve "Y Combinator" title = Some articleRule
  /\ (silent "3D Generation" "3D Scene Generation" = true ->
      resolve "3D Generation" "3D Scene Generation" = Some articleRule)
  /\ (silent "Chat History" "AI Chat History" = true ->
      resolve "Chat History" "AI Chat History" = Some articleRule)
  /\ (silent "Personal AI OS" "Personal AI Operating System" = true ->
      resolve "Personal AI OS" "Personal AI Operating System" = Some articleRule).
Proof.
  intros Hart resolve silent. subst resolve silent. cbv beta.
  split; [| split; [| split; [| split]]].
  - apply (matchCategory_label _ _ _ "article"); [exact Hart | | reflexivity].
    by_evaluation.
  - apply (matchCategory_label _ _ _ "article"); [exact Hart | | reflexivity].
    by_evaluation.
  - intros Hs. apply matchCategory_article_keyword;
      [exact Hart | by_evaluation | by_evaluation | exact Hs].
  - intros Hs. apply matchCategory_article_keyword;
      [exact Hart | by_evaluation | by_evaluation | exact Hs].
  - intros Hs. apply matchCategory_article_keyword;
      [exact Hart | by_evaluation | by_evaluation | exact Hs].
Qed.

(** C1, witness: the inputs of the test suite, with its registry. *)
Lemma hard_cases_resolve_to_article_witness :
  let resolve label title :=
    FreeModePipeline._matchCategory Fixtures.DEFAULT_CATEGORIES Fixtures.emptyBookmark
      (Some (Fixtures.reasoningOf label title "Test summary")) in
  resolve "Vision" "Personal AI Vision" = Some Fixtures.articleRule
  /\ resolve "Y Combinator" "Y Combinator Student Deals for AI Credits"
     = Some Fixtures.articleRule
  /\ resolve "3D Generation" "3D Scene Generation" = Some Fixtures.articleRule
  /\ resolve "Chat History" "AI Chat History" = Some Fixtures.articleRule
  /\ resolve "Personal AI OS" "Personal AI Operating System" = Some Fixtures.articleRule.
Proof.
  pose proof (hard_cases_resolve_to_article Fixtures.DEFAULT_CATEGORIES
                Fixtures.articleRule Fixtures.emptyBookmark) as H.
  cbv beta zeta in *.
  destruct (H "Personal AI Vision" "Test summary" eq_refl) as (H1 & _).
  destruct (H "Y Combinator Student Deals for AI Credits" "Test summary" eq_refl)
    as (_ & H2 & _).
  destruct (H EmptyString "Test summary" eq_refl) as (_ & _ & H3 & H4 & H5).
  split; [exact H1 |].
  split; [exact H2 |].
  split; [apply H3; by_evaluation |].
  split; [apply H4; by_evaluation |].
  apply H5; by_evaluation.
Defined.

(** C1, counterexample: with the registry and the bookmark of the test
    suite, the label Millionaire with the title Rise of Automation Millionaires
    resolves to the entry [github], which is not the entry [article]: the
    keyword automation is found first.  The label 3D Generation does the same
    for a bookmark whose text names github, and the label Chat History falls
    to the synthesized rule when the title has no keyword. *)
Lemma millionaire_resolves_to_github :
  FreeModePipeline._matchCategory Fixtures.DEFAULT_CATEGORIES Fixtures.emptyBookmark
    (Some (Fixtures.reasoningOf "Millionaire" "Rise of Automation Millionaires"
             "Test summary"))
  = Some Fixtures.githubRule
  /\ FreeModePipeline.categories_get Fixtures.DEFAULT_CATEGORIES "article"
     = Some Fixtures.articleRule
  /\ Fixtures.githubRule <> Fixtures.articleRule
  /\ FreeModePipeline._matchCategory Fixtures.DEFAULT_CATEGORIES
       (Fixtures.bookmarkOf "1" "new on github" [])
       (Some (Fixtures.reasoningOf "3D Generation" "3D Scene Generation" "Test summary"))
     = Some Fixtures.githubRule
  /\ FreeModePipeline._matchCategory Fixtures.DEFAULT_CATEGORIES Fixtures.emptyBookmark
       (Some (Fixtures.reasoningOf "Chat History" "Test" "Test summary"))
     = Some FreeModePipeline.fallbackRule.
Proof.
  repeat split; try (by_evaluation). discriminate.
Qed.

(** ** Processing one bookmark *)

Section ProcessFacts.

Import FreeModePipeline.
Variable host : Host.
Variable this : Pipeline.

Lemma normalize_truthy (p : string) : Js.truthy (Path.normalize p) = true.
Proof.
  unfold Path.normalize. destruct p as [|c p]; [reflexivity |].
  destruct (Js.join "/" _) as [|d body].
  - destruct (Js.startsWith _ _); [reflexivity |].
    destruct (Path.endsWithSlash _); reflexivity.
  - destruct (Js.startsWith _ _); reflexivity.
Qed.

Lemma join_truthy (a b : string) : Js.truthy (Path.join a b) = true.
Proof.
  unfold Path.join. destruct a, b; try reflexivity; apply normalize_truthy.
Qed.

Lemma action_or_capture (a : string) :
  String.eqb (Js.orElse a "capture") "file" = String.eqb a "file".
Proof. destruct a; reflexivity. Qed.

Lemma writeBookmark_other_action (bookmark : Bookmark) (reasoning : ReasoningResult)
    (category : CategoryRule) (slug : string) (w : World) :
  String.eqb (action category) "file" = false ->
  Run._writeBookmark host this bookmark reasoning category slug w = (Ok None, w).
Proof.
  intros H. unfold Run._writeBookmark. now rewrite action_or_capture, H.
Qed.

Lemma writeBookmark_file (bookmark : Bookmark) (reasoning : ReasoningResult)
    (category : CategoryRule) (w : World) :
  String.eqb (action category) "file" = true ->
  let slug := _generateSlug (title reasoning) (author bookmark) in
  Run._writeBookmark host this bookmark reasoning category slug w =
    match writeError host (filePathOf this category slug) with
    | Some e => (Throw e, w)
    | None => (Ok (Some (filePathOf this category slug)), withFile host this bookmark reasoning category w)
    end.
Proof.
  intros H slug. unfold Run._writeBookmark.
  rewrite action_or_capture, H. cbn [negb].
  unfold slug. rewrite generateSlug_valid.
  fold slug. fold (filePathOf this category slug).
  unfold filePathOf at 1. rewrite join_truthy. cbn [negb].
  unfold bindM, Run.writeFileSync, ret.
  destruct (writeError host (filePathOf this category slug)); reflexivity.
Qed.

(** [_processBookmark], step by step. *)
Lemma processBookmark_steps (bookmark : Bookmark) (w : World) :
  exists reasoning w1 category,
    Run._getReasoning this bookmark w = (Ok reasoning, w1)
    /\ files w1 = files w
    /\ _matchCategory (categories this) bookmark (Some reasoning) = Some category
    /\ let slug := _generateSlug (title reasoning) (author bookmark) in
       let path := filePathOf this category slug in
       let w2 := withFile host this bookmark reasoning category w1 in
       Run._processBookmark host this bookmark w =
         if String.eqb (action category) "file" then
           match writeError host path with
           | Some e => (Throw e, w1)
           | None =>
               match writeError host (Run.archiveFile this) with
               | Some e => (Throw e, w2)
               | None => (Ok (resultOf bookmark reasoning category (Some path)),
                          withEntry this bookmark reasoning category w2)
               end
           end
         else (Ok (resultOf bookmark reasoning category None), w1).
Proof.
  destruct (getReasoning_returns this bookmark w) as (reasoning & w1 & Hr & Hfiles).
  destruct (matchCategory_defined (categories this) bookmark (Some reasoning))
    as [category Hc].
  exists reasoning, w1, category. repeat split; try assumption.
  intros slug path w2.
  unfold Run._processBookmark, bindM at 1. rewrite Hr, Hc.
  unfold bindM at 1.
  destruct (String.eqb (action category) "file") eqn:Ha.
  - fold slug. unfold slug at 1.
    rewrite (writeBookmark_file bookmark reasoning category w1 Ha).
    fold slug path w2.
    destruct (writeError host path) as [e|]; [reflexivity |].
    pose proof (join_truthy (Js.orOpt (folder category) (Run.toolsDir this))
                  (slug +:+ ".md")) as Hp.
    fold (filePathOf this category slug) in Hp. fold path in Hp.
    unfold bindM, ret.
    destruct path as [|c p] eqn:Epath; [discriminate |].
    unfold Run._appendToArchive, Run._insertIntoArchive, Run.writeFileSync.
    destruct (writeError host (Run.archiveFile this)); reflexivity.
  - rewrite (writeBookmark_other_action _ _ _ _ _ Ha). reflexivity.
Qed.

Lemma archiveEntry_filed (bookmark : Bookmark) (reasoning : ReasoningResult)
    (category : CategoryRule) (slug : string) :
  action category = "file" -> Js.truthy slug = true ->
  Js.includes (archiveEntry bookmark reasoning category slug) "- **Filed:** [" = true.
Proof.
  intros Ha Hs. unfold archiveEntry. rewrite Ha, Hs.
  change (String.eqb "file" "file" && true) with true. cbv iota.
  unfold Js.concat at 1. cbn [fold_right].
  do 14 apply includes_app_r. apply includes_app_l.
  unfold Js.concat. cbn [fold_right]. apply includes_app_l. reflexivity.
Qed.

Lemma archiveEntry_not_filed (bookmark : Bookmark) (reasoning : ReasoningResult)
    (category : CategoryRule) (slug : string) :
  action category <> "file" ->
  archiveEntry bookmark reasoning category slug
  = archiveEntry bookmark reasoning category EmptyString.
Proof.
  intros Ha. apply String.eqb_neq in Ha. unfold archiveEntry. now rewrite Ha.
Qed.

End ProcessFacts.

(** C4, as the code has it: when a bookmark is processed without an error,
    either the category's action is [file], the file is written and then the
    entry, with its Filed pointer, is inserted into the archive, or the action
    is anything else ([capture], [transcribe]), no file is reported, and
    neither a file nor the archive is touched: such a bookmark gets no archive
    entry. *)
Theorem archive_entry_only_with_file (host : Host) (this : Pipeline)
    (bookmark : Bookmark) (w w' : World) (res : ProcessingResult) :
  Run._processBookmark host this bookmark w = (Ok res, w') ->
  exists reasoning w1 category,
    Run._getReasoning this bookmark w = (Ok reasoning, w1)
    /\ files w1 = files w
    /\ FreeModePipeline._matchCategory (categories this) bookmark (Some reasoning)
       = Some category
    /\ match res_filePath res with
       | Some path =>
           action category = "file"
           /\ path = filePathOf this category (res_slug res)
           /\ w' = withEntry this bookmark reasoning category
                     (withFile host this bookmark reasoning category w1)
           /\ Js.includes
                (FreeModePipeline.archiveEntry bookmark reasoning category (res_slug res))
                "- **Filed:** [" = true
       | None => action category <> "file" /\ w' = w1
       end.
Proof.
  intros Hrun.
  destruct (processBookmark_steps host this bookmark w)
    as (reasoning & w1 & category & Hr & Hfiles & Hc & Hsteps).
  exists reasoning, w1, category. repeat split; try assumption.
  cbv zeta in Hsteps. rewrite Hsteps in Hrun. clear Hsteps.
  destruct (String.eqb (action category) "file") eqn:Ha.
  - apply String.eqb_eq in Ha.
    destruct (writeError host _) in Hrun; [discriminate |].
    destruct (writeError host _) in Hrun; [discriminate |].
    injection Hrun as <- <-. cbn [res_filePath resultOf res_slug].
    repeat split; try assumption.
    apply archiveEntry_filed; [exact Ha | apply generateSlug_truthy].
  - apply String.eqb_neq in Ha.
    injection Hrun as <- <-. cbn [res_filePath resultOf]. now split.
Qed.

(** C4, witness: the reasoning request times out, the defaults say General
    and the registry of the test suite answers with its capture rule; the
    bookmark is processed and the world is the one reasoning left. *)
Lemma archive_entry_only_with_file_witness :
  exists reasoning w1 category,
    Run._getReasoning Fixtures.DEFAULT_CONFIG Scenarios.plainThought Fixtures.emptyWorld
      = (Ok reasoning, w1)
    /\ files w1 = files Fixtures.emptyWorld
    /\ FreeModePipeline._matchCategory Fixtures.DEFAULT_CATEGORIES Scenarios.plainThought
         (Some reasoning)
       = Some category
    /\ action category <> "file"
    /\ snd (Run._processBookmark Fixtures.quietHost Fixtures.DEFAULT_CONFIG
              Scenarios.plainThought Fixtures.emptyWorld) = w1.
Proof.
  destruct (archive_entry_only_with_file Fixtures.quietHost Fixtures.DEFAULT_CONFIG
              Scenarios.plainThought Fixtures.emptyWorld
              (snd (Run._processBookmark Fixtures.quietHost Fixtures.DEFAULT_CONFIG
                      Scenarios.plainThought Fixtures.emptyWorld))
              (resultOf Scenarios.plainThought
                 (FreeModePipeline._generateDefaultMetadata Scenarios.plainThought)
                 Fixtures.tweetRule None))
    as (reasoning & w1 & category & H1 & H2 & H3 & H4 & H5).
  - by_evaluation.
  - exists reasoning, w1, category. auto.
Defined.

(** C4, counterexample: a plain thought resolves to the capture rule of the
    registry, a bookmark with a video link to its transcribe rule; each is
    processed without an error, no file is reported, and there is still no
    archive afterwards: no entry was appended. *)
Lemma captured_bookmark_is_not_archived :
  (let out := Run._processBookmark Fixtures.quietHost Fixtures.DEFAULT_CONFIG
                Scenarios.plainThought Fixtures.emptyWorld in
   fst out = Ok (resultOf Scenarios.plainThought
                   (FreeModePipeline._generateDefaultMetadata Scenarios.plainThought)
                   Fixtures.tweetRule None)
   /\ action Fixtures.tweetRule = "capture"
   /\ files (snd out) !! Run.archiveFile Fixtures.DEFAULT_CONFIG = None)
  /\ (let out := Run._processBookmark Fixtures.quietHost Fixtures.DEFAULT_CONFIG
                   Scenarios.withVideo Fixtures.emptyWorld in
      fst out = Ok (resultOf Scenarios.withVideo
                      (FreeModePipeline._generateDefaultMetadata Scenarios.withVideo)
                      Fixtures.youtubeRule None)
      /\ action Fixtures.youtubeRule = "transcribe"
      /\ files (snd out) !! Run.archiveFile Fixtures.DEFAULT_CONFIG = None).
Proof. repeat split; by_evaluation. Qed.

(** ** The link scan *)

Section LinkScanFacts.

Import FreeModePipeline.
Variable categories : list (string * CategoryRule).

Lemma firstLinkCategory_first_hit (pre post : list Link) (l : Link) (c : ascii) (k : string) :
  (forall l', In l' pre -> _findCategoryByUrl categories (expanded l') = None) ->
  _findCategoryByUrl categories (expanded l) = Some (String c k) ->
  firstLinkCategory categories (pre ++ l :: post)
  = Some (categories_get categories (String c k)).
Proof.
  intros Hpre Hl. induction pre as [|p pre IH].
  - cbn [app firstLinkCategory]. now rewrite Hl.
  - cbn [app firstLinkCategory]. rewrite (Hpre p (or_introl eq_refl)).
    apply IH. intros l' Hin. apply Hpre. now right.
Qed.

Lemma matchCategory_tweet_link (bookmark : Bookmark) (reasoning : option ReasoningResult)
    (pre post : list Link) (l : Link) (c : ascii) (k : string) :
  resolveKey bookmark reasoning = Some (Canonical "tweet") ->
  links bookmark = pre ++ l :: post ->
  (forall l', In l' pre -> _findCategoryByUrl categories (expanded l') = None) ->
  _findCategoryByUrl categories (expanded l) = Some (String c k) ->
  exists rule,
    categories_get categories (String c k) = Some rule
    /\ _matchCategory categories bookmark reasoning = Some rule.
Proof.
  intros Hkey Hlinks Hpre Hl.
  destruct (findIn_lookupIn _ _ _ Hl) as [rule Hrule].
  exists rule. split; [exact Hrule |].
  unfold _matchCategory. rewrite Hkey. cbn [isTweet].
  change (String.eqb "tweet" "tweet") with true. cbv iota.
  rewrite Hlinks, (firstLinkCategory_first_hit pre post l c k Hpre Hl).
  exact Hrule.
Qed.

End LinkScanFacts.

(** In the registry of the test suite a URL with [github.com] in it is
    matched by the entry [github] first. *)
Lemma default_registry_github (url : string) :
  Js.includes url "github.com" = true ->
  FreeModePipeline._findCategoryByUrl Fixtures.DEFAULT_CATEGORIES url = Some "github".
Proof.
  intros H. unfold FreeModePipeline._findCategoryByUrl, Fixtures.DEFAULT_CATEGORIES.
  cbn [FreeModePipeline.findIn Fixtures.githubRule Fixtures.rule matches].
  unfold FreeModePipeline.includesAny. cbn [existsb]. now rewrite H.
Qed.

(** C2, as the code has it: the links are scanned when the key that the
    label, the keywords, the words and the topics leave is [tweet], the
    generic placeholder.  Then, if the first link that any entry matches is
    matched by the entry [github] first, the resolver returns that entry; and
    if its action is [file] and the disk takes the two writes, processing
    writes the file at [path.join(folder || toolsDir, slug + '.md')], reports
    that path and inserts the archive entry.  Nothing is said of a key that is
    left undefined. *)
Theorem link_scan_for_tweet_key (host : Host) (this : Pipeline) (bookmark : Bookmark)
    (w w1 : World) (reasoning : ReasoningResult) (pre post : list Link) (l : Link) :
  Run._getReasoning this bookmark w = (Ok reasoning, w1) ->
  FreeModePipeline.resolveKey bookmark (Some reasoning)
    = Some (FreeModePipeline.Canonical "tweet") ->
  links bookmark = pre ++ l :: post ->
  (forall l', In l' pre ->
     FreeModePipeline._findCategoryByUrl (categories this) (expanded l') = None) ->
  FreeModePipeline._findCategoryByUrl (categories this) (expanded l) = Some "github" ->
  exists rule,
    FreeModePipeline.categories_get (categories this) "github" = Some rule
    /\ FreeModePipeline._matchCategory (categories this) bookmark (Some reasoning)
       = Some rule
    /\ let slug := FreeModePipeline._generateSlug (title reasoning) (author bookmark) in
       let path := Path.join (Js.orOpt (folder rule) (Run.toolsDir this)) (slug +:+ ".md") in
       (action rule = "file" ->
        writeError host path = None ->
        writeError host (Run.archiveFile this) = None ->
        Run._processBookmark host this bookmark w
        = (Ok (resultOf bookmark reasoning rule (Some path)),
           withEntry this bookmark reasoning rule
             (withFile host this bookmark reasoning rule w1))).
Proof.
  intros Hr Hkey Hlinks Hpre Hl.
  destruct (matchCategory_tweet_link (categories this) bookmark (Some reasoning)
              pre post l _ _ Hkey Hlinks Hpre Hl) as (rule & Hrule & Hmatch).
  exists rule. split; [exact Hrule |]. split; [exact Hmatch |].
  intros slug path Ha Hw1 Hw2.
  destruct (processBookmark_steps host this bookmark w)
    as (reasoning' & w1' & category & Hr' & _ & Hc & Hsteps).
  rewrite Hr in Hr'. injection Hr' as <- <-.
  rewrite Hmatch in Hc. injection Hc as <-.
  cbv zeta in Hsteps. rewrite Hsteps, Ha.
  change (String.eqb "file" "file") with true. cbv iota.
  fold slug. unfold filePathOf. fold path. now rewrite Hw1, Hw2.
Qed.

(** C2, witness: the provider says General, the key is [tweet], the link is
    scanned and the file goes under the folder of the entry [github]. *)
Lemma link_scan_for_tweet_key_witness :
  FreeModePipeline._matchCategory Fixtures.DEFAULT_CATEGORIES Scenarios.withRepo
    (Some (Scenarios.answered "General"))
  = Some Fixtures.githubRule
  /\ fst (Run._processBookmark Fixtures.quietHost (Scenarios.answering "General")
            Scenarios.withRepo Fixtures.emptyWorld)
     = Ok (resultOf Scenarios.withRepo (Scenarios.answered "General") Fixtures.githubRule
             (Some "knowledge/tools/test-5a6c9c5f.md")).
Proof.
  destruct (link_scan_for_tweet_key Fixtures.quietHost (Scenarios.answering "General")
              Scenarios.withRepo Fixtures.emptyWorld (Scenarios.asked Scenarios.withRepo)
              (Scenarios.answered "General") [] []
              {| expanded := Scenarios.repoUrl; content := None |})
    as (rule & Hrule & Hmatch & Hrun).
  - by_evaluation.
  - by_evaluation.
  - reflexivity.
  - intros l' [].
  - apply default_registry_github. by_evaluation.
  - injection Hrule as <-. split; [exact Hmatch |].
    cbv zeta in Hrun. rewrite (Hrun eq_refl eq_refl eq_refl).
    by_evaluation.
Defined.

(** C2, counterexample: a link to github.com, a label the table does not
    know (or an empty one) and no keyword in the text.  The key stays
    undefined, the links are not scanned, the synthesized capture rule
    is returned and no file is written.  And when the key is [tweet] but a
    video link comes first, the entry [youtube] is returned. *)
Lemma github_link_with_unknown_label_is_captured :
  Js.includes Scenarios.repoUrl "github.com" = true
  /\ FreeModePipeline.categoryMap_get "unknown" = None
  /\ FreeModePipeline.keywordScan
       (FreeModePipeline.combinedTextOf Scenarios.withRepo
          (Some (Scenarios.answered "Unknown"))) = None
  /\ FreeModePipeline._matchCategory Fixtures.DEFAULT_CATEGORIES Scenarios.withRepo
       (Some (Scenarios.answered "Unknown"))
     = Some FreeModePipeline.fallbackRule
  /\ FreeModePipeline._matchCategory Fixtures.DEFAULT_CATEGORIES Scenarios.withRepo
       (Some (Scenarios.answered EmptyString))
     = Some FreeModePipeline.fallbackRule
  /\ Run._processBookmark Fixtures.quietHost (Scenarios.answering "Unknown")
       Scenarios.withRepo Fixtures.emptyWorld
     = (Ok (resultOf Scenarios.withRepo (Scenarios.answered "Unknown")
              FreeModePipeline.fallbackRule None),
        Scenarios.asked Scenarios.withRepo)
  /\ FreeModePipeline._matchCategory Fixtures.DEFAULT_CATEGORIES Scenarios.withVideoAndRepo
       (Some (Scenarios.answered EmptyString))
     = Some Fixtures.youtubeRule.
Proof. repeat split; by_evaluation. Qed.

(** ** The default metadata *)

Section DefaultMetadataFacts.

Import FreeModePipeline.

Lemma take_length (n : nat) (s : string) : (String.length (Js.take n s) <= n)%nat.
Proof.
  revert s; induction n as [|n IH]; intros s; [simpl; lia |].
  destruct s as [|c s]; simpl; [lia |]. specialize (IH s). lia.
Qed.

Lemma take_all (n : nat) (s : string) : (String.length s <= n)%nat -> Js.take n s = s.
Proof.
  revert s; induction n as [|n IH]; intros s H.
  - destruct s; [reflexivity | simpl in H; lia].
  - destruct s as [|c s]; [reflexivity |]. simpl in *. rewrite IH; [reflexivity | lia].
Qed.

Lemma take_whole_iff (n : nat) (s : string) :
  Js.take n s = s <-> (String.length s <= n)%nat.
Proof.
  split; [| apply take_all].
  intros H. rewrite <- H. apply take_length.
Qed.

Lemma includesAny_app (s : string) (a b : list string) :
  includesAny s (a ++ b) = includesAny s a || includesAny s b.
Proof. apply existsb_app. Qed.

End DefaultMetadataFacts.

(** C6, as the code has it: the title of the defaults is a base followed by
    the marker [...], and the marker is there exactly when the raw text has
    more than 50 characters, whatever the base is.  Without a link, or with a
    first link of no known host, the base is the first 50 characters of the
    text; with a first link on a GitHub-like host it is the link's name, else
    the link's title, else those 50 characters; with a first link on an
    article, video or podcast host it is the link's title, else those 50
    characters.  The first 50 characters are the whole text exactly when the
    text has at most 50 characters. *)
Theorem defaultMetadata_title (bookmark : Bookmark) :
  let cut := Js.slice0 (text bookmark) 50 in
  let marker := if (50 <? String.length (text bookmark))%nat then "..." else EmptyString in
  let generated := title (FreeModePipeline._generateDefaultMetadata bookmark) in
  (cut = text bookmark <-> (String.length (text bookmark) <= 50)%nat)
  /\ match head (links bookmark) with
     | None => generated = cut +:+ marker
     | Some firstLink =>
         if FreeModePipeline.includesAny (expanded firstLink) FreeModePipeline.githubHosts
         then generated
              = Js.orOpt (FreeModePipeline.linkName firstLink)
                  (Js.orOpt (FreeModePipeline.linkTitle firstLink) cut) +:+ marker
         else if FreeModePipeline.includesAny (expanded firstLink)
                   (FreeModePipeline.articleHosts ++ FreeModePipeline.videoHosts
                    ++ FreeModePipeline.podcastHosts ++ FreeModePipeline.otherVideoHosts)
         then generated = Js.orOpt (FreeModePipeline.linkTitle firstLink) cut +:+ marker
         else generated = cut +:+ marker
     end.
Proof.
  intros cut marker generated. split; [apply take_whole_iff |].
  subst generated.
  unfold FreeModePipeline._generateDefaultMetadata,
    FreeModePipeline.defaultTitleAndCategory.
  fold cut.
  destruct (head (links bookmark)) as [firstLink|].
  - destruct (FreeModePipeline.includesAny (expanded firstLink)
                FreeModePipeline.githubHosts); [reflexivity |].
    rewrite !includesAny_app.
    destruct (FreeModePipeline.includesAny (expanded firstLink)
                FreeModePipeline.articleHosts); [reflexivity |].
    destruct (FreeModePipeline.includesAny (expanded firstLink)
                FreeModePipeline.videoHosts); [reflexivity |].
    destruct (FreeModePipeline.includesAny (expanded firstLink)
                FreeModePipeline.podcastHosts); [reflexivity |].
    destruct (FreeModePipeline.includesAny (expanded firstLink)
                FreeModePipeline.otherVideoHosts); [reflexivity |].
    cbn [orb].
    repeat (match goal with
            | |- context [if ?c then _ else _] => destruct c
            end; try reflexivity).
  - repeat (match goal with
            | |- context [if FreeModePipeline.includesAny ?a ?b then _ else _] =>
                destruct (FreeModePipeline.includesAny a b)
            end; try reflexivity).
Qed.

(** C6, counterexample: the link's name is the title, and the marker is
    appended to it all the same, the text being longer than 50 characters. *)
Lemma link_title_still_gets_marker :
  FreeModePipeline.linkName
    {| expanded := "https://github.com/rnzor/smaug";
       content := Some {| content_title := None; content_name := Some "smaug";
                          content_description := None |} |}
  = Some "smaug"
  /\ category (FreeModePipeline._generateDefaultMetadata Scenarios.namedRepo) = "GitHub"
  /\ title (FreeModePipeline._generateDefaultMetadata Scenarios.namedRepo) = "smaug...".
Proof. repeat split; by_evaluation. Qed.

(** ** The archive updater *)

Section ArchiveFacts.

Import FreeModePipeline.

Lemma indexOf_unfold (s p : string) :
  Js.indexOf s p =
  if Js.startsWith s p then Some 0%nat
  else match s with
       | EmptyString => None
       | String _ s' => S <$> Js.indexOf s' p
       end.
Proof. destruct s; reflexivity. Qed.

Lemma indexOf_after (pre rest p : string) :
  noneBefore (String.length pre) (pre +:+ rest) p ->
  Js.indexOf (pre +:+ rest) p
  = (fun j => (String.length pre + j)%nat) <$> Js.indexOf rest p.
Proof.
  induction pre as [|c pre IH]; intros H.
  - rewrite append_nil_l. now destruct (Js.indexOf rest p).
  - rewrite append_cons, indexOf_unfold.
    pose proof (H 0%nat ltac:(simpl; lia)) as H0.
    rewrite append_cons in H0. cbn [Js.drop] in H0. rewrite H0.
    rewrite IH.
    + now destruct (Js.indexOf rest p).
    + intros i Hi. specialize (H (S i) ltac:(simpl; lia)).
      now rewrite append_cons in H.
Qed.

Lemma indexOf_none (s p : string) : Js.includes s p = false -> Js.indexOf s p = None.
Proof.
  induction s as [|c s IH]; intros H; rewrite includes_unfold in H;
    apply orb_false_iff in H as [H1 H2]; rewrite indexOf_unfold, H1;
    [reflexivity |].
  now rewrite IH.
Qed.

Lemma startsWith_nl (s : string) :
  Js.startsWith s Js.nl = match s with
                          | String c _ => Ascii.eqb (Js.unit_of 10) c
                          | EmptyString => false
                          end.
Proof.
  destruct s as [|c s]; [reflexivity |].
  unfold Js.nl. cbn [Js.startsWith]. now destruct (Ascii.eqb _ c).
Qed.

Lemma no_line_feed_before (line rest : string) :
  Js.includes line Js.nl = false ->
  noneBefore (String.length line) (line +:+ rest) Js.nl.
Proof.
  induction line as [|c line IH]; intros H i Hi; [simpl in Hi; lia |].
  rewrite includes_unfold in H. apply orb_false_iff in H as [H1 H2].
  rewrite append_cons. destruct i as [|i].
  - cbn [Js.drop]. rewrite startsWith_nl in *. exact H1.
  - cbn [Js.drop]. apply IH; [exact H2 | simpl in Hi; lia].
Qed.

Lemma includes_header_line (date : string) :
  Js.includes date Js.nl = false -> Js.includes ("# " +:+ date) Js.nl = false.
Proof.
  intros H. rewrite !append_cons, append_nil_l.
  rewrite includes_unfold, startsWith_nl.
  rewrite includes_unfold, startsWith_nl. now rewrite H.
Qed.

Lemma drop_app_plus (a b : string) (n : nat) :
  Js.drop (String.length a + n) (a +:+ b) = Js.drop n b.
Proof.
  induction a as [|c a IH]; [reflexivity |].
  rewrite append_cons. simpl. exact IH.
Qed.

Lemma take_app_plus (a b : string) (n : nat) :
  Js.take (String.length a + n) (a +:+ b) = a +:+ Js.take n b.
Proof.
  induction a as [|c a IH]; [reflexivity |].
  rewrite !append_cons. simpl. now rewrite IH.
Qed.

(** Insertion under a heading that is the first occurrence of its text. *)
Lemma insertEntry_existing (pre post date entry : string) :
  let header := "# " +:+ date in
  Js.includes date Js.nl = false ->
  noneBefore (String.length pre) (pre +:+ header +:+ Js.nl +:+ post) header ->
  insertEntry (pre +:+ header +:+ Js.nl +:+ post) date entry
  = pre +:+ header +:+ Js.nl +:+ entry +:+ Js.nl +:+ post.
Proof.
  intros header Hdate Hfirst. unfold insertEntry. fold header.
  rewrite (indexOf_after pre _ header Hfirst).
  rewrite indexOf_unfold, startsWith_refl_app. cbn [fmap option_fmap option_map].
  rewrite Nat.add_0_r.
  unfold Js.indexOfFrom. rewrite drop_app_length.
  rewrite (indexOf_after header (Js.nl +:+ post) Js.nl)
    by (apply no_line_feed_before, includes_header_line, Hdate).
  rewrite indexOf_unfold, startsWith_refl_app. cbn [fmap option_fmap option_map].
  rewrite Nat.add_0_r.
  replace (String.length pre + String.length header + 1)%nat
    with (String.length pre + (String.length header + 1))%nat by lia.
  rewrite take_app_plus, drop_app_plus, take_app_plus, drop_app_plus.
  unfold Js.concat. cbn [fold_right]. rewrite append_nil_r.
  unfold Js.nl at 2 4. cbn [Js.take Js.drop String.length Nat.add].
  rewrite !append_assoc. reflexivity.
Qed.

(** Insertion when the heading's text is nowhere in the document. *)
Lemma insertEntry_new (content date entry : string) :
  Js.includes content ("# " +:+ date) = false ->
  insertEntry content date entry
  = ("# " +:+ date) +:+ Js.nl +:+ Js.nl +:+ entry +:+ Js.nl +:+ Js.nl +:+ content.
Proof.
  intros H. unfold insertEntry. rewrite (indexOf_none _ _ H).
  unfold Js.concat. cbn [fold_right]. now rewrite append_nil_r.
Qed.

End ArchiveFacts.

(** C7, as the code has it: the heading is looked for as a text, anywhere
    in the document.  If the document is [pre], the heading [# date], a line
    feed and [post], the date has no line feed in it and the text [# date]
    occurs nowhere before that heading, the entry and a line feed are inserted
    right after the heading's line and everything else stays where it was, the
    heading included, once.  If the text [# date] occurs nowhere in the
    document, the new section is put at the very top and the prior document
    follows it unchanged. *)
Theorem insertEntry_keeps_document (pre post content date entry : string) :
  let header := "# " +:+ date in
  (Js.includes date Js.nl = false ->
   noneBefore (String.length pre) (pre +:+ header +:+ Js.nl +:+ post) header ->
   FreeModePipeline.insertEntry (pre +:+ header +:+ Js.nl +:+ post) date entry
   = pre +:+ header +:+ Js.nl +:+ entry +:+ Js.nl +:+ post)
  /\ (Js.includes content header = false ->
      FreeModePipeline.insertEntry content date entry
      = header +:+ Js.nl +:+ Js.nl +:+ entry +:+ Js.nl +:+ Js.nl +:+ content).
Proof.
  intros header. split.
  - apply insertEntry_existing.
  - apply insertEntry_new.
Qed.

Lemma noneBefore_decide (n : nat) (s p : string) :
  forallb (fun i => negb (Js.startsWith (Js.drop i s) p)) (seq 0 n) = true ->
  noneBefore n s p.
Proof.
  intros H i Hi. rewrite forallb_forall in H.
  apply negb_true_iff, H, in_seq. lia.
Qed.

(** C7, witness: an entry for the older day of a two-day archive goes right
    under that day's heading; an entry for a new day goes on top. *)
Lemma insertEntry_keeps_document_witness :
  FreeModePipeline.insertEntry Archives.twoDays "2024-01-15" "ENTRY"
  = Archives.beforeHeading +:+ "# 2024-01-15" +:+ Js.nl +:+ "ENTRY" +:+ Js.nl
    +:+ Archives.afterHeading
  /\ FreeModePipeline.insertEntry Archives.twoDays "2024-01-17" "ENTRY"
     = "# 2024-01-17" +:+ Js.nl +:+ Js.nl +:+ "ENTRY" +:+ Js.nl +:+ Js.nl
       +:+ Archives.twoDays.
Proof.
  split.
  - apply (proj1 (insertEntry_keeps_document Archives.beforeHeading Archives.afterHeading
                    EmptyString "2024-01-15" "ENTRY")).
    + by_evaluation.
    + apply noneBefore_decide. by_evaluation.
  - apply (proj2 (insertEntry_keeps_document EmptyString EmptyString Archives.twoDays
                    "2024-01-17" "ENTRY")).
    by_evaluation.
Defined.

(** C7, counterexample: the archive has a section headed [# 2024-01-15],
    but the text of an entry above quotes that date, and the new entry lands
    under the quotation, inside the section of the other day, not under the
    heading.  And a heading that ends the document without a line feed gets
    the entry in front of it. *)
Lemma insertEntry_follows_first_occurrence :
  Archives.quoting
  = Archives.quotingBeforeHeading +:+ "# 2024-01-15" +:+ Js.nl +:+ Archives.afterHeading
  /\ FreeModePipeline.insertEntry Archives.quoting "2024-01-15" "ENTRY"
     = Archives.lines [ "# 2024-01-16"; ""; "## @bob - note"; "> see # 2024-01-15";
                        "ENTRY"; ""; "# 2024-01-15"; ""; "## @eve - old"; "> first" ]
  /\ FreeModePipeline.insertEntry Archives.quoting "2024-01-15" "ENTRY"
     <> Archives.quotingBeforeHeading +:+ "# 2024-01-15" +:+ Js.nl +:+ "ENTRY" +:+ Js.nl
        +:+ Archives.afterHeading
  /\ FreeModePipeline.insertEntry "# 2024-01-15" "2024-01-15" "ENTRY"
     = "ENTRY" +:+ Js.nl +:+ "# 2024-01-15".
Proof.
  repeat split; try (by_evaluation).
  vm_compute. discriminate.
Qed.

(** ** Permalinks in the archive *)

Section PermalinkFacts.

Import FreeModePipeline.

Lemma span_spec (p : ascii -> bool) (s a b : string) :
  span p s = (a, b) -> s = a +:+ b /\ Js.every p a = true.
Proof.
  revert a b; induction s as [|c s IH]; intros a b H; simpl in H.
  - injection H as <- <-. now split.
  - destruct (p c) eqn:Ec.
    + destruct (span p s) as [a' b'] eqn:E. injection H as <- <-.
      destruct (IH a' b' eq_refl) as [-> Ha]. split; [reflexivity |].
      simpl. now rewrite Ec, Ha.
    + injection H as <- <-. now split.
Qed.

Lemma span_app (p : ascii -> bool) (a b : string) :
  Js.every p a = true ->
  match b with String c _ => p c = false | EmptyString => True end ->
  span p (a +:+ b) = (a, b).
Proof.
  intros Ha Hb. induction a as [|c a IH].
  - rewrite append_nil_l. destruct b as [|c b]; [reflexivity |].
    simpl. now rewrite Hb.
  - simpl in Ha. apply andb_true_iff in Ha as [Hc Ha].
    rewrite append_cons. simpl. now rewrite Hc, (IH Ha).
Qed.

Lemma startsWith_spec (s p : string) :
  Js.startsWith s p = true -> s = p +:+ Js.drop (String.length p) s.
Proof.
  revert s; induction p as [|c p IH]; intros s H; [reflexivity |].
  destruct s as [|d s]; [discriminate |]. simpl in H.
  destruct (Ascii.eqb_spec c d) as [<- |]; [| discriminate].
  rewrite append_cons. simpl. now rewrite <- (IH s H).
Qed.

Lemma stripPrefix_spec (p s r : string) : stripPrefix p s = Some r -> s = p +:+ r.
Proof.
  unfold stripPrefix. destruct (Js.startsWith s p) eqn:E; [| discriminate].
  intros H. injection H as <-. now apply startsWith_spec.
Qed.

Lemma stripPrefix_app (p r : string) : stripPrefix p (p +:+ r) = Some r.
Proof.
  unfold stripPrefix. now rewrite startsWith_refl_app, drop_app_length.
Qed.

Lemma permalink_length (user digits : string) :
  String.length (permalink user digits)
  = (14 + String.length user + String.length digits)%nat.
Proof. unfold permalink. rewrite !length_append. simpl. lia. Qed.

Lemma permalinkAt_inv (s digits : string) (len : nat) :
  permalinkAt s = Some (digits, len) ->
  exists user rest,
    s = permalink user digits +:+ rest
    /\ Js.every Js.isWord user = true
    /\ Js.every Js.isDigit digits = true
    /\ digits <> EmptyString
    /\ len = String.length (permalink user digits).
Proof.
  unfold permalinkAt. intros H.
  destruct (stripPrefix "x.com/" s) as [r1|] eqn:E1; [| discriminate].
  cbn [mbind option_bind] in H.
  destruct (span Js.isWord r1) as [user r2] eqn:E2.
  destruct (stripPrefix "/status/" r2) as [r3|] eqn:E3; [| discriminate].
  cbn [mbind option_bind] in H.
  destruct (span Js.isDigit r3) as [ds rest] eqn:E4.
  destruct user as [|u0 user]; [discriminate |].
  destruct ds as [|d0 ds]; [discriminate |].
  injection H as <- <-.
  apply stripPrefix_spec in E1, E3.
  apply span_spec in E2 as [E2 Hu], E4 as [E4 Hd].
  exists (String u0 user), rest. subst.
  repeat split; try assumption; try discriminate.
  - unfold permalink. now rewrite !append_assoc.
  - now rewrite permalink_length.
Qed.

Lemma permalinkAt_here (user digits rest : string) :
  user <> EmptyString -> Js.every Js.isWord user = true ->
  digits <> EmptyString -> Js.every Js.isDigit digits = true ->
  endsDigits rest ->
  permalinkAt (permalink user digits +:+ rest)
  = Some (digits, String.length (permalink user digits)).
Proof.
  intros Hu0 Hu Hd0 Hd Hrest. rewrite permalink_length.
  unfold permalinkAt, permalink.
  rewrite !append_assoc, stripPrefix_app. cbn [mbind option_bind].
  rewrite (span_app Js.isWord user _ Hu) by reflexivity.
  rewrite stripPrefix_app. cbn [mbind option_bind].
  rewrite (span_app Js.isDigit digits rest Hd Hrest).
  destruct user; [contradiction |]. destruct digits; [contradiction |].
  reflexivity.
Qed.

Lemma app_split (a b c d : string) :
  a +:+ b = c +:+ d -> (String.length c < String.length a)%nat ->
  exists m, m <> EmptyString /\ a = c +:+ m /\ d = m +:+ b.
Proof.
  revert a; induction c as [|y c IH]; intros a H Hlen.
  - exists a. rewrite !append_nil_l in *. repeat split; [| now symmetry].
    destruct a; [simpl in Hlen; lia | discriminate].
  - destruct a as [|x a]; [simpl in Hlen; lia |].
    rewrite !append_cons in H. injection H as -> H.
    destruct (IH a H ltac:(simpl in Hlen; lia)) as (m & Hm & -> & ->).
    exists m. now rewrite append_cons.
Qed.

Lemma app_last (a b d : string) (c : ascii) :
  a +:+ String c EmptyString = b +:+ d -> d <> EmptyString ->
  exists d0, d = d0 +:+ String c EmptyString.
Proof.
  revert b; induction a as [|x a IH]; intros b H Hd.
  - rewrite append_nil_l in H. destruct b as [|y b].
    + rewrite append_nil_l in H. exists EmptyString. now rewrite append_nil_l.
    + rewrite append_cons in H. injection H as _ H.
      destruct b, d; try discriminate. now contradiction Hd.
  - destruct b as [|y b].
    + rewrite append_nil_l in H. exists (String x a). now symmetry.
    + rewrite !append_cons in H. injection H as _ H. now apply (IH b).
Qed.

Lemma no_xdot (c : ascii) (s : string) :
  Js.every notDot s = true -> Js.includes (String c s) "x." = false.
Proof.
  revert c; induction s as [|d s IH]; intros c H.
  - rewrite includes_unfold. cbn [Js.startsWith Js.includes].
    now destruct (Ascii.eqb "x" c).
  - simpl in H. apply andb_true_iff in H as [Hd Hs].
    rewrite includes_unfold, (IH d Hs), orb_false_r.
    cbn [Js.startsWith]. unfold notDot in Hd. apply negb_true_iff in Hd.
    rewrite Hd. now destruct (Ascii.eqb "x" c).
Qed.

Lemma every_impl (p q : ascii -> bool) (s : string) :
  (forall c, p c = true -> q c = true) -> Js.every p s = true -> Js.every q s = true.
Proof.
  intros Hpq. induction s as [|c s IH]; [reflexivity |].
  simpl. intros H. apply andb_true_iff in H as [Hc Hs].
  now rewrite (Hpq c Hc), (IH Hs).
Qed.

Lemma isWord_notDot (c : ascii) : Js.isWord c = true -> notDot c = true.
Proof.
  destruct c as [[] [] [] [] [] [] [] []]; intros H; try reflexivity; discriminate.
Qed.

Lemma isDigit_notDot (c : ascii) : Js.isDigit c = true -> notDot c = true.
Proof.
  destruct c as [[] [] [] [] [] [] [] []]; intros H; try reflexivity; discriminate.
Qed.

Lemma permalink_head (user digits rest : string) :
  permalink user digits +:+ rest
  = String "x" (String "." ("com/" +:+ user +:+ "/status/" +:+ digits +:+ rest)).
Proof. unfold permalink. now rewrite !append_assoc. Qed.

(** A match that starts before a permalink ends before it. *)
Lemma permalinkAt_before (pre t digits : string) (len : nat) :
  pre <> EmptyString ->
  permalinkAt (pre +:+ String "x" (String "." t)) = Some (digits, len) ->
  (len <= String.length pre)%nat.
Proof.
  intros Hpre H.
  destruct (permalinkAt_inv _ _ _ H) as (u & rest & Hs & Hu & Hd & Hd0 & ->).
  destruct (Nat.le_gt_cases (String.length (permalink u digits)) (String.length pre))
    as [Hle | Hgt]; [exact Hle | exfalso].
  symmetry in Hs.
  destruct (app_split _ _ _ _ Hs Hgt) as (m & Hm & Hsplit & Htail).
  destruct m as [|m0 m]; [now contradiction Hm |].
  rewrite append_cons in Htail. injection Htail as <- Htail.
  destruct m as [|m1 m].
  - unfold permalink in Hsplit. rewrite <- !append_assoc in Hsplit.
    symmetry in Hsplit.
    destruct (app_last _ _ _ _ Hsplit Hd0) as [d0 ->].
    rewrite every_append in Hd. apply andb_true_iff in Hd as [_ Hd]. discriminate.
  - rewrite append_cons in Htail. injection Htail as <- _.
    destruct pre as [|p0 pre]; [now contradiction Hpre |].
    assert (Hin : Js.includes (Js.drop 1 (permalink u digits)) "x." = true).
    { rewrite Hsplit, append_cons. cbn [Js.drop].
      apply includes_app_r. reflexivity. }
    assert (Hno : Js.includes (Js.drop 1 (permalink u digits)) "x." = false).
    { change (Js.drop 1 (permalink u digits))
        with (String "." ("com/" +:+ u +:+ "/status/" +:+ digits)).
      apply no_xdot. rewrite !every_append.
      rewrite (every_impl _ _ _ isWord_notDot Hu), (every_impl _ _ _ isDigit_notDot Hd).
      reflexivity. }
    rewrite Hin in Hno. discriminate.
Qed.

Lemma permalinkIds_finds (pre user digits rest : string) (skip : nat) :
  user <> EmptyString -> Js.every Js.isWord user = true ->
  digits <> EmptyString -> Js.every Js.isDigit digits = true ->
  endsDigits rest ->
  (skip <= String.length pre)%nat ->
  In digits (permalinkIds skip (pre +:+ permalink user digits +:+ rest)).
Proof.
  intros Hu0 Hu Hd0 Hd Hrest. revert skip.
  induction pre as [|c pre IH]; intros skip Hskip.
  - rewrite append_nil_l. simpl in Hskip. assert (skip = 0%nat) as -> by lia.
    pose proof (permalinkAt_here user digits rest Hu0 Hu Hd0 Hd Hrest) as Hat.
    rewrite permalink_head in *. cbn [permalinkIds]. rewrite Hat. now left.
  - rewrite append_cons. cbn [permalinkIds]. destruct skip as [|k].
    + rewrite <- append_cons.
      destruct (permalinkAt _) as [[d len]|] eqn:Hat.
      * right. apply IH.
        rewrite permalink_head in Hat.
        apply permalinkAt_before in Hat; [| discriminate].
        simpl in Hat. lia.
      * apply IH. lia.
    + apply IH. simpl in Hskip. lia.
Qed.

(** A permalink anywhere in the archive puts its digits among the ids. *)
Lemma loadExistingIds_permalink (this : Pipeline) (w : World)
    (pre user digits rest : string) :
  files w !! Run.archiveFile this = Some (pre +:+ permalink user digits +:+ rest) ->
  user <> EmptyString -> Js.every Js.isWord user = true ->
  digits <> EmptyString -> Js.every Js.isDigit digits = true ->
  endsDigits rest ->
  digits ∈ Run._loadExistingIds this w.
Proof.
  intros Hfile Hu0 Hu Hd0 Hd Hrest. unfold Run._loadExistingIds. rewrite Hfile.
  apply elem_of_list_to_set, list_elem_of_In.
  apply permalinkIds_finds; try assumption. lia.
Qed.

End PermalinkFacts.

(** ** The batch loop *)

Section LoopFacts.

Variable host : Host.
Variable this : Pipeline.

Lemma processLoop_app (a b : list Bookmark) (ids : gset string)
    (res : list ProcessingResult) (w : World) :
  Run.processLoop host this (a ++ b) ids res w =
    let '(res', ids', w') := Run.processLoop host this a ids res w in
    Run.processLoop host this b ids' res' w'.
Proof.
  revert ids res w; induction a as [|x a IH]; intros ids res w; [reflexivity |].
  cbn [app Run.processLoop].
  destruct (bool_decide (id x ∈ ids)); [apply IH |].
  destruct (Run._processBookmark host this x w) as [[r | e] w']; apply IH.
Qed.

Lemma processLoop_ids (bs : list Bookmark) (ids : gset string)
    (res : list ProcessingResult) (w : World) :
  ids ⊆ (Run.processLoop host this bs ids res w).1.2.
Proof.
  revert ids res w; induction bs as [|x bs IH]; intros ids res w; [done |].
  cbn [Run.processLoop].
  destruct (bool_decide (id x ∈ ids)); [apply IH |].
  destruct (Run._processBookmark host this x w) as [[r | e] w']; [| apply IH].
  etrans; [| apply IH]. set_solver.
Qed.

Lemma processLoop_known (b : Bookmark) (ids : gset string)
    (res : list ProcessingResult) (w : World) :
  id b ∈ ids -> Run.processLoop host this [b] ids res w = (res, ids, w).
Proof.
  intros H. cbn [Run.processLoop]. now rewrite bool_decide_eq_true_2.
Qed.

(** After a bookmark that is skipped or processed without an error, its id
    is in the set. *)
Lemma processLoop_remembers (b : Bookmark) (ids : gset string)
    (res : list ProcessingResult) (w : World) (r : ProcessingResult) :
  fst (Run._processBookmark host this b w) = Ok r ->
  id b ∈ (Run.processLoop host this [b] ids res w).1.2.
Proof.
  intros H. cbn [Run.processLoop].
  destruct (bool_decide (id b ∈ ids)) eqn:E.
  - now apply bool_decide_eq_true_1 in E.
  - destruct (Run._processBookmark host this b w) as [[r' | e] w']; [| discriminate].
    cbn. set_solver.
Qed.

Lemma skipsLast_known (batch : list Bookmark) (b : Bookmark) (w : World) :
  id b ∈ (Run.processLoop host this batch (Run._loadExistingIds this w) [] w).1.2 ->
  skipsLast host this batch b w.
Proof.
  intros H. unfold skipsLast, Run.process. rewrite processLoop_app.
  destruct (Run.processLoop host this batch _ [] w) as [[res ids] w'].
  cbn [fst snd] in H. rewrite (processLoop_known b ids res w' H).
  rewrite length_app. cbn [length]. now rewrite Nat.add_1_r.
Qed.

End LoopFacts.

(** C8: a bookmark whose id is among the ids read from the archive when the
    run starts, and so a bookmark whose id stands in the archive text as the
    digits of a permalink [x.com/<user>/status/<digits>], is skipped when its
    turn comes: [process] returns the results and the world it returns without
    that bookmark, so no prompt is sent and no file, the archive included, is
    written for it.  And a bookmark that comes after a bookmark of the same id
    that was processed without an error is skipped in the same way. *)
Theorem duplicates_are_skipped (host : Host) (this : Pipeline) (w : World)
    (batch mid : list Bookmark) (b first : Bookmark) (r : ProcessingResult)
    (pre user rest : string) :
  (id b ∈ Run._loadExistingIds this w -> skipsLast host this batch b w)
  /\ (files w !! Run.archiveFile this = Some (pre +:+ permalink user (id b) +:+ rest) ->
      user <> EmptyString -> Js.every Js.isWord user = true ->
      id b <> EmptyString -> Js.every Js.isDigit (id b) = true ->
      endsDigits rest ->
      skipsLast host this batch b w)
  /\ (id first = id b ->
      fst (Run._processBookmark host this first
             (Run.processLoop host this batch (Run._loadExistingIds this w) [] w).2)
      = Ok r ->
      skipsLast host this (batch ++ first :: mid) b w).
Proof.
  assert (Hknown : id b ∈ Run._loadExistingIds this w -> skipsLast host this batch b w).
  { intros H. apply skipsLast_known.
    eapply elem_of_weaken; [exact H |].
    apply (processLoop_ids host this batch). }
  split; [exact Hknown |]. split.
  - intros Hfile Hu0 Hu Hd0 Hd Hrest. apply Hknown.
    now apply (loadExistingIds_permalink this w pre user (id b) rest).
  - intros Hid Hok. apply skipsLast_known.
    change (first :: mid) with ([first] ++ mid).
    rewrite processLoop_app.
    destruct (Run.processLoop host this batch _ [] w) as [[res ids] w1].
    cbn [snd] in Hok. rewrite processLoop_app.
    pose proof (processLoop_remembers host this first ids res w1 r Hok) as Hin.
    destruct (Run.processLoop host this [first] ids res w1) as [[res1 ids1] w2].
    cbn [fst snd] in Hin. rewrite <- Hid.
    eapply elem_of_weaken; [exact Hin |].
    apply (processLoop_ids host this mid).
Qed.

(** C8, witness: bookmark 42 is in the archive and is skipped; and of two
    bookmarks of id 2 in one batch, the second is skipped once the first has
    been processed. *)
Lemma duplicates_are_skipped_witness :
  skipsLast Fixtures.quietHost Fixtures.DEFAULT_CONFIG [] Scenarios.plainThought
    Scenarios.archived
  /\ skipsLast Fixtures.quietHost Fixtures.DEFAULT_CONFIG
       ([] ++ Scenarios.withRepo :: [Scenarios.plainThought]) Scenarios.withRepo
       Fixtures.emptyWorld.
Proof.
  pose (first := resultOf Scenarios.withRepo
                   (FreeModePipeline._generateDefaultMetadata Scenarios.withRepo)
                   Fixtures.githubRule (Some "knowledge/tools/hello-fcc835eb.md")).
  split.
  - apply (proj1 (proj2 (duplicates_are_skipped Fixtures.quietHost Fixtures.DEFAULT_CONFIG
                           Scenarios.archived [] [] Scenarios.plainThought
                           Scenarios.plainThought first
                           (Archives.lines [ "# 2024-01-15"; ""; "## @alice - note";
                                             "> hi"; "" ] +:+ "- **Tweet:** https://")
                           "alice"
                           (Js.nl +:+ Archives.lines [ "- **What:** hi" ]))));
      try (by_evaluation); discriminate.
  - apply (proj2 (proj2 (duplicates_are_skipped Fixtures.quietHost Fixtures.DEFAULT_CONFIG
                           Fixtures.emptyWorld [] [Scenarios.plainThought]
                           Scenarios.withRepo Scenarios.withRepo first
                           EmptyString EmptyString EmptyString))).
    + reflexivity.
    + by_evaluation.
Defined.

(** C8, counterexample: the archive holds the address of bookmark 2 as
    [twitter.com/alice/status/2], which ends in [/status/<digits>].  No id is
    read from it and the bookmark is not skipped: it is processed again, a
    prompt is sent, its file is written and the archive gets another entry.
    The same happens for [x.com/i/web/status/2], where more than one path
    segment stands between the host and [/status/]. *)
Lemma twitter_permalink_is_processed_again :
  id Scenarios.withRepo = "2"
  /\ Js.includes
       (default EmptyString
          (files (OtherPermalinks.archivedAs OtherPermalinks.twitterUrl)
             !! Run.archiveFile Fixtures.DEFAULT_CONFIG))
       "twitter.com/alice/status/2" = true
  /\ Run._loadExistingIds Fixtures.DEFAULT_CONFIG
       (OtherPermalinks.archivedAs OtherPermalinks.twitterUrl) = ∅
  /\ ~ skipsLast Fixtures.quietHost Fixtures.DEFAULT_CONFIG [] Scenarios.withRepo
         (OtherPermalinks.archivedAs OtherPermalinks.twitterUrl)
  /\ processed (fst (OtherPermalinks.rerun OtherPermalinks.twitterUrl)) = 1%nat
  /\ sent (snd (OtherPermalinks.rerun OtherPermalinks.twitterUrl))
     = [FreeModePipeline._buildPrompt Scenarios.withRepo]
  /\ is_Some (files (snd (OtherPermalinks.rerun OtherPermalinks.twitterUrl))
                !! "knowledge/tools/hello-fcc835eb.md")
  /\ Js.includes
       (default EmptyString
          (files (snd (OtherPermalinks.rerun OtherPermalinks.twitterUrl))
             !! Run.archiveFile Fixtures.DEFAULT_CONFIG))
       "- **Filed:** [hello-fcc835eb.md]" = true
  /\ Run._loadExistingIds Fixtures.DEFAULT_CONFIG
       (OtherPermalinks.archivedAs OtherPermalinks.webUrl) = ∅
  /\ processed (fst (OtherPermalinks.rerun OtherPermalinks.webUrl)) = 1%nat.
Proof.
  repeat split; try (by_evaluation).
  - intros H. unfold skipsLast in H.
    apply (f_equal (fun out => processed (fst out))) in H.
    vm_compute in H. discriminate H.
  - vm_compute. eexists. reflexivity.
Qed.

(** A second run over a filed bookmark: the first run wrote its permalink
    into the archive, the second finds it there and skips the bookmark. *)
Example second_run_skips_filed_bookmark :
  let first := Run.process Fixtures.quietHost Fixtures.DEFAULT_CONFIG [Scenarios.withRepo]
                 Fixtures.emptyWorld in
  processed first.1 = 1%nat
  /\ Run.process Fixtures.quietHost Fixtures.DEFAULT_CONFIG [Scenarios.withRepo] first.2
     = ({| processed := 0; total := 1; results := [] |}, first.2).
Proof. split; by_evaluation. Qed.

(** * Further properties *)

(** ** More on strings *)

Section MoreStrings.

Lemma every_trimStart (p : ascii -> bool) (s : string) :
  Js.every p s = true -> Js.every p (Js.trimStart s) = true.
Proof.
  induction s as [|c s IH]; intros H; [reflexivity |].
  cbn [Js.trimStart]. destruct (Js.isWhiteSpace c); [| exact H].
  simpl in H. apply andb_true_iff in H as [_ H]. now apply IH.
Qed.

Lemma every_trimEnd (p : ascii -> bool) (s : string) :
  Js.every p s = true -> Js.every p (Js.trimEnd s) = true.
Proof.
  induction s as [|c s IH]; intros H; [reflexivity |].
  simpl in H. apply andb_true_iff in H as [Hc Hs]. specialize (IH Hs).
  cbn [Js.trimEnd]. destruct (Js.trimEnd s) as [|d t].
  - destruct (Js.isWhiteSpace c); [reflexivity |]. simpl. now rewrite Hc.
  - change (Js.every p (String c (String d t)) = true).
    cbn [Js.every] in *. now rewrite Hc.
Qed.

Lemma every_trim (p : ascii -> bool) (s : string) :
  Js.every p s = true -> Js.every p (Js.trim s) = true.
Proof. intros H. unfold Js.trim. now apply every_trimEnd, every_trimStart. Qed.

Lemma trimStart_all_space (s : string) :
  Js.every Js.isWhiteSpace s = true -> Js.trimStart s = EmptyString.
Proof.
  induction s as [|c s IH]; intros H; [reflexivity |].
  simpl in H. apply andb_true_iff in H as [Hc Hs].
  cbn [Js.trimStart]. rewrite Hc. now apply IH.
Qed.

Lemma trimEnd_all_space (s : string) :
  Js.every Js.isWhiteSpace s = true -> Js.trimEnd s = EmptyString.
Proof.
  induction s as [|c s IH]; intros H; [reflexivity |].
  simpl in H. apply andb_true_iff in H as [Hc Hs].
  cbn [Js.trimEnd]. now rewrite (IH Hs), Hc.
Qed.

Lemma trimStart_before_visible (a r : string) (c : ascii) :
  Js.isWhiteSpace c = false ->
  Js.trimStart (a +:+ String c r) = Js.trimStart a +:+ String c r.
Proof.
  intros Hc. induction a as [|x a IH].
  - rewrite append_nil_l. cbn [Js.trimStart]. now rewrite Hc.
  - rewrite append_cons. cbn [Js.trimStart].
    destruct (Js.isWhiteSpace x); [exact IH | now rewrite append_cons].
Qed.

Lemma trimEnd_after_visible (w v : string) (c : ascii) :
  Js.isWhiteSpace c = false ->
  Js.trimEnd (w +:+ String c v) = w +:+ String c (Js.trimEnd v).
Proof.
  intros Hc. induction w as [|x w IH].
  - rewrite !append_nil_l. cbn [Js.trimEnd].
    destruct (Js.trimEnd v); [now rewrite Hc | reflexivity].
  - rewrite !append_cons. cbn [Js.trimEnd]. rewrite IH.
    destruct w; reflexivity.
Qed.

Lemma trimStart_head (s r : string) (c : ascii) :
  Js.trimStart s = String c r -> Js.isWhiteSpace c = false.
Proof.
  induction s as [|x s IH]; [discriminate |].
  cbn [Js.trimStart]. destruct (Js.isWhiteSpace x) eqn:E; [exact IH |].
  intros H. injection H as <- _. exact E.
Qed.

Lemma trimEnd_idempotent (s : string) : Js.trimEnd (Js.trimEnd s) = Js.trimEnd s.
Proof.
  induction s as [|c s IH]; [reflexivity |].
  cbn [Js.trimEnd]. destruct (Js.trimEnd s) as [|d t] eqn:E.
  - destruct (Js.isWhiteSpace c) eqn:Ec; [reflexivity |].
    cbn [Js.trimEnd]. now rewrite Ec.
  - cbn [Js.trimEnd] in *. now rewrite IH.
Qed.

Lemma trim_idempotent (s : string) : Js.trim (Js.trim s) = Js.trim s.
Proof.
  unfold Js.trim. destruct (Js.trimStart s) as [|c r] eqn:E; [reflexivity |].
  pose proof (trimStart_head _ _ _ E) as Hc.
  destruct (trimEnd_visible c r Hc) as [u Hu]. rewrite Hu.
  cbn [Js.trimStart]. rewrite Hc, <- Hu. apply trimEnd_idempotent.
Qed.

Lemma every_isNot_startsWith (h : ascii) (p s : string) (c : ascii) :
  isNot h c = true -> Js.startsWith (String c s) (String h p) = false.
Proof.
  unfold isNot. intros H. apply negb_true_iff in H.
  cbn [Js.startsWith]. now rewrite H.
Qed.

(** The first occurrence of a text comes right after a prefix that lacks
    the character it starts with. *)
Lemma indexOf_first_char (h : ascii) (p a rest : string) :
  Js.every (isNot h) a = true ->
  Js.startsWith rest (String h p) = true ->
  Js.indexOf (a +:+ rest) (String h p) = Some (String.length a).
Proof.
  intros Ha Hrest. induction a as [|x a IH].
  - rewrite append_nil_l, indexOf_unfold. now rewrite Hrest.
  - simpl in Ha. apply andb_true_iff in Ha as [Hx Ha].
    rewrite append_cons, indexOf_unfold, (every_isNot_startsWith h p _ x Hx).
    now rewrite (IH Ha).
Qed.

Lemma indexOf_absent_char (h : ascii) (p s : string) :
  Js.every (isNot h) s = true -> Js.indexOf s (String h p) = None.
Proof.
  induction s as [|x s IH]; intros H; [reflexivity |].
  simpl in H. apply andb_true_iff in H as [Hx Hs].
  rewrite indexOf_unfold, (every_isNot_startsWith h p _ x Hx).
  now rewrite (IH Hs).
Qed.

Lemma lastIndexOf_absent_char (h : ascii) (s : string) :
  Js.every (isNot h) s = true -> Js.lastIndexOf s (String h EmptyString) = None.
Proof.
  induction s as [|x s IH]; intros H; [reflexivity |].
  simpl in H. apply andb_true_iff in H as [Hx Hs].
  cbn [Js.lastIndexOf]. rewrite (IH Hs).
  now rewrite (every_isNot_startsWith h EmptyString _ x Hx).
Qed.

Lemma lastIndexOf_last_char (h : ascii) (l b : string) :
  Js.every (isNot h) b = true ->
  Js.lastIndexOf (l +:+ String h b) (String h EmptyString) = Some (String.length l).
Proof.
  intros Hb. induction l as [|x l IH].
  - rewrite append_nil_l. cbn [Js.lastIndexOf].
    rewrite (lastIndexOf_absent_char h b Hb).
    cbn [Js.startsWith]. now rewrite Ascii.eqb_refl.
  - rewrite append_cons. cbn [Js.lastIndexOf]. now rewrite IH.
Qed.

Lemma length_concat (pieces : list string) :
  String.length (Js.concat pieces)
  = fold_right (fun p n => (String.length p + n)%nat) 0%nat pieces.
Proof.
  induction pieces as [|p pieces IH]; [reflexivity |].
  unfold Js.concat in *. cbn [fold_right]. now rewrite length_append, IH.
Qed.

End MoreStrings.

(** ** The answer of the model: what [_parseOutput] strips and what it returns *)

Section MoreParsing.
Import OpenRouterClient Validation.

Lemma trim_between (lead m trail : string) (c d : ascii) :
  Js.every Js.isWhiteSpace lead = true ->
  Js.every Js.isWhiteSpace trail = true ->
  Js.isWhiteSpace c = false -> Js.isWhiteSpace d = false ->
  Js.trim (lead +:+ String c (m +:+ String d trail))
  = String c (m +:+ String d EmptyString).
Proof.
  intros Hl Ht Hc Hd. unfold Js.trim.
  rewrite (trimStart_before_visible _ _ _ Hc), (trimStart_all_space _ Hl), append_nil_l.
  change (String c (m +:+ String d trail)) with (String c m +:+ String d trail).
  rewrite (trimEnd_after_visible _ _ _ Hd), (trimEnd_all_space _ Ht).
  reflexivity.
Qed.

Lemma braces_object (a inner b : string) :
  Js.every (isNot "{") a = true ->
  Js.every (isNot "}") b = true ->
  braces (a +:+ String "{" (inner +:+ String "}" b)) = objectText inner.
Proof.
  intros Ha Hb. unfold braces.
  rewrite (indexOf_first_char "{" EmptyString a _ Ha) by reflexivity.
  assert (E : a +:+ String "{" (inner +:+ String "}" b)
              = (a +:+ String "{" inner) +:+ String "}" b).
  { now rewrite append_assoc, append_cons. }
  rewrite E, (lastIndexOf_last_char "}" _ b Hb), <- E.
  rewrite length_append. cbn [String.length].
  replace (String.length a <=? String.length a + S (String.length inner))%nat
    with true by (symmetry; apply Nat.leb_le; lia).
  unfold Js.substring.
  replace (String.length a + S (String.length inner) + 1 - String.length a)%nat
    with (String.length (objectText inner))
    by (unfold objectText; cbn [String.length]; rewrite length_append;
        cbn [String.length]; lia).
  rewrite drop_app_length.
  replace (String "{" (inner +:+ String "}" b)) with (objectText inner +:+ b).
  - apply take_app_length.
  - unfold objectText. now rewrite append_cons, append_assoc, append_cons, append_nil_l.
Qed.

Lemma unfence_without_fence (s : string) :
  Js.every (isNot "`") s = true -> unfence s = s.
Proof.
  intros H. unfold unfence, fence.
  now rewrite (indexOf_absent_char "`" _ s H).
Qed.

Lemma whiteSpace_isNot (h : ascii) (s : string) :
  Js.isWhiteSpace h = false ->
  Js.every Js.isWhiteSpace s = true -> Js.every (isNot h) s = true.
Proof.
  intros Hh. apply every_impl. intros c Hc. unfold isNot.
  destruct (Ascii.eqb_spec h c) as [->|]; [congruence | reflexivity].
Qed.

Lemma every_objectText (p : ascii -> bool) (inner : string) :
  p "{"%char = true -> p "}"%char = true ->
  Js.every p inner = true -> Js.every p (objectText inner) = true.
Proof.
  intros H1 H2 H. unfold objectText. cbn [Js.every].
  rewrite H1, every_append, H. cbn [Js.every]. now rewrite H2.
Qed.

Lemma cleaned_prose (before inner after : string) :
  Js.every (isNot "{") before = true ->
  Js.every (isNot "}") after = true ->
  Js.every (isNot "`") (before +:+ inner +:+ after) = true ->
  cleaned (before +:+ objectText inner +:+ after) = objectText inner.
Proof.
  intros Hb Ha Hq. unfold cleaned.
  rewrite !every_append in Hq.
  apply andb_true_iff in Hq as [Hqb Hq]. apply andb_true_iff in Hq as [Hqi Hqa].
  assert (E : Js.trim (before +:+ objectText inner +:+ after)
              = Js.trimStart before +:+ String "{" (inner +:+ String "}" (Js.trimEnd after))).
  { unfold Js.trim, objectText.
    rewrite append_cons, append_assoc, append_cons, append_nil_l.
    rewrite trimStart_before_visible by reflexivity.
    replace (Js.trimStart before +:+ String "{" (inner +:+ String "}" after))
      with ((Js.trimStart before +:+ String "{" inner) +:+ String "}" after)
      by now rewrite append_assoc, append_cons.
    rewrite trimEnd_after_visible by reflexivity.
    now rewrite append_assoc, append_cons. }
  rewrite E, unfence_without_fence.
  - apply braces_object; [now apply every_trimStart | now apply every_trimEnd].
  - rewrite every_append. cbn [Js.every]. rewrite every_append. cbn [Js.every].
    rewrite (every_trimStart _ _ Hqb), Hqi, (every_trimEnd _ _ Hqa). reflexivity.
Qed.

(** X1: prose around the object is dropped.  Text before the first opening
    brace and after the last closing brace never reaches [JSON.parse], as
    long as the answer holds no backtick. *)
Theorem parseOutput_drops_prose (JSON_parse : string -> option json)
    (before inner after : string) :
  Js.every (isNot "{") before = true ->
  Js.every (isNot "}") after = true ->
  Js.every (isNot "`") (before +:+ inner +:+ after) = true ->
  cleaned (before +:+ objectText inner +:+ after) = objectText inner
  /\ _parseOutput JSON_parse (before +:+ objectText inner +:+ after)
     = _parseOutput JSON_parse (objectText inner).
Proof.
  intros Hb Ha Hq.
  pose proof (cleaned_prose before inner after Hb Ha Hq) as E.
  assert (E0 : cleaned (objectText inner) = objectText inner).
  { rewrite !every_append in Hq.
    apply andb_true_iff in Hq as [_ Hq]. apply andb_true_iff in Hq as [Hqi _].
    pose proof (cleaned_prose EmptyString inner EmptyString eq_refl eq_refl) as H.
    rewrite append_nil_l, !append_nil_r in H. now apply H. }
  split; [exact E |].
  unfold _parseOutput. fold (cleaned (before +:+ objectText inner +:+ after)).
  fold (cleaned (objectText inner)). now rewrite E, E0.
Qed.

Lemma parseOutput_drops_prose_witness :
  cleaned ("Here you go: " +:+ objectText "x" +:+ " Hope it helps.") = objectText "x".
Proof.
  apply (parseOutput_drops_prose (fun _ => None) "Here you go: " "x" " Hope it helps.");
    reflexivity.
Defined.

(** X2: a Markdown code fence around the object is removed.  White space
    outside the fence, the [json] tag after the opening fence and white space
    inside the fence are dropped with it. *)
Theorem parseOutput_unwraps_fence (JSON_parse : string -> option json)
    (tagged : bool) (lead ws1 inner ws2 trail : string) :
  Js.every Js.isWhiteSpace lead = true ->
  Js.every Js.isWhiteSpace ws1 = true ->
  Js.every Js.isWhiteSpace ws2 = true ->
  Js.every Js.isWhiteSpace trail = true ->
  Js.every (isNot "`") inner = true ->
  let raw := lead +:+ fence +:+ (if tagged then "json" else EmptyString)
             +:+ ws1 +:+ objectText inner +:+ ws2 +:+ fence +:+ trail in
  cleaned raw = objectText inner
  /\ _parseOutput JSON_parse raw = _parseOutput JSON_parse (objectText inner).
Proof.
  intros Hl H1 H2 Ht Hq raw.
  set (body := ws1 +:+ objectText inner +:+ ws2).
  set (tag := if tagged then "json" else EmptyString) in *.
  assert (Hbody : Js.every (isNot "`") body = true).
  { unfold body. rewrite !every_append.
    rewrite (whiteSpace_isNot "`" ws1 eq_refl H1), (whiteSpace_isNot "`" ws2 eq_refl H2).
    now rewrite (every_objectText (isNot "`") inner eq_refl eq_refl Hq). }
  assert (Etrim : Js.trim raw = fence +:+ tag +:+ body +:+ fence).
  { unfold raw, fence.
    replace (lead +:+ "```" +:+ tag +:+ ws1 +:+ objectText inner +:+ ws2 +:+ "```" +:+ trail)
      with (lead +:+ String "`" (("``" +:+ tag +:+ body +:+ "``") +:+ String "`" trail)).
    - rewrite trim_between by (assumption || reflexivity).
      unfold body. rewrite !append_assoc. reflexivity.
    - unfold body. rewrite !append_assoc. reflexivity. }
  assert (Eun : unfence (fence +:+ tag +:+ body +:+ fence) = objectText inner).
  { unfold unfence.
    replace (Js.indexOf (fence +:+ tag +:+ body +:+ fence) fence) with (Some 0%nat)
      by (rewrite indexOf_unfold; reflexivity).
    change (Js.drop (0 + 3) (fence +:+ tag +:+ body +:+ fence))
      with (tag +:+ body +:+ fence).
    assert (E : (if Js.startsWith (tag +:+ body +:+ fence) "json"
                 then Js.drop 4 (tag +:+ body +:+ fence)
                 else tag +:+ body +:+ fence) = body +:+ fence).
    { unfold tag. destruct tagged; [reflexivity |].
      rewrite append_nil_l.
      replace (Js.startsWith (body +:+ fence) "json") with false; [reflexivity |].
      unfold body. destruct ws1 as [|c ws1]; [reflexivity |].
      simpl in H1. apply andb_true_iff in H1 as [Hc _].
      rewrite !append_cons. cbn [Js.startsWith].
      destruct (Ascii.eqb_spec "j" c) as [<-|]; [discriminate Hc | reflexivity]. }
    rewrite E.
    rewrite (indexOf_first_char "`" "``" body fence Hbody eq_refl
             : Js.indexOf (body +:+ fence) fence = Some (String.length body)).
    rewrite take_app_length. unfold body, objectText.
    rewrite append_cons, append_assoc, append_cons, append_nil_l.
    now apply trim_between. }
  assert (E : cleaned raw = objectText inner).
  { unfold cleaned. rewrite Etrim, Eun.
    pose proof (braces_object EmptyString inner EmptyString eq_refl eq_refl) as H.
    now rewrite append_nil_l in H. }
  assert (E0 : cleaned (objectText inner) = objectText inner).
  { pose proof (cleaned_prose EmptyString inner EmptyString eq_refl eq_refl) as H.
    rewrite append_nil_l, !append_nil_r in H. now apply H. }
  split; [exact E |].
  unfold _parseOutput. fold (cleaned raw). fold (cleaned (objectText inner)).
  now rewrite E, E0.
Qed.

Lemma parseOutput_unwraps_fence_witness :
  cleaned (" " +:+ fence +:+ "json" +:+ Js.nl +:+ objectText "x" +:+ Js.nl +:+ fence
           +:+ Js.nl)
  = objectText "x".
Proof.
  apply (parseOutput_unwraps_fence (fun _ => None) true " " Js.nl "x" Js.nl Js.nl);
    reflexivity.
Defined.

Lemma trimTags_trimmed (items : list json) (ts : list string) :
  trimTags items = Ok ts -> Forall (fun t => Js.trim t = t) ts.
Proof.
  revert ts. induction items as [|t items IH]; intros ts H.
  - injection H as <-. constructor.
  - cbn [trimTags] in H. destruct t; try discriminate H.
    cbn [trimTag bind] in H.
    destruct (trimTags items) as [ss|e]; [| discriminate H].
    cbn [bind] in H. injection H as <-.
    constructor; [apply trim_idempotent | now apply IH].
Qed.

Lemma validate_Ok_inv (parsed : json) (r : ReasoningResult) :
  validate parsed = Ok r ->
  exists t s c ts,
    r = {| title := Js.trim t; summary := Js.trim s;
           rtags := List.filter Js.truthy ts; category := Js.trim c |}
    /\ Forall (fun x => Js.trim x = x) ts.
Proof.
  unfold validate. intros H.
  destruct (required parsed "title") as [t|e]; [| discriminate H]. cbn [bind] in H.
  destruct (required parsed "summary") as [s|e]; [| discriminate H]. cbn [bind] in H.
  destruct (required parsed "category") as [c|e]; [| discriminate H]. cbn [bind] in H.
  destruct (prop parsed "tags") as [tagsv|e]; [| discriminate H]. cbn [bind] in H.
  destruct tagsv as [[| | | |items|]|]; try discriminate H.
  destruct (trimTags items) as [ts|e] eqn:Ets; [| discriminate H]. cbn [bind] in H.
  injection H as <-. exists t, s, c, ts. split; [reflexivity |].
  now apply trimTags_trimmed with items.
Qed.

(** X3: whatever [_parseOutput] returns is normalised: title, summary and
    category carry no white space at either end, and no tag is empty or has
    white space at either end. *)
Theorem parseOutput_result_is_normalised (JSON_parse : string -> option json)
    (rawOutput : string) (r : ReasoningResult) :
  _parseOutput JSON_parse rawOutput = Ok r ->
  Js.trim (title r) = title r
  /\ Js.trim (summary r) = summary r
  /\ Js.trim (category r) = category r
  /\ Forall (fun t => t <> EmptyString /\ Js.trim t = t) (rtags r).
Proof.
  unfold _parseOutput. intros H.
  destruct (JSON_parse _) as [parsed|]; [| discriminate H].
  destruct (validate_Ok_inv parsed r H) as (t & s & c & ts & -> & Hts).
  cbn [title summary category rtags].
  rewrite !trim_idempotent. repeat split; try reflexivity.
  clear H. induction Hts as [|x ts Hx Hts IH]; [constructor |].
  cbn [List.filter]. destruct x as [|a x]; [exact IH |].
  cbn [Js.truthy]. constructor; [| exact IH]. split; [discriminate | exact Hx].
Qed.

Lemma parseOutput_result_is_normalised_witness :
  Forall (fun t => t <> EmptyString /\ Js.trim t = t)
    (rtags {| title := "T"; summary := "S"; rtags := ["a"]; category := "C" |}).
Proof.
  apply (parseOutput_result_is_normalised
           (fun _ => Some (JObject [ ("title", JString " T "); ("summary", JString "S ");
                                     ("tags", JArray [JString " a"; JString "  "]);
                                     ("category", JString "C") ]))
           EmptyString
           {| title := "T"; summary := "S"; rtags := ["a"]; category := "C" |}).
  reflexivity.
Defined.

End MoreParsing.

(** ** Slugs, default metadata and the prompt *)

Section MoreMetadata.
Import FreeModePipeline.

Lemma every_filter (p : ascii -> bool) (s : string) :
  Js.every p (Js.filter p s) = true.
Proof.
  induction s as [|c s IH]; [reflexivity |].
  cbn [Js.filter]. destruct (p c) eqn:E; [| exact IH].
  cbn [Js.every]. now rewrite E.
Qed.

Lemma slugChar_slugSafe (c : ascii) :
  slugChar c = true -> Js.isWhiteSpace c = false -> slugSafe c = true.
Proof.
  unfold slugChar, slugSafe. intros H Hw. rewrite Hw, orb_false_r in H. exact H.
Qed.

Lemma every_replaceSpaceRuns (s : string) :
  Js.every slugChar s = true ->
  Js.every slugSafe (Js.replaceSpaceRuns "-" s) = true.
Proof.
  induction s as [|c s IH]; intros H; [reflexivity |].
  cbn [Js.every] in H. apply andb_true_iff in H as [Hc Hs]. specialize (IH Hs).
  cbn [Js.replaceSpaceRuns]. destruct (Js.isWhiteSpace c) eqn:Ew.
  - destruct s as [|d s]; [reflexivity |].
    destruct (Js.isWhiteSpace d); [exact IH |].
    rewrite every_append, IH. reflexivity.
  - cbn [Js.every]. now rewrite (slugChar_slugSafe c Hc Ew), IH.
Qed.

Lemma isHexDigit_slugSafe (c : ascii) : Md5.isHexDigit c = true -> slugSafe c = true.
Proof.
  unfold Md5.isHexDigit, slugSafe, Js.isLower, Js.isDigit. cbv zeta. intros H.
  apply orb_true_iff in H as [H|H]; apply andb_true_iff in H as [H1 H2].
  - rewrite H1, H2. now rewrite orb_true_r.
  - rewrite H1. replace (Js.code c <=? 122) with true; [reflexivity |].
    symmetry. apply Z.leb_le. apply Z.leb_le in H2. lia.
Qed.

Lemma generateSlug_chars (title author : string) :
  Js.every slugSafe (_generateSlug title author) = true.
Proof.
  unfold _generateSlug. rewrite !every_append. apply andb_true_iff. split.
  - unfold slugPrefix, Js.slice0. apply every_take, every_replaceSpaceRuns, every_trim.
    apply every_filter.
  - apply andb_true_iff. split; [reflexivity |].
    apply every_impl with Md5.isHexDigit; [exact isHexDigit_slugSafe |].
    apply slugHash_hex.
Qed.

Lemma generateSlug_length (title author : string) :
  (9 <= String.length (_generateSlug title author) <= 69)%nat.
Proof.
  unfold _generateSlug. rewrite !length_append, slugHash_length. cbn [String.length].
  pose proof (take_length 60 (Js.replaceSpaceRuns "-"
                (Js.trim (Js.filter slugChar (Js.toLowerCase title))))) as H.
  unfold slugPrefix, Js.slice0. lia.
Qed.

(** X4: a slug is safe as a file name.  It is made of lower-case letters,
    digits and hyphens only, and it is between 9 and 69 characters long,
    whatever the title and the author are. *)
Theorem generateSlug_is_safe (title author : string) :
  Js.every slugSafe (_generateSlug title author) = true
  /\ (9 <= String.length (_generateSlug title author) <= 69)%nat.
Proof. split; [apply generateSlug_chars | apply generateSlug_length]. Qed.

Lemma categoryMap_get_known (m : matched) (bookmark : Bookmark) (r : ReasoningResult) :
  categoryMap_get (Js.trim (Js.toLowerCase (category r))) = Some m ->
  isTweet (Some m) = false ->
  resolveKey bookmark (Some r) = Some m.
Proof.
  intros Hk Ht. unfold resolveKey.
  cbv beta iota zeta delta [from_option]. rewrite Hk.
  assert (Hu : unresolved (Some m) = false) by (unfold unresolved; exact Ht).
  cbv beta iota. rewrite Hu. cbv beta iota. rewrite Hu. reflexivity.
Qed.

(** X5: a label the synonym table knows, other than the ones that stand for
    a plain tweet, decides the category alone.  The registry entry of its key
    is returned, or the fallback rule when the registry has no such entry;
    the text, the title, the summary and the links are not looked at. *)
Theorem known_label_decides (categories : list (string * CategoryRule))
    (bookmark : Bookmark) (r : ReasoningResult) (m : matched) :
  categoryMap_get (Js.trim (Js.toLowerCase (category r))) = Some m ->
  isTweet (Some m) = false ->
  _matchCategory categories bookmark (Some r)
  = Some (default fallbackRule (categories_get categories (propertyName (Some m)))).
Proof.
  intros Hk Ht. unfold _matchCategory.
  rewrite (categoryMap_get_known m bookmark r Hk Ht), Ht.
  now destruct (categories_get categories (propertyName (Some m))).
Qed.

Lemma known_label_decides_witness :
  _matchCategory Fixtures.DEFAULT_CATEGORIES
    (Fixtures.bookmarkOf "1" "watch this video" ["https://youtube.com/watch?v=1"])
    (Some (Fixtures.reasoningOf " Tool " "T" "S"))
  = Some Fixtures.githubRule.
Proof.
  apply (known_label_decides Fixtures.DEFAULT_CATEGORIES
           (Fixtures.bookmarkOf "1" "watch this video" ["https://youtube.com/watch?v=1"])
           (Fixtures.reasoningOf " Tool " "T" "S") (Canonical "github"));
    reflexivity.
Defined.

Lemma defaultCategory_cases (bookmark : Bookmark) :
  In (category (_generateDefaultMetadata bookmark)) defaultLabels.
Proof.
  unfold _generateDefaultMetadata.
  destruct (defaultTitleAndCategory bookmark) as [t c] eqn:E.
  cbn [category]. unfold defaultTitleAndCategory in E. cbv zeta in E.
  unfold defaultLabels.
  destruct (head (links bookmark));
    repeat match type of E with
           | (if ?b then _ else _) = _ => destruct b
           end;
    injection E as _ <-; simpl; tauto.
Qed.

(** X6: the default metadata always carries one of the six labels of the
    system prompt, and the synonym table knows each of them: the label lookup
    of the resolver never fails on default metadata. *)
Theorem defaults_carry_a_known_label (bookmark : Bookmark) :
  let label := category (_generateDefaultMetadata bookmark) in
  In label defaultLabels
  /\ exists k, categoryMap_get (Js.trim (Js.toLowerCase label)) = Some (Canonical k).
Proof.
  cbv zeta. pose proof (defaultCategory_cases bookmark) as H.
  split; [exact H |].
  unfold defaultLabels in H. cbn [In] in H.
  destruct H as [<-|[<-|[<-|[<-|[<-|[<-|[]]]]]]]; eexists; by_evaluation.
Qed.

Lemma defaultCategory_host (bookmark : Bookmark) (l : Link) (rest : list Link)
    (k : string) :
  links bookmark = l :: rest ->
  hostKey (expanded l) = Some k ->
  categoryMap_get (Js.trim (Js.toLowerCase (category (_generateDefaultMetadata bookmark))))
  = Some (Canonical k)
  /\ String.eqb k "tweet" = false.
Proof.
  intros Hl Hk. unfold _generateDefaultMetadata.
  destruct (defaultTitleAndCategory bookmark) as [t c] eqn:E.
  cbn [category]. unfold defaultTitleAndCategory in E. cbv zeta in E.
  rewrite Hl in E. cbn [head] in E. unfold hostKey in Hk.
  repeat match type of Hk with
         | (if ?b then _ else _) = _ => destruct b
         end;
    try discriminate Hk;
    injection E as _ <-; injection Hk as <-; split; by_evaluation.
Qed.

(** X7: without an answer of the model, the host of the first link decides.
    When the default metadata is resolved and the first link is on a known
    code, article, video or podcast host, the registry entry of that kind is
    returned (or the fallback rule when the registry lacks it), whatever the
    text says and whatever the [match] patterns of the registry are. *)
Theorem defaults_follow_first_link_host (categories : list (string * CategoryRule))
    (bookmark : Bookmark) (l : Link) (rest : list Link) (k : string) :
  links bookmark = l :: rest ->
  hostKey (expanded l) = Some k ->
  _matchCategory categories bookmark (Some (_generateDefaultMetadata bookmark))
  = Some (default fallbackRule (categories_get categories k)).
Proof.
  intros Hl Hk.
  destruct (defaultCategory_host bookmark l rest k Hl Hk) as [Hget Hne].
  unfold _matchCategory.
  rewrite (categoryMap_get_known (Canonical k) bookmark _ Hget Hne).
  cbn [isTweet propertyName]. rewrite Hne.
  now destruct (categories_get categories k).
Qed.

Lemma defaults_follow_first_link_host_witness :
  _matchCategory Fixtures.DEFAULT_CATEGORIES
    (Fixtures.bookmarkOf "1" "a podcast episode" ["https://vimeo.com/1"])
    (Some (_generateDefaultMetadata
             (Fixtures.bookmarkOf "1" "a podcast episode" ["https://vimeo.com/1"])))
  = Some Fixtures.youtubeRule.
Proof.
  apply (defaults_follow_first_link_host Fixtures.DEFAULT_CATEGORIES
           (Fixtures.bookmarkOf "1" "a podcast episode" ["https://vimeo.com/1"])
           {| expanded := "https://vimeo.com/1"; content := None |} [] "youtube");
    reflexivity.
Defined.

Lemma buildPrompt_length (bookmark : Bookmark) :
  (349 + String.length (author bookmark) + String.length (text bookmark)
   <= String.length (_buildPrompt bookmark))%nat.
Proof.
  unfold _buildPrompt. cbv zeta. rewrite length_concat. cbn [fold_right].
  generalize (String.length (author bookmark)) (String.length (text bookmark)).
  intros a t. simpl String.length. lia.
Qed.

(** X8: a long tweet is never sent to the model.  When the author and the
    text together are longer than 2651 characters the prompt exceeds 3000
    characters; the default metadata is used and no request is made. *)
Theorem long_text_is_never_sent (this : Pipeline) (bookmark : Bookmark) (w : World) :
  (2651 < String.length (author bookmark) + String.length (text bookmark))%nat ->
  Run._getReasoning this bookmark w = (Ok (_generateDefaultMetadata bookmark), w).
Proof.
  intros H. apply getReasoning_long_prompt.
  pose proof (buildPrompt_length bookmark). lia.
Qed.

Lemma long_text_is_never_sent_witness :
  Run._getReasoning Fixtures.DEFAULT_CONFIG Fixtures.longBookmark Fixtures.emptyWorld
  = (Ok (_generateDefaultMetadata Fixtures.longBookmark), Fixtures.emptyWorld).
Proof.
  apply (long_text_is_never_sent Fixtures.DEFAULT_CONFIG Fixtures.longBookmark
           Fixtures.emptyWorld).
  vm_compute. lia.
Defined.

End MoreMetadata.

(** ** The archive: where an entry lands and which bookmarks it remembers *)

Section MoreArchive.
Import FreeModePipeline.

Lemma indexOf_spec (s p : string) (j : nat) :
  Js.indexOf s p = Some j ->
  s = Js.take j s +:+ p +:+ Js.drop (j + String.length p) s.
Proof.
  revert j. induction s as [|c s IH]; intros j H; rewrite indexOf_unfold in H.
  - destruct (Js.startsWith EmptyString p) eqn:E; [| discriminate H].
    injection H as <-. rewrite append_nil_l. now apply startsWith_spec.
  - destruct (Js.startsWith (String c s) p) eqn:E.
    + injection H as <-. rewrite append_nil_l. now apply startsWith_spec.
    + destruct (Js.indexOf s p) as [j'|]; [| discriminate H].
      injection H as <-. cbn [Js.take Js.drop Nat.add].
      rewrite append_cons. f_equal. now apply IH.
Qed.

Lemma indexOf_le (s p : string) (j : nat) :
  Js.indexOf s p = Some j -> (j <= String.length s)%nat.
Proof.
  revert j. induction s as [|c s IH]; intros j H; rewrite indexOf_unfold in H.
  - destruct (Js.startsWith EmptyString p); [| discriminate H].
    injection H as <-. cbn. lia.
  - destruct (Js.startsWith (String c s) p).
    + injection H as <-. lia.
    + destruct (Js.indexOf s p) as [j'|]; [| discriminate H].
      injection H as <-. specialize (IH j' eq_refl). cbn [String.length]. lia.
Qed.

Lemma take_succ_at (s : string) (j : nat) (c : ascii) :
  Js.indexOf s (String c EmptyString) = Some j ->
  Js.take (j + 1) s = Js.take j s +:+ String c EmptyString.
Proof.
  intros H. pose proof (indexOf_spec _ _ _ H) as E.
  pose proof (take_length_le j s (indexOf_le _ _ _ H)) as Hj.
  rewrite E at 1. rewrite <- Hj at 1.
  rewrite take_app_plus. now rewrite append_cons, append_nil_l.
Qed.

Lemma take_drop_succ (s : string) (i j : nat) (c : ascii) :
  Js.indexOf (Js.drop i s) (String c EmptyString) = Some j ->
  exists a, Js.take (i + j + 1) s = a +:+ String c EmptyString.
Proof.
  revert s. induction i as [|i IH]; intros s H.
  - cbn [Js.drop Nat.add] in *. eexists. now apply take_succ_at.
  - destruct s as [|x s].
    + cbn [Js.drop] in H. rewrite indexOf_unfold in H. discriminate H.
    + cbn [Js.drop] in H. destruct (IH s H) as [a Ha].
      exists (String x a). cbn [Nat.add Js.take]. now rewrite Ha, append_cons.
Qed.

(** X9: inserting an entry never loses text and never splits a line.  The
    old document is cut in two at the start of a line (or at its very
    start) and the entry, with one line feed, goes in between; when the date
    heading is absent the new section goes before the whole document. *)
Theorem insertEntry_only_adds (content date entry : string) :
  (Js.indexOf content ("# " +:+ date) = None
   /\ insertEntry content date entry
      = ("# " +:+ date) +:+ Js.nl +:+ Js.nl +:+ entry +:+ Js.nl +:+ Js.nl +:+ content)
  \/ (exists before after,
        content = before +:+ after
        /\ emptyOrEndsWith Js.nl before
        /\ insertEntry content date entry = before +:+ entry +:+ Js.nl +:+ after).
Proof.
  unfold insertEntry. cbv zeta.
  destruct (Js.indexOf content ("# " +:+ date)) as [i|] eqn:Ei.
  - right. unfold Js.indexOfFrom.
    destruct (Js.indexOf (Js.drop i content) Js.nl) as [j|] eqn:Ej; cbn [fmap option_fmap option_map].
    + exists (Js.take (i + j + 1) content), (Js.drop (i + j + 1) content).
      split; [now rewrite take_drop |]. split.
      * right. unfold Js.nl in *. now apply take_drop_succ.
      * unfold Js.concat. cbn [fold_right]. now rewrite append_nil_r.
    + exists EmptyString, content. split; [reflexivity |]. split; [now left |].
      unfold Js.concat. cbn [fold_right Js.take Js.drop]. now rewrite append_nil_r.
  - left. split; [reflexivity |].
    unfold Js.concat. cbn [fold_right]. now rewrite append_nil_r.
Qed.

Lemma insertEntry_contains (content date entry : string) :
  exists a b, insertEntry content date entry = a +:+ entry +:+ b.
Proof.
  unfold insertEntry. cbv zeta. unfold Js.concat.
  destruct (Js.indexOf content ("# " +:+ date)); cbn [fold_right].
  - eexists _, _. reflexivity.
  - exists (("# " +:+ date) +:+ Js.nl +:+ Js.nl), (Js.nl +:+ Js.nl +:+ content +:+ EmptyString).
    now rewrite !append_assoc.
Qed.

Lemma noneBefore_zero (s p : string) : noneBefore 0 s p.
Proof. intros i Hi. lia. Qed.

(** X10: within one day the newest entry comes first.  Two entries inserted
    one after the other under a date the document does not have yet end up
    under one heading, the second above the first, and the old document
    below them. *)
Theorem insertEntry_newest_first (content date first second : string) :
  Js.includes content ("# " +:+ date) = false ->
  Js.includes date Js.nl = false ->
  insertEntry (insertEntry content date first) date second
  = ("# " +:+ date) +:+ Js.nl +:+ second +:+ Js.nl +:+ Js.nl +:+ first +:+ Js.nl
    +:+ Js.nl +:+ content.
Proof.
  intros Hc Hd. rewrite (insertEntry_new content date first Hc).
  pose proof (insertEntry_existing EmptyString
                (Js.nl +:+ first +:+ Js.nl +:+ Js.nl +:+ content) date second) as H.
  cbv zeta in H. rewrite !append_nil_l in H. rewrite !append_assoc in *.
  apply H; [exact Hd | apply noneBefore_zero].
Qed.

Lemma insertEntry_newest_first_witness :
  insertEntry (insertEntry Archives.twoDays "2024-01-17" "## one" ) "2024-01-17" "## two"
  = "# 2024-01-17" +:+ Js.nl +:+ "## two" +:+ Js.nl +:+ Js.nl +:+ "## one" +:+ Js.nl
    +:+ Js.nl +:+ Archives.twoDays.
Proof.
  apply (insertEntry_newest_first Archives.twoDays "2024-01-17" "## one" "## two");
    reflexivity.
Defined.

Lemma permalinkAt_user (s digits : string) (len : nat) :
  permalinkAt s = Some (digits, len) ->
  exists user rest,
    s = permalink user digits +:+ rest
    /\ user <> EmptyString
    /\ Js.every Js.isWord user = true
    /\ digits <> EmptyString
    /\ Js.every Js.isDigit digits = true.
Proof.
  unfold permalinkAt. intros H.
  destruct (stripPrefix "x.com/" s) as [r1|] eqn:E1; [| discriminate].
  cbn [mbind option_bind] in H.
  destruct (span Js.isWord r1) as [user r2] eqn:E2.
  destruct (stripPrefix "/status/" r2) as [r3|] eqn:E3; [| discriminate].
  cbn [mbind option_bind] in H.
  destruct (span Js.isDigit r3) as [ds rest] eqn:E4.
  destruct user as [|u0 user]; [discriminate |].
  destruct ds as [|d0 ds]; [discriminate |].
  injection H as <- <-.
  apply stripPrefix_spec in E1, E3.
  apply span_spec in E2 as [E2 Hu], E4 as [E4 Hd].
  exists (String u0 user), rest. subst.
  repeat split; try assumption; try discriminate.
  unfold permalink. now rewrite !append_assoc.
Qed.

Lemma permalinkIds_sound (s d : string) (skip : nat) :
  In d (permalinkIds skip s) ->
  exists pre user rest,
    s = pre +:+ permalink user d +:+ rest
    /\ user <> EmptyString
    /\ Js.every Js.isWord user = true
    /\ d <> EmptyString
    /\ Js.every Js.isDigit d = true.
Proof.
  revert skip. induction s as [|c s IH]; intros skip H; [destruct H |].
  assert (Hrec : forall k, In d (permalinkIds k s) ->
            exists pre user rest,
              String c s = pre +:+ permalink user d +:+ rest
              /\ user <> EmptyString /\ Js.every Js.isWord user = true
              /\ d <> EmptyString /\ Js.every Js.isDigit d = true).
  { intros k Hk. destruct (IH k Hk) as (pre & user & rest & -> & Hrest).
    exists (String c pre), user, rest. split; [now rewrite append_cons | exact Hrest]. }
  cbn [permalinkIds] in H. destruct skip as [|k]; [| now apply (Hrec k)].
  destruct (permalinkAt (String c s)) as [[ds len]|] eqn:E; [| now apply (Hrec 0%nat)].
  destruct H as [<-|H]; [| now apply (Hrec (len - 1)%nat)].
  destruct (permalinkAt_user _ _ _ E) as (user & rest & Hs & Hrest).
  exists EmptyString, user, rest. split; [now rewrite append_nil_l | exact Hrest].
Qed.

(** X11: only permalinks make a bookmark known.  Every identifier
    [_loadExistingIds] returns is a non-empty run of digits that stands in
    the archive file right after [x.com/], a non-empty user name of word
    characters and [/status/]. *)
Theorem loadExistingIds_sound (this : Pipeline) (w : World) (d : string) :
  d ∈ Run._loadExistingIds this w ->
  exists document pre user rest,
    files w !! Run.archiveFile this = Some document
    /\ document = pre +:+ permalink user d +:+ rest
    /\ user <> EmptyString
    /\ Js.every Js.isWord user = true
    /\ d <> EmptyString
    /\ Js.every Js.isDigit d = true.
Proof.
  unfold Run._loadExistingIds. intros H.
  destruct (files w !! Run.archiveFile this) as [document|].
  - apply elem_of_list_to_set, list_elem_of_In in H.
    destruct (permalinkIds_sound _ _ _ H) as (pre & user & rest & Hrest).
    exists document, pre, user, rest. split; [reflexivity | exact Hrest].
  - now apply elem_of_empty in H.
Qed.

Lemma loadExistingIds_sound_witness :
  exists document pre user rest,
    files Scenarios.archived !! Run.archiveFile Fixtures.DEFAULT_CONFIG = Some document
    /\ document = pre +:+ permalink user "42" +:+ rest
    /\ user <> EmptyString
    /\ Js.every Js.isWord user = true
    /\ "42" <> EmptyString
    /\ Js.every Js.isDigit "42" = true.
Proof.
  apply (loadExistingIds_sound Fixtures.DEFAULT_CONFIG Scenarios.archived "42").
  apply elem_of_list_to_set, list_elem_of_In. vm_compute. now left.
Defined.

Lemma archiveEntry_tweet (bookmark : Bookmark) (reasoning : ReasoningResult)
    (category : CategoryRule) (slug : string) :
  exists a b,
    archiveEntry bookmark reasoning category slug
    = a +:+ tweetUrl bookmark +:+ Js.nl +:+ b.
Proof.
  unfold archiveEntry. cbv zeta. unfold Js.concat at 1. cbn [fold_right].
  exists (Js.concat [ "## @"; author bookmark; " - "; title reasoning; Js.nl;
                      "> "; text bookmark; Js.nl; Js.nl; "- **Tweet:** " ]).
  eexists. unfold Js.concat at 4. cbn [fold_right].
  rewrite !append_assoc, append_nil_l. reflexivity.
Qed.

(** X12: a filed bookmark is remembered.  Once a bookmark has been processed
    and its file written, its identifier is among the ones read back from
    the archive, so a later run over the same bookmark skips it and leaves
    the disk alone.  The tweet URL has to be a permalink of the bookmark:
    [x.com/], a user name, [/status/] and the identifier, all digits. *)
Theorem filed_bookmark_is_remembered (host : Host) (this : Pipeline)
    (bookmark : Bookmark) (w w' : World) (res : ProcessingResult)
    (pre user : string) :
  Run._processBookmark host this bookmark w = (Ok res, w') ->
  res_filePath res <> None ->
  tweetUrl bookmark = pre +:+ permalink user (id bookmark) ->
  user <> EmptyString -> Js.every Js.isWord user = true ->
  id bookmark <> EmptyString -> Js.every Js.isDigit (id bookmark) = true ->
  id bookmark ∈ Run._loadExistingIds this w'
  /\ Run.process host this [bookmark] w'
     = ({| processed := 0; total := 1; results := [] |}, w').
Proof.
  intros Hrun Hfile Hurl Hu Huw Hd Hdd.
  assert (Hin : id bookmark ∈ Run._loadExistingIds this w').
  { destruct (processBookmark_steps host this bookmark w)
      as (reasoning & w1 & category & _ & _ & _ & Hstep).
    cbv zeta in Hstep. rewrite Hrun in Hstep.
    destruct (String.eqb (action category) "file").
    - destruct (writeError host _); [discriminate Hstep |].
      destruct (writeError host _); [discriminate Hstep |].
      injection Hstep as _ ->.
      destruct (insertEntry_contains
                  (default EmptyString
                     (files (withFile host this bookmark reasoning category w1)
                        !! Run.archiveFile this))
                  (archiveDate bookmark)
                  (archiveEntry bookmark reasoning category
                     (_generateSlug (title reasoning) (author bookmark))))
        as (a & b & Hins).
      destruct (archiveEntry_tweet bookmark reasoning category
                  (_generateSlug (title reasoning) (author bookmark)))
        as (e1 & e2 & He).
      apply (loadExistingIds_permalink this _ (a +:+ e1 +:+ pre) user (id bookmark)
               (Js.nl +:+ e2 +:+ b)); try assumption; [| reflexivity].
      unfold withEntry. cbn [files]. rewrite lookup_insert_eq. f_equal.
      rewrite Hins, He, Hurl. now rewrite !append_assoc.
    - injection Hstep as -> _. now contradiction Hfile. }
  split; [exact Hin |].
  unfold Run.process.
  now rewrite (processLoop_known host this bookmark _ [] w' Hin).
Qed.

Lemma filed_bookmark_is_remembered_witness :
  id Scenarios.withRepo
    ∈ Run._loadExistingIds Fixtures.DEFAULT_CONFIG
        (snd (Run._processBookmark Fixtures.quietHost Fixtures.DEFAULT_CONFIG
                Scenarios.withRepo Fixtures.emptyWorld)).
Proof.
  apply (filed_bookmark_is_remembered Fixtures.quietHost Fixtures.DEFAULT_CONFIG
           Scenarios.withRepo Fixtures.emptyWorld _
           (resultOf Scenarios.withRepo
              (_generateDefaultMetadata Scenarios.withRepo)
              Fixtures.githubRule (Some "knowledge/tools/hello-fcc835eb.md"))
           "https://" "alice");
    try (by_evaluation); discriminate.
Defined.

End MoreArchive.

(** ** Paths: the name of the file that is written *)

Section MorePaths.
Import FreeModePipeline.

Lemma splitSlash_aux_plain (f : string) :
  Js.every (isNot "/") f = true -> Path.splitSlash_aux f = (f, []).
Proof.
  induction f as [|c f IH]; intros H; [reflexivity |].
  cbn [Js.every] in H. apply andb_true_iff in H as [Hc Hf].
  cbn [Path.splitSlash_aux]. rewrite (IH Hf).
  unfold isNot in Hc. apply negb_true_iff in Hc.
  rewrite Ascii.eqb_sym in Hc. now rewrite Hc.
Qed.

Lemma splitSlash_aux_app (a t : string) :
  Path.splitSlash_aux (a +:+ String "/" t)
  = (fst (Path.splitSlash_aux a), snd (Path.splitSlash_aux a) ++ Path.segments t).
Proof.
  induction a as [|c a IH].
  - rewrite append_nil_l. cbn [Path.splitSlash_aux]. unfold Path.segments.
    destruct (Path.splitSlash_aux t) as [w ws]. reflexivity.
  - rewrite append_cons. cbn [Path.splitSlash_aux]. rewrite IH.
    destruct (Path.splitSlash_aux a) as [w ws]. cbn [fst snd].
    destruct (Ascii.eqb c "/"); reflexivity.
Qed.

Lemma segments_app (a t : string) :
  Path.segments (a +:+ String "/" t) = Path.segments a ++ Path.segments t.
Proof.
  unfold Path.segments at 1 2. rewrite splitSlash_aux_app.
  destruct (Path.splitSlash_aux a) as [w ws]. reflexivity.
Qed.

Lemma segments_plain (f : string) :
  Js.every (isNot "/") f = true -> Path.segments f = [f].
Proof. intros H. unfold Path.segments. now rewrite (splitSlash_aux_plain f H). Qed.

Lemma endsWithSlash_plain (x f : string) :
  f <> EmptyString -> Js.every (isNot "/") f = true ->
  Path.endsWithSlash (x +:+ f) = false.
Proof.
  intros Hne Hf. induction x as [|c x IH].
  - rewrite append_nil_l.
    induction f as [|c f IH]; [now contradiction Hne |].
    cbn [Js.every] in Hf. apply andb_true_iff in Hf as [Hc Hf].
    destruct f as [|d f].
    + cbn [Path.endsWithSlash]. unfold isNot in Hc. apply negb_true_iff in Hc.
      now rewrite Ascii.eqb_sym.
    + change (Path.endsWithSlash (String d f) = false). apply IH; [discriminate | exact Hf].
  - rewrite append_cons. destruct (x +:+ f) as [|d r] eqn:E.
    + destruct x; [| discriminate E]. rewrite append_nil_l in E. now contradiction Hne.
    + exact IH.
Qed.

Lemma join_snoc (sep x : string) (l : list string) :
  l <> [] -> Js.join sep (l ++ [x]) = Js.join sep l +:+ sep +:+ x.
Proof.
  induction l as [|y l IH]; intros Hl; [now contradiction Hl |].
  destruct l as [|z l].
  - reflexivity.
  - change (Js.join sep ((y :: z :: l) ++ [x]))
      with (y +:+ sep +:+ Js.join sep ((z :: l) ++ [x])).
    rewrite IH by discriminate.
    change (Js.join sep (y :: z :: l)) with (y +:+ sep +:+ Js.join sep (z :: l)).
    now rewrite !append_assoc.
Qed.

Lemma normalizeStep_plain (allow : bool) (res : list string) (f : string) :
  plainName f -> Path.normalizeStep allow res f = f :: res.
Proof.
  intros (Hne & _ & Hdot & Hdots). unfold Path.normalizeStep.
  destruct (String.eqb_spec f ""); [now contradiction Hne |].
  destruct (String.eqb_spec f "."); [now contradiction Hdot |].
  destruct (String.eqb_spec f ".."); [now contradiction Hdots |].
  reflexivity.
Qed.

Lemma normalize_keeps_name (p f : string) (segs : list string) :
  plainName f ->
  Path.segments p = segs ++ [f] ->
  Path.endsWithSlash p = false ->
  exists dir, Path.normalize p = dir +:+ f /\ emptyOrEndsWith "/" dir.
Proof.
  intros Hf Hsegs Hend. unfold Path.normalize.
  destruct p as [|c p].
  { destruct segs; discriminate Hsegs || (destruct segs; discriminate Hsegs) || idtac.
    cbn in Hsegs. injection Hsegs as <-. now destruct Hf as [Hf _]. }
  rewrite Hsegs, Hend, fold_left_app. cbn [fold_left].
  rewrite (normalizeStep_plain _ _ f Hf). cbn [rev].
  set (kept := rev (fold_left _ segs [])).
  assert (Hbody : exists b, Js.join "/" (kept ++ [f]) = b +:+ f /\ emptyOrEndsWith "/" b).
  { destruct kept as [|k kept].
    - exists EmptyString. split; [reflexivity | now left].
    - rewrite join_snoc by discriminate.
      exists (Js.join "/" (k :: kept) +:+ "/"). split; [now rewrite append_assoc |].
      right. now eexists. }
  destruct Hbody as (b & -> & Hb).
  destruct (b +:+ f) as [|d body] eqn:Ebody.
  { destruct b; [| discriminate Ebody]. rewrite append_nil_l in Ebody.
    now destruct Hf as [Hf _]. }
  rewrite <- Ebody, append_nil_r.
  destruct (Js.startsWith (String c p) "/").
  - exists ("/" +:+ b). split; [now rewrite append_assoc |].
    destruct Hb as [->|[b' ->]]; right.
    + now exists EmptyString.
    + exists ("/" +:+ b'). now rewrite append_assoc.
  - exists b. split; [now rewrite append_nil_l | exact Hb].
Qed.

Lemma join_keeps_name (a f : string) :
  plainName f ->
  exists dir, Path.join a f = dir +:+ f /\ emptyOrEndsWith "/" dir.
Proof.
  intros Hf. pose proof Hf as (Hne & Hplain & _).
  unfold Path.join. destruct a as [|c a]; destruct f as [|d f];
    try (now contradiction Hne).
  - apply (normalize_keeps_name _ _ []); [exact Hf | now apply segments_plain |].
    rewrite <- (append_nil_l (String d f)). now apply endsWithSlash_plain.
  - apply (normalize_keeps_name _ _ (Path.segments (String c a))); [exact Hf | |].
    + change (String c a +:+ "/" +:+ String d f)
        with (String c a +:+ String "/" (String d f)).
      rewrite segments_app. now rewrite (segments_plain _ Hplain).
    + rewrite <- append_assoc. now apply endsWithSlash_plain.
Qed.

Lemma slugSafe_no_slash (s : string) :
  Js.every slugSafe s = true -> Js.every (isNot "/") s = true.
Proof.
  apply every_impl. intros c Hc. unfold isNot.
  destruct (Ascii.eqb_spec "/" c) as [<-|]; [discriminate Hc | reflexivity].
Qed.

Lemma slug_file_plain (title author : string) :
  plainName (_generateSlug title author +:+ ".md").
Proof.
  pose proof (generateSlug_chars title author) as Hsafe.
  pose proof (generateSlug_length title author) as Hlen.
  assert (Hlen' : (12 <= String.length (_generateSlug title author +:+ ".md"))%nat).
  { rewrite length_append. cbn [String.length]. lia. }
  repeat split.
  - intros E. rewrite E in Hlen'. cbn in Hlen'. lia.
  - rewrite every_append, (slugSafe_no_slash _ Hsafe). reflexivity.
  - intros E. rewrite E in Hlen'. cbn in Hlen'. lia.
  - intros E. rewrite E in Hlen'. cbn in Hlen'. lia.
Qed.

(** X13: the file of a bookmark is always called after its slug.  Whatever
    the folder of the category is, [path.join] leaves the file name alone:
    the path is a directory part, empty or ending in a slash, followed by
    the slug and [.md]. *)
Theorem file_is_named_after_slug (this : Pipeline) (category : CategoryRule)
    (title author : string) :
  exists dir,
    filePathOf this category (_generateSlug title author)
    = dir +:+ _generateSlug title author +:+ ".md"
    /\ emptyOrEndsWith "/" dir.
Proof.
  unfold filePathOf. apply join_keeps_name, slug_file_plain.
Qed.

Lemma bookmarks_md_plain : plainName "bookmarks.md".
Proof. repeat split; discriminate || reflexivity. Qed.

End MorePaths.

(** ** A run over a batch: results, requests and the disk *)

Section MoreBatch.
Import FreeModePipeline.
Variable host : Host.
Variable this : Pipeline.

Lemma processBookmark_id (b : Bookmark) (w w' : World) (r : ProcessingResult) :
  Run._processBookmark host this b w = (Ok r, w') -> res_id r = id b.
Proof.
  intros H.
  destruct (processBookmark_steps host this b w)
    as (reasoning & w1 & category & _ & _ & _ & Hstep).
  cbv zeta in Hstep. rewrite H in Hstep.
  destruct (String.eqb (action category) "file").
  - destruct (writeError host _); [discriminate Hstep |].
    destruct (writeError host _); [discriminate Hstep |].
    now injection Hstep as -> _.
  - now injection Hstep as -> _.
Qed.

Lemma client_sent (client : OpenRouterClient.Client) (before : list string)
    (prompt : string) (timeout : N) :
  snd (OpenRouterClient.getReasoning client before prompt timeout) = before
  \/ snd (OpenRouterClient.getReasoning client before prompt timeout) = before ++ [prompt].
Proof.
  unfold OpenRouterClient.getReasoning.
  destruct (OpenRouterClient.apiKey client) as [[|c k]|]; cbn [snd]; auto.
Qed.

Lemma getReasoning_sent (b : Bookmark) (w : World) :
  sent (snd (Run._getReasoning this b w)) = sent w
  \/ sent (snd (Run._getReasoning this b w)) = sent w ++ [_buildPrompt b].
Proof.
  unfold Run._getReasoning. cbv zeta.
  destruct (_ >? 3000); [now left |].
  pose proof (client_sent (reasoner this) (sent w) (_buildPrompt b) 20000) as H.
  destruct (OpenRouterClient.getReasoning _ _ _ _) as [[r|e] sent']; exact H.
Qed.

Lemma processBookmark_sent (b : Bookmark) (w : World) :
  sent (snd (Run._processBookmark host this b w))
  = sent (snd (Run._getReasoning this b w)).
Proof.
  destruct (processBookmark_steps host this b w)
    as (reasoning & w1 & category & Hr & _ & _ & Hstep).
  cbv zeta in Hstep. rewrite Hstep, Hr.
  destruct (String.eqb (action category) "file"); [| reflexivity].
  destruct (writeError host _); [reflexivity |].
  destruct (writeError host _); reflexivity.
Qed.

(** A property of worlds that every bookmark keeps is kept by the loop. *)
Lemma processLoop_world (R : World -> World -> Prop) :
  (forall w, R w w) ->
  (forall w1 w2 w3, R w1 w2 -> R w2 w3 -> R w1 w3) ->
  (forall b w, R w (snd (Run._processBookmark host this b w))) ->
  forall bs ids res w, R w (snd (Run.processLoop host this bs ids res w)).
Proof.
  intros Hrefl Htrans Hstep bs.
  induction bs as [|b bs IH]; intros ids res w; [apply Hrefl |].
  cbn [Run.processLoop]. destruct (bool_decide _); [apply IH |].
  pose proof (Hstep b w) as Hb.
  destruct (Run._processBookmark host this b w) as [[r|e] w1];
    cbn [snd] in Hb; (eapply Htrans; [exact Hb | apply IH]).
Qed.

Lemma process_world (R : World -> World -> Prop) :
  (forall w, R w w) ->
  (forall w1 w2 w3, R w1 w2 -> R w2 w3 -> R w1 w3) ->
  (forall b w, R w (snd (Run._processBookmark host this b w))) ->
  forall batch w, R w (snd (Run.process host this batch w)).
Proof.
  intros Hrefl Htrans Hstep batch w. unfold Run.process.
  pose proof (processLoop_world R Hrefl Htrans Hstep batch
                (Run._loadExistingIds this w) [] w) as H.
  destruct (Run.processLoop _ _ _ _ _ _) as [[res ids] w']. exact H.
Qed.

Lemma processLoop_results (bs : list Bookmark) (ids : gset string)
    (res : list ProcessingResult) (w : World) :
  exists new,
    fst (fst (Run.processLoop host this bs ids res w)) = res ++ new
    /\ NoDup (res_id <$> new)
    /\ (forall x, x ∈ res_id <$> new -> (x ∉ ids) /\ exists b, b ∈ bs /\ x = id b)
    /\ (length new <= length bs)%nat.
Proof.
  revert ids res w. induction bs as [|b bs IH]; intros ids res w.
  - exists []. cbn. rewrite app_nil_r.
    split; [reflexivity |]. split; [constructor |]. split; [| lia].
    intros x Hx; now apply elem_of_nil in Hx.
  - cbn [Run.processLoop]. destruct (bool_decide (id b ∈ ids)) eqn:Eb.
    + destruct (IH ids res w) as (new & Hres & Hnd & Hnew & Hlen).
      exists new. repeat split; try assumption.
      * now apply Hnew.
      * destruct (Hnew x H) as [_ (b' & Hb' & ->)].
        exists b'. split; [now apply list_elem_of_further | reflexivity].
      * cbn [length]. lia.
    + apply bool_decide_eq_false in Eb.
      destruct (Run._processBookmark host this b w) as [[r|e] w1] eqn:Er.
      * pose proof (processBookmark_id b w w1 r Er) as Hid.
        destruct (IH ({[id b]} ∪ ids) (res ++ [r]) w1) as (new & Hres & Hnd & Hnew & Hlen).
        exists (r :: new). split; [now rewrite Hres, <- app_assoc |].
        cbn [fmap list_fmap]. fold (res_id <$> new). rewrite Hid.
        split; [| split].
        -- apply NoDup_cons. split; [| exact Hnd].
           intros Hin. destruct (Hnew _ Hin) as [Hno _].
           apply Hno, elem_of_union_l. now apply elem_of_singleton.
        -- intros x Hx. apply elem_of_cons in Hx as [->|Hx].
           ++ split; [exact Eb |]. exists b. split; [apply list_elem_of_here | reflexivity].
           ++ destruct (Hnew x Hx) as [Hno (b' & Hb' & ->)]. split.
              ** intros Hin. apply Hno. now apply elem_of_union_r.
              ** exists b'. split; [now apply list_elem_of_further | reflexivity].
        -- cbn [length]. lia.
      * destruct (IH ids res w1) as (new & Hres & Hnd & Hnew & Hlen).
        exists new. repeat split; try assumption.
        -- now apply Hnew.
        -- destruct (Hnew x H) as [_ (b' & Hb' & ->)].
           exists b'. split; [now apply list_elem_of_further | reflexivity].
        -- cbn [length]. lia.
Qed.

(** X14: a run reports every bookmark at most once.  The identifiers of the
    results are pairwise distinct, each is the identifier of a bookmark of
    the batch, none was in the archive when the run began, and no more
    bookmarks are counted as processed than the batch holds. *)
Theorem process_results_are_new (batch : list Bookmark) (w : World) :
  let s := fst (Run.process host this batch w) in
  NoDup (res_id <$> results s)
  /\ (forall r, r ∈ results s ->
        (res_id r ∉ Run._loadExistingIds this w)
        /\ exists b, b ∈ batch /\ res_id r = id b)
  /\ (processed s <= total s)%nat.
Proof.
  cbv zeta. unfold Run.process.
  destruct (processLoop_results batch (Run._loadExistingIds this w) [] w)
    as (new & Hres & Hnd & Hnew & Hlen).
  destruct (Run.processLoop _ _ _ _ _ _) as [[res ids] w'].
  cbn [fst snd results processed total] in *. subst res.
  repeat split; try assumption.
  - apply (Hnew (res_id r)). now apply list_elem_of_fmap_2.
  - apply (Hnew (res_id r)). now apply list_elem_of_fmap_2.
Qed.

Lemma processLoop_prompts (bs : list Bookmark) (ids : gset string)
    (res : list ProcessingResult) (w : World) :
  exists asked,
    sublist asked bs
    /\ sent (snd (Run.processLoop host this bs ids res w))
       = sent w ++ (_buildPrompt <$> asked)
    /\ (forall b, b ∈ asked -> id b ∉ ids).
Proof.
  revert ids res w. induction bs as [|b bs IH]; intros ids res w.
  - exists []. cbn. rewrite app_nil_r.
    split; [constructor |]. split; [reflexivity |].
    intros b Hb; now apply elem_of_nil in Hb.
  - cbn [Run.processLoop]. destruct (bool_decide (id b ∈ ids)) eqn:Eb.
    + destruct (IH ids res w) as (asked & Hsub & Hsent & Hnew).
      exists asked. repeat split; [now apply sublist_cons | exact Hsent | now apply Hnew].
    + apply bool_decide_eq_false in Eb.
      pose proof (processBookmark_sent b w) as Hs.
      pose proof (getReasoning_sent b w) as Hg. rewrite <- Hs in Hg. clear Hs.
      assert (Hrest : forall ids1 res1,
                ids ⊆ ids1 ->
                exists asked,
                  sublist asked (b :: bs)
                  /\ sent (snd (Run.processLoop host this bs ids1 res1
                                  (snd (Run._processBookmark host this b w))))
                     = sent w ++ (_buildPrompt <$> asked)
                  /\ (forall b', b' ∈ asked -> id b' ∉ ids)).
      { intros ids1 res1 Hids.
        destruct (IH ids1 res1 (snd (Run._processBookmark host this b w)))
          as (asked & Hsub & Hsent & Hnew).
        assert (Hnew' : forall b', b' ∈ asked -> id b' ∉ ids).
        { intros b' Hb' Hin. apply (Hnew b' Hb'). now apply Hids. }
        destruct Hg as [Hg|Hg]; rewrite Hg in Hsent.
        - exists asked. repeat split; [now apply sublist_cons | exact Hsent | exact Hnew'].
        - exists (b :: asked). repeat split.
          + now apply sublist_skip.
          + rewrite Hsent, <- app_assoc. reflexivity.
          + intros b' Hb'. apply elem_of_cons in Hb' as [->|Hb']; [exact Eb | now apply Hnew']. }
      destruct (Run._processBookmark host this b w) as [[r|e] w1]; cbn [snd] in Hrest.
      * apply Hrest. apply union_subseteq_r.
      * now apply Hrest.
Qed.

(** X15: a run asks the model at most once per bookmark.  The prompts sent
    during a run are the prompts of some of the bookmarks of the batch, in
    the order of the batch and after everything sent before; a bookmark that
    was in the archive when the run began is never sent. *)
Theorem process_asks_once_per_bookmark (batch : list Bookmark) (w : World) :
  exists asked,
    sublist asked batch
    /\ sent (snd (Run.process host this batch w)) = sent w ++ (_buildPrompt <$> asked)
    /\ (forall b, b ∈ asked -> id b ∉ Run._loadExistingIds this w).
Proof.
  unfold Run.process.
  destruct (processLoop_prompts batch (Run._loadExistingIds this w) [] w)
    as (asked & Hsub & Hsent & Hnew).
  exists asked.
  destruct (Run.processLoop _ _ _ _ _ _) as [[res ids] w']. now repeat split.
Qed.

Lemma keepsFiles_refl (w : World) : keepsFiles w w.
Proof. intros path. split; auto. Qed.

Lemma keepsFiles_trans (w1 w2 w3 : World) :
  keepsFiles w1 w2 -> keepsFiles w2 w3 -> keepsFiles w1 w3.
Proof.
  intros H12 H23 path. destruct (H12 path) as [Ha Hb], (H23 path) as [Hc Hd].
  split; [auto |]. intros Hp. now rewrite (Hd Hp), (Hb Hp).
Qed.

Lemma keepsFiles_insert (w w' : World) (x data : string) :
  files w' = <[x +:+ ".md" := data]> (files w) -> keepsFiles w w'.
Proof.
  intros H path. rewrite H. split.
  - intros Hs. apply lookup_insert_is_Some'. now right.
  - intros Hp. apply lookup_insert_ne. intros E. now apply (Hp x).
Qed.

Lemma keepsFiles_same (w w' : World) : files w' = files w -> keepsFiles w w'.
Proof. intros H path. rewrite H. split; auto. Qed.

Lemma archiveFile_markdown : exists x, Run.archiveFile this = x +:+ ".md".
Proof.
  unfold Run.archiveFile.
  destruct (join_keeps_name (Run.outputDir this) "bookmarks.md" bookmarks_md_plain)
    as (dir & -> & _).
  exists (dir +:+ "bookmarks"). now rewrite append_assoc.
Qed.

Lemma filePath_markdown (category : CategoryRule) (title author : string) :
  exists x, filePathOf this category (_generateSlug title author) = x +:+ ".md".
Proof.
  unfold filePathOf.
  destruct (join_keeps_name (Js.orOpt (folder category) (Run.toolsDir this))
              (_generateSlug title author +:+ ".md") (slug_file_plain title author))
    as (dir & -> & _).
  exists (dir +:+ _generateSlug title author). now rewrite append_assoc.
Qed.

Lemma processBookmark_keepsFiles (b : Bookmark) (w : World) :
  keepsFiles w (snd (Run._processBookmark host this b w)).
Proof.
  destruct (processBookmark_steps host this b w)
    as (reasoning & w1 & category & _ & Hfiles & _ & Hstep).
  cbv zeta in Hstep. rewrite Hstep.
  pose proof (keepsFiles_same w w1 Hfiles) as H1.
  destruct (filePath_markdown category (title reasoning) (author b)) as [x Hx].
  destruct archiveFile_markdown as [y Hy].
  assert (H2 : keepsFiles w1 (withFile host this b reasoning category w1)).
  { apply (keepsFiles_insert _ _ x
             (_generateFileContent (today host) b reasoning category +:+ Js.nl)).
    unfold withFile. cbn [files]. now rewrite Hx. }
  destruct (String.eqb (action category) "file"); [| exact H1].
  destruct (writeError host _); [exact H1 |].
  destruct (writeError host _); cbn [snd].
  - now apply keepsFiles_trans with w1.
  - apply keepsFiles_trans with w1; [exact H1 |].
    eapply keepsFiles_trans; [exact H2 |].
    eapply (keepsFiles_insert _ _ y). unfold withEntry. cbn [files].
    rewrite Hy. reflexivity.
Qed.

(** X16: a run only adds to the disk, and only Markdown files.  After
    [process] every file that existed still exists, and a file whose name
    does not end in [.md] has the content it had before. *)
Theorem process_keeps_files (batch : list Bookmark) (w : World) (path : string) :
  (is_Some (files w !! path)
   -> is_Some (files (snd (Run.process host this batch w)) !! path))
  /\ ((forall x, path <> x +:+ ".md")
      -> files (snd (Run.process host this batch w)) !! path = files w !! path).
Proof.
  apply (process_world keepsFiles keepsFiles_refl keepsFiles_trans
           processBookmark_keepsFiles batch w path).
Qed.

Lemma processLoop_read_only (bs : list Bookmark) (ids : gset string)
    (res : list ProcessingResult) (w : World) :
  (forall path, writeError host path <> None) ->
  files (snd (Run.processLoop host this bs ids res w)) = files w
  /\ (forall r, r ∈ fst (fst (Run.processLoop host this bs ids res w)) ->
        r ∈ res \/ res_filePath r = None).
Proof.
  intros Hro. revert ids res w. induction bs as [|b bs IH]; intros ids res w.
  - cbn. split; [reflexivity | auto].
  - cbn [Run.processLoop]. destruct (bool_decide _); [apply IH |].
    destruct (processBookmark_steps host this b w)
      as (reasoning & w1 & category & _ & Hfiles & _ & Hstep).
    cbv zeta in Hstep. rewrite Hstep.
    destruct (String.eqb (action category) "file").
    + destruct (writeError host _) eqn:E; [| now apply Hro in E].
      destruct (IH ids res w1) as [Hf Hr]. split; [now rewrite Hf | exact Hr].
    + destruct (IH ({[id b]} ∪ ids)
                  (res ++ [resultOf b reasoning category None]) w1) as [Hf Hr].
      split; [now rewrite Hf |].
      intros r Hin. destruct (Hr r Hin) as [Hin'|Hnone]; [| now right].
      apply elem_of_app in Hin' as [Hin'|Hin']; [now left |].
      apply list_elem_of_singleton in Hin'. subst r. now right.
Qed.

(** X17: a disk that refuses every write stops nothing but the filing.  The
    run ends, no file changes, and the results are the bookmarks that need
    no file; the bookmarks whose file could not be written are left out. *)
Theorem read_only_disk_files_nothing (batch : list Bookmark) (w : World) :
  (forall path, writeError host path <> None) ->
  files (snd (Run.process host this batch w)) = files w
  /\ (forall r, r ∈ results (fst (Run.process host this batch w)) ->
        res_filePath r = None).
Proof.
  intros Hro. unfold Run.process.
  destruct (processLoop_read_only batch (Run._loadExistingIds this w) [] w Hro)
    as [Hf Hr].
  destruct (Run.processLoop _ _ _ _ _ _) as [[res ids] w'].
  cbn [fst snd results] in *. split; [exact Hf |].
  intros r Hin. destruct (Hr r Hin) as [Hnil|H]; [| exact H].
  now apply elem_of_nil in Hnil.
Qed.

Lemma getReasoning_offline (b : Bookmark) (w : World) :
  Js.orOpt (OpenRouterClient.apiKey (reasoner this)) EmptyString = EmptyString ->
  Run._getReasoning this b w = (Ok (_generateDefaultMetadata b), w).
Proof.
  intros Hkey. unfold Run._getReasoning. cbv zeta.
  destruct (_ >? 3000); [reflexivity |].
  unfold OpenRouterClient.getReasoning.
  destruct (OpenRouterClient.apiKey (reasoner this)) as [[|c k]|];
    try discriminate Hkey; destruct w; reflexivity.
Qed.

(** X18: without an API key the pipeline works offline.  Every bookmark
    gets the default metadata and no request is ever made, whatever the
    batch is. *)
Theorem no_key_no_request (batch : list Bookmark) (w : World) :
  Js.orOpt (OpenRouterClient.apiKey (reasoner this)) EmptyString = EmptyString ->
  (forall b w0, Run._getReasoning this b w0 = (Ok (_generateDefaultMetadata b), w0))
  /\ sent (snd (Run.process host this batch w)) = sent w.
Proof.
  intros Hkey. split; [intros b w0; now apply getReasoning_offline |].
  apply (process_world (fun w1 w2 => sent w2 = sent w1)).
  - reflexivity.
  - intros w1 w2 w3 H12 H23. now rewrite H23.
  - intros b w0. rewrite processBookmark_sent.
    now rewrite (getReasoning_offline b w0 Hkey).
Qed.

End MoreBatch.

Lemma read_only_disk_files_nothing_witness :
  files (snd (Run.process readOnlyHost Fixtures.DEFAULT_CONFIG
                [Scenarios.withRepo; Scenarios.plainThought] Fixtures.emptyWorld))
  = files Fixtures.emptyWorld.
Proof.
  apply (read_only_disk_files_nothing readOnlyHost Fixtures.DEFAULT_CONFIG
           [Scenarios.withRepo; Scenarios.plainThought] Fixtures.emptyWorld).
  intros path. discriminate.
Defined.

Lemma no_key_no_request_witness :
  sent (snd (Run.process Fixtures.quietHost offline
               [Scenarios.withRepo; Scenarios.plainThought] Fixtures.emptyWorld))
  = sent Fixtures.emptyWorld.
Proof.
  apply (no_key_no_request Fixtures.quietHost offline
           [Scenarios.withRepo; Scenarios.plainThought] Fixtures.emptyWorld).
  reflexivity.
Defined.

(** ** The resolver never invents a rule *)

Section MoreResolver.
Import FreeModePipeline.
Variable categories : list (string * CategoryRule).

Lemma firstLinkCategory_registered (ls : list Link) (returned : option CategoryRule) :
  firstLinkCategory categories ls = Some returned ->
  exists k rule, returned = Some rule /\ categories_get categories k = Some rule.
Proof.
  induction ls as [|l ls IH]; intros H; [discriminate H |].
  cbn [firstLinkCategory] in H.
  destruct (_findCategoryByUrl categories (expanded l)) as [[|c k]|] eqn:E;
    try (now apply IH).
  injection H as <-.
  destruct (findIn_lookupIn categories _ _ E) as [rule Hrule].
  exists (String c k), rule. split; exact Hrule.
Qed.

(** X19: the resolver is closed over the registry.  The rule it returns is
    an entry of the configured registry, or else the built-in rule for plain
    tweets, whose action is [capture]; nothing else is ever returned. *)
Theorem matchCategory_is_closed (bookmark : Bookmark)
    (reasoning : option ReasoningResult) :
  exists rule,
    _matchCategory categories bookmark reasoning = Some rule
    /\ (rule = fallbackRule
        \/ exists k, categories_get categories k = Some rule).
Proof.
  unfold _matchCategory. cbv zeta.
  generalize (resolveKey bookmark reasoning). intros matchedKey.
  assert (Hline : exists rule,
            match categories_get categories (propertyName matchedKey) with
            | Some result => Some result
            | None => Some fallbackRule
            end = Some rule
            /\ (rule = fallbackRule \/ exists k, categories_get categories k = Some rule)).
  { destruct (categories_get categories (propertyName matchedKey)) as [rule|] eqn:E.
    - exists rule. split; [reflexivity |]. right. now exists (propertyName matchedKey).
    - exists fallbackRule. split; [reflexivity | now left]. }
  destruct (isTweet matchedKey); [| exact Hline].
  destruct (firstLinkCategory categories (links bookmark)) as [returned|] eqn:E;
    [| exact Hline].
  destruct (firstLinkCategory_registered _ _ E) as (k & rule & -> & Hk).
  exists rule. split; [reflexivity |]. right. now exists k.
Qed.

(** X20: the order of the registry decides between matching entries.
    [_findCategoryByUrl] returns the key of the first entry, in the order of
    the registry, one of whose patterns occurs in the URL; it returns
    nothing exactly when no entry has such a pattern. *)
Theorem findCategoryByUrl_first_match (url : string) :
  match _findCategoryByUrl categories url with
  | Some k =>
      exists pre rule post,
        categories = pre ++ (k, rule) :: post
        /\ includesAny url (matches rule) = true
        /\ Forall (fun e => includesAny url (matches (snd e)) = false) pre
  | None => Forall (fun e => includesAny url (matches (snd e)) = false) categories
  end.
Proof.
  unfold _findCategoryByUrl. induction categories as [|[k rule] rest IH].
  - constructor.
  - cbn [findIn]. destruct (includesAny url (matches rule)) eqn:E.
    + exists [], rule, rest. split; [reflexivity |]. split; [exact E | constructor].
    + destruct (findIn rest url) as [k'|].
      * destruct IH as (pre & rule' & post & -> & Hm & Hpre).
        exists ((k, rule) :: pre), rule', post.
        split; [reflexivity |]. split; [exact Hm |]. now constructor.
      * now constructor.
Qed.

End MoreResolver.

(** ** The archive entry links to the file that was written *)

Section MoreLinks.
Import FreeModePipeline.

Lemma includes_refl (s : string) : Js.includes s s = true.
Proof.
  rewrite includes_unfold.
  pose proof (startsWith_refl_app s EmptyString) as H. rewrite append_nil_r in H.
  now rewrite H.
Qed.

Lemma join_plain_truthy (names : list string) :
  names <> [] -> Forall plainName names -> Js.join "/" names <> EmptyString.
Proof.
  intros Hne Hall. destruct Hall as [|x l (Hx & _) _]; [now contradiction Hne |].
  destruct x as [|c x]; [now contradiction Hx |].
  destruct l; discriminate.
Qed.

Lemma segments_join (names : list string) :
  names <> [] -> Forall plainName names -> Path.segments (Js.join "/" names) = names.
Proof.
  intros Hne Hall. induction Hall as [|x l Hx Hl IH]; [now contradiction Hne |].
  destruct Hx as (_ & Hx & _).
  destruct l as [|y l]; [now apply segments_plain |].
  change (Js.join "/" (x :: y :: l)) with (x +:+ String "/" (Js.join "/" (y :: l))).
  rewrite segments_app, (segments_plain x Hx), IH by discriminate. reflexivity.
Qed.

Lemma fold_normalizeStep_plain (allow : bool) (names res : list string) :
  Forall plainName names ->
  fold_left (Path.normalizeStep allow) names res = rev names ++ res.
Proof.
  intros Hall. revert res. induction Hall as [|x l Hx Hl IH]; intros res; [reflexivity |].
  cbn [fold_left rev]. rewrite (normalizeStep_plain allow res x Hx), IH.
  now rewrite <- app_assoc.
Qed.

Lemma normalize_relative (p body : string) :
  p <> EmptyString ->
  Js.startsWith p "/" = false ->
  Path.endsWithSlash p = false ->
  Js.join "/" (rev (fold_left (Path.normalizeStep true) (Path.segments p) [])) = body ->
  body <> EmptyString ->
  Path.normalize p = body.
Proof.
  intros Hp Hstart Hend Hbody Hne. unfold Path.normalize.
  destruct p as [|c p]; [now contradiction Hp |].
  cbv zeta. rewrite Hstart, Hend. cbn [negb]. rewrite Hbody.
  destruct body as [|d body]; [now contradiction Hne |].
  now rewrite append_nil_l, append_nil_r.
Qed.

Lemma join_relativeFolder (names : list string) (f : string) :
  names <> [] -> Forall plainName names -> plainName f ->
  Path.join (relativeFolder names) f = Js.join "/" names +:+ "/" +:+ f.
Proof.
  intros Hne Hall Hf. pose proof Hf as (Hfne & Hfplain & _).
  unfold relativeFolder, Path.join.
  change ("./" +:+ Js.join "/" names) with (String "." (String "/" (Js.join "/" names))).
  destruct f as [|c f]; [now contradiction Hfne |].
  set (name := String c f) in *.
  apply normalize_relative.
  - discriminate.
  - reflexivity.
  - rewrite <- append_assoc. now apply endsWithSlash_plain.
  - change (String "." (String "/" (Js.join "/" names)) +:+ "/" +:+ name)
      with ("." +:+ String "/" (Js.join "/" names +:+ String "/" name)).
    rewrite segments_app, segments_app, (segments_join names Hne Hall).
    rewrite (segments_plain name Hfplain).
    change (Path.segments ".") with ["."]. cbn [app fold_left].
    change (Path.normalizeStep true [] ".") with (@nil string).
    rewrite fold_normalizeStep_plain
      by (apply Forall_app; split; [exact Hall | now constructor]).
    rewrite app_nil_r, rev_involutive, join_snoc by exact Hne. reflexivity.
  - intros E. apply (f_equal String.length) in E.
    rewrite !length_append in E. cbn [String.length] in E. lia.
Qed.

(** X21: the archive entry links to the file that was written.  For a
    category that files into a folder written as [./a/b], the file goes to
    [a/b/<slug>.md], and the entry holds the line
    [- **Filed:** [<slug>.md](./a/b/<slug>.md)]: the target of the link is
    the path of the file, relative to the working directory. *)
Theorem filed_link_points_to_file (this : Pipeline) (bookmark : Bookmark)
    (reasoning : ReasoningResult) (category : CategoryRule) (names : list string) :
  names <> [] -> Forall plainName names ->
  folder category = Some (relativeFolder names) ->
  action category = "file" ->
  let slug := _generateSlug (title reasoning) (author bookmark) in
  filePathOf this category slug = Js.join "/" names +:+ "/" +:+ slug +:+ ".md"
  /\ Js.includes (archiveEntry bookmark reasoning category slug)
       (filedLine slug ("./" +:+ filePathOf this category slug)) = true.
Proof.
  intros Hne Hall Hfolder Haction slug.
  assert (Hpath : filePathOf this category slug
                  = Js.join "/" names +:+ "/" +:+ slug +:+ ".md").
  { unfold filePathOf. rewrite Hfolder.
    change (Js.orOpt (Some (relativeFolder names)) (Run.toolsDir this))
      with (relativeFolder names).
    apply join_relativeFolder; [exact Hne | exact Hall | apply slug_file_plain]. }
  split; [exact Hpath |].
  rewrite Hpath. unfold archiveEntry.
  pose proof (generateSlug_truthy (title reasoning) (author bookmark)) as Hslug.
  fold slug in Hslug. rewrite Haction, Hfolder, Hslug.
  change (String.eqb "file" "file" && true) with true. cbv iota.
  unfold Js.concat at 1. cbn [fold_right].
  do 14 apply includes_app_r. apply includes_app_l.
  replace (Js.orOpt (Js.replaceFirst "./" EmptyString <$> Some (relativeFolder names))
             "knowledge/tools")
    with (Js.join "/" names).
  - unfold filedLine, Js.concat. cbn [fold_right]. fold slug.
    rewrite !append_assoc, !append_nil_r. apply includes_refl.
  - cbn [fmap option_fmap option_map]. unfold Js.replaceFirst, relativeFolder.
    rewrite indexOf_unfold, startsWith_refl_app.
    cbn [Js.take String.length Nat.add]. rewrite append_nil_l.
    change (Js.drop 2 ("./" +:+ Js.join "/" names)) with (Js.join "/" names).
    destruct (Js.join "/" names) eqn:E; [now apply join_plain_truthy in E | reflexivity].
Qed.

Lemma filed_link_points_to_file_witness :
  filePathOf Fixtures.DEFAULT_CONFIG Fixtures.githubRule
    (_generateSlug (title (Scenarios.answered "GitHub")) (author Scenarios.withRepo))
  = Js.join "/" ["knowledge"; "tools"] +:+ "/"
    +:+ _generateSlug (title (Scenarios.answered "GitHub")) (author Scenarios.withRepo)
    +:+ ".md".
Proof.
  apply (filed_link_points_to_file Fixtures.DEFAULT_CONFIG Scenarios.withRepo
           (Scenarios.answered "GitHub") Fixtures.githubRule ["knowledge"; "tools"]).
  - discriminate.
  - repeat constructor; discriminate.
  - reflexivity.
  - reflexivity.
Defined.

End MoreLinks.
